(** * tax-document-input: validation and formatting core

    A shallow embedding of the document validators (BrazilRules,
    PortugalRules, USARules), of the dispatcher (class [Validator]), of
    the country table (CountriesData) and of the mask formatter (class
    [FormatManager]), with the properties of the specification proved
    about them.

    JavaScript strings are modelled by [string]; a character that is not
    an ASCII digit behaves like every other non-digit in all the code
    below, whatever its encoding. Numbers are the integers the code
    computes with, and [NaN]. *)

From Stdlib Require Import String Ascii ZArith List Lia Bool Sorted Permutation.
From stdpp Require Import gmap strings.
Import ListNotations.

Local Open Scope string_scope.
Local Open Scope Z_scope.

(* ================================================================== *)
(** * The JavaScript primitives the code uses *)
(* ================================================================== *)

Module Js.

(** Numbers: the integers the code computes with, and [NaN]. *)
Inductive number := NaN | Num (z : Z).

Definition add (a b : number) : number :=
  match a, b with Num x, Num y => Num (x + y) | _, _ => NaN end.

Definition sub (a b : number) : number :=
  match a, b with Num x, Num y => Num (x - y) | _, _ => NaN end.

Definition mul (a b : number) : number :=
  match a, b with Num x, Num y => Num (x * y) | _, _ => NaN end.

(** [a % b]: the sign of the result is the sign of the dividend. *)
Definition rem (a b : number) : number :=
  match a, b with
  | Num x, Num y => if y =? 0 then NaN else Num (Z.rem x y)
  | _, _ => NaN
  end.

(** [a < b]: false as soon as one side is [NaN]. *)
Definition lt (a b : number) : bool :=
  match a, b with Num x, Num y => x <? y | _, _ => false end.

(** [a !== b] on numbers: [NaN] differs from everything, itself included. *)
Definition strict_neq (a b : number) : bool :=
  match a, b with Num x, Num y => negb (x =? y) | _, _ => true end.

(** The character class [\d]. *)
Definition is_digit (c : ascii) : bool :=
  ((48 <=? nat_of_ascii c) && (nat_of_ascii c <=? 57))%nat.

Definition digit_value (c : ascii) : Z := Z.of_nat (nat_of_ascii c) - 48.

(** [s.replace(/\D/g, '')] *)
Fixpoint strip_non_digits (s : string) : string :=
  match s with
  | EmptyString => EmptyString
  | String c s' =>
      if is_digit c then String c (strip_non_digits s') else strip_non_digits s'
  end.

(** [s.charAt(i)]: the empty string out of range. *)
Definition charAt (s : string) (i : nat) : string :=
  match String.get i s with
  | Some c => String c EmptyString
  | None => EmptyString
  end.

(** [parseInt] on what [charAt] returns, a string of at most one
    character: the digit's value, [NaN] for anything else. *)
Definition parseInt (s : string) : number :=
  match s with
  | String c EmptyString => if is_digit c then Num (digit_value c) else NaN
  | _ => NaN
  end.

(** [s.slice(a, b)] for indices that are not negative. *)
Definition slice (s : string) (a b : nat) : string :=
  String.substring a (b - a) s.

Fixpoint all_chars (p : ascii -> bool) (s : string) : bool :=
  match s with
  | EmptyString => true
  | String c s' => p c && all_chars p s'
  end.

(** [/^(\d)\1{k}$/.test(s)]: a digit followed by exactly [k] copies of it. *)
Definition repeated_digit (k : nat) (s : string) : bool :=
  match s with
  | EmptyString => false
  | String c rest =>
      is_digit c && (String.length rest =? k)%nat && all_chars (Ascii.eqb c) rest
  end.

(** [weights[i]]: [undefined] out of range, which arithmetic turns into [NaN]. *)
Definition index (weights : list Z) (i : nat) : number :=
  match nth_error weights i with
  | Some w => Num w
  | None => NaN
  end.

(** [let sum = 0; for (let i = 0; i < n; i++) { sum += term(i); }] *)
Definition sum_loop (n : nat) (term : nat -> number) : number :=
  fold_left (fun sum i => add sum (term i)) (seq 0 n) (Num 0).

(** [a.toLowerCase()] on the ASCII letters; other characters are kept. *)
Definition lower (c : ascii) : ascii :=
  let n := nat_of_ascii c in
  if ((65 <=? n) && (n <=? 90))%nat then ascii_of_nat (n + 32) else c.

Fixpoint toLowerCase (s : string) : string :=
  match s with
  | EmptyString => EmptyString
  | String c s' => String (lower c) (toLowerCase s')
  end.

End Js.

Import Js.

(* ================================================================== *)
(** * Values, exceptions and validation results *)
(* ================================================================== *)

(** The JavaScript values the validators build and the dispatcher reads.
    An object literal is the list of its properties in the order they
    are written. *)
#[local] Set Warnings "-register-all".
Inductive jsval :=
| Undefined
| Null
| Bool (b : bool)
| Number (n : number)
| Str (s : string)
| Array (items : list jsval)
| Object (props : list (string * jsval)).

Fixpoint lookup_prop (k : string) (props : list (string * jsval)) : option jsval :=
  match props with
  | [] => None
  | (k', v) :: props' => if String.eqb k k' then Some v else lookup_prop k props'
  end.

(** [o.k] read from a value that is not [undefined] or [null]: a missing
    property is [undefined]. Only the data properties [isValid], [error],
    [details] and those of [details] are read this way, none of which a
    string, a number, a boolean or an array has. *)
Definition field (k : string) (v : jsval) : jsval :=
  match v with
  | Object props => match lookup_prop k props with Some x => x | None => Undefined end
  | _ => Undefined
  end.

(** Truthiness, as [||] and [!] see it. *)
Definition truthy (v : jsval) : bool :=
  match v with
  | Undefined | Null => false
  | Bool b => b
  | Number NaN => false
  | Number (Num z) => negb (z =? 0)
  | Str s => negb (String.eqb s "")
  | Array _ | Object _ => true
  end.

(** [a || b] *)
Definition or_else (a b : jsval) : jsval := if truthy a then a else b.

(** A thrown [Error] object. *)
Record exception := Error { message : string }.

(** What a call does: it returns a value or throws. *)
Inductive outcome (A : Type) :=
| Return (a : A)
| Throw (e : exception).
Arguments Return {A} a.
Arguments Throw {A} e.

#[global] Instance outcome_ret : MRet outcome := fun A a => Return a.

#[global] Instance outcome_bind : MBind outcome := fun A B k m =>
  match m with
  | Return a => k a
  | Throw e => Throw e
  end.

#[global] Instance outcome_fmap : FMap outcome := fun A B f m =>
  match m with
  | Return a => Return (f a)
  | Throw e => Throw e
  end.

(** [try { body } catch (error) { handler }] *)
Definition try_catch {A} (body : outcome A) (handler : exception -> outcome A) : outcome A :=
  match body with
  | Return a => Return a
  | Throw e => handler e
  end.

(** The message of the [TypeError] an engine raises when a property of
    [undefined] or [null] is read. The wording is the engine's (V8's is
    used); no result below depends on it. *)
Definition cannot_read (what k : string) : string :=
  "Cannot read properties of " ++ what ++ " (reading '" ++ k ++ "')".

(** [v.k] for any value [v]: reading from [undefined] or [null] throws. *)
Definition get (v : jsval) (k : string) : outcome jsval :=
  match v with
  | Undefined => Throw (Error (cannot_read "undefined" k))
  | Null => Throw (Error (cannot_read "null" k))
  | _ => Return (field k v)
  end.

(** The receiver [this] of a call. The rule files are modules, hence
    strict code: a plain call [f(x)] leaves [this] undefined, a method
    call [rules.f(x)] binds it to the rule object. *)
Inductive receiver := this_undefined | this_rules.

(** A property of a rule object: a function, or any other value. A
    rule object is the list of the properties it has, whether its
    literal lists them or it inherits them. *)
Inductive property :=
| Function (f : receiver -> string -> outcome jsval)
| Data (v : jsval).

(** A validator that does not read [this] and does not throw. *)
Definition plain (f : string -> jsval) : property :=
  Function (fun _ document => Return (f document)).

(** [digit = remainder < 2 ? 0 : 11 - remainder] *)
Definition check_of (remainder : number) : number :=
  if lt remainder (Num 2) then Num 0 else sub (Num 11) remainder.

(* ================================================================== *)
(** * src/validators/rules/BrazilRules.js *)
(* ================================================================== *)

Module BrazilRules.

Definition cpf (input : string) : jsval :=
  let cpf := strip_non_digits input in
  if negb (String.length cpf =? 11)%nat then
    Object [("isValid", Bool false);
            ("error", Str "CPF deve conter exatamente 11 dígitos");
            ("details", Object [("length", Number (Num (Z.of_nat (String.length cpf))));
                        ("expected", Number (Num 11))])]
  else if repeated_digit 10 cpf then
    Object [("isValid", Bool false);
            ("error", Str "CPF não pode ter todos os dígitos iguais");
            ("details", Object [("pattern", Str "repeated_digits")])]
  else
    let sum := sum_loop 9 (fun i => mul (parseInt (charAt cpf i)) (Num (10 - Z.of_nat i))) in
    let remainder := rem sum (Num 11) in
    let digit1 := check_of remainder in
    if strict_neq digit1 (parseInt (charAt cpf 9)) then
      Object [("isValid", Bool false);
              ("error", Str "Primeiro dígito verificador inválido");
              ("details", Object [("calculated", Number digit1);
                          ("provided", Number (parseInt (charAt cpf 9)));
                          ("sum", Number sum);
                          ("remainder", Number remainder)])]
    else
      let sum := sum_loop 10 (fun i => mul (parseInt (charAt cpf i)) (Num (11 - Z.of_nat i))) in
      let remainder := rem sum (Num 11) in
      let digit2 := check_of remainder in
      if strict_neq digit2 (parseInt (charAt cpf 10)) then
        Object [("isValid", Bool false);
                ("error", Str "Segundo dígito verificador inválido");
                ("details", Object [("calculated", Number digit2);
                            ("provided", Number (parseInt (charAt cpf 10)));
                            ("sum", Number sum);
                            ("remainder", Number remainder)])]
      else
        Object [("isValid", Bool true);
                ("error", Null);
                ("details", Object [("formatted",
                             Str (slice cpf 0 3 ++ "." ++ slice cpf 3 6 ++ "."
                                   ++ slice cpf 6 9 ++ "-" ++ slice cpf 9 11));
                            ("type", Str "personal");
                            ("country", Str "BR")])].

Definition weights1 : list Z := [5; 4; 3; 2; 9; 8; 7; 6; 5; 4; 3; 2].
Definition weights2 : list Z := [6; 5; 4; 3; 2; 9; 8; 7; 6; 5; 4; 3; 2].

Definition cnpj (input : string) : jsval :=
  let cnpj := strip_non_digits input in
  if negb (String.length cnpj =? 14)%nat then
    Object [("isValid", Bool false);
            ("error", Str "CNPJ deve conter exatamente 14 dígitos");
            ("details", Object [("length", Number (Num (Z.of_nat (String.length cnpj))));
                        ("expected", Number (Num 14))])]
  else if repeated_digit 13 cnpj then
    Object [("isValid", Bool false);
            ("error", Str "CNPJ não pode ter todos os dígitos iguais");
            ("details", Object [("pattern", Str "repeated_digits")])]
  else
    let sum := sum_loop 12 (fun i => mul (parseInt (charAt cnpj i)) (index weights1 i)) in
    let remainder := rem sum (Num 11) in
    let digit1 := check_of remainder in
    if strict_neq digit1 (parseInt (charAt cnpj 12)) then
      Object [("isValid", Bool false);
              ("error", Str "Primeiro dígito verificador inválido");
              ("details", Object [("calculated", Number digit1);
                          ("provided", Number (parseInt (charAt cnpj 12)));
                          ("sum", Number sum);
                          ("remainder", Number remainder)])]
    else
      let sum := sum_loop 13 (fun i => mul (parseInt (charAt cnpj i)) (index weights2 i)) in
      let remainder := rem sum (Num 11) in
      let digit2 := check_of remainder in
      if strict_neq digit2 (parseInt (charAt cnpj 13)) then
        Object [("isValid", Bool false);
                ("error", Str "Segundo dígito verificador inválido");
                ("details", Object [("calculated", Number digit2);
                            ("provided", Number (parseInt (charAt cnpj 13)));
                            ("sum", Number sum);
                            ("remainder", Number remainder)])]
      else
        Object [("isValid", Bool true);
                ("error", Null);
                ("details", Object [("formatted",
                             Str (slice cnpj 0 2 ++ "." ++ slice cnpj 2 5 ++ "."
                                   ++ slice cnpj 5 8 ++ "/" ++ slice cnpj 8 12 ++ "-"
                                   ++ slice cnpj 12 14));
                            ("type", Str "company");
                            ("country", Str "BR")])].

Definition rules : list (string * property) :=
  [("cpf", plain cpf); ("cnpj", plain cnpj)].

End BrazilRules.


(* ================================================================== *)
(** * PortugalRules, version 1.0.1 of [nif]: the text at the end of
      src/managers/ValidationManager.js, bundled in dist/ *)
(* ================================================================== *)

(** [list.includes(s)] on an array of strings *)
Definition includes (l : list string) (s : string) : bool :=
  existsb (String.eqb s) l.

Module PortugalRules.

Definition entityTypes : jsval :=
  Object [("1", Str "personal");
          ("2", Str "personal");
          ("3", Str "personal");
          ("5", Str "public_entity");
          ("6", Str "non_profit");
          ("7", Str "other_entity");
          ("8", Str "other_entity");
          ("9", Str "other_entity")].

Definition getEntityType (firstDigit : string) : jsval :=
  or_else (field firstDigit entityTypes) (Str "unknown").

(** [this.getEntityType(x)] *)
Definition this_getEntityType (this : receiver) (x : string) : outcome jsval :=
  match this with
  | this_undefined => Throw (Error (cannot_read "undefined" "getEntityType"))
  | this_rules => Return (getEntityType x)
  end.

Definition weights : list Z := [9; 8; 7; 6; 5; 4; 3; 2].

Definition nif (this : receiver) (input : string) : outcome jsval :=
  let nif := strip_non_digits input in
  if negb (String.length nif =? 9)%nat then
    Return (Object [("isValid", Bool false);
                    ("error", Str "NIF must contain exactly 9 digits");
                    ("details", Object [("length", Number (Num (Z.of_nat (String.length nif))));
                                        ("expected", Number (Num 9))])])
  else if repeated_digit 8 nif then
    Return (Object [("isValid", Bool false);
                    ("error", Str "NIF cannot have all digits the same");
                    ("details", Object [("pattern", Str "repeated_digits")])])
  else
    let validFirstDigits := ["1"; "2"; "3"; "5"; "6"; "7"; "8"; "9"] in
    if negb (includes validFirstDigits (charAt nif 0)) then
      Return (Object [("isValid", Bool false);
                      ("error", Str "NIF must start with 1, 2, 3, 5, 6, 7, 8 or 9");
                      ("details", Object [("firstDigit", Str (charAt nif 0));
                                          ("validFirstDigits", Array (map Str validFirstDigits))])])
    else
      let sum := sum_loop 8 (fun i => mul (parseInt (charAt nif i)) (index weights i)) in
      let remainder := rem sum (Num 11) in
      let checkDigit := sub (Num 11) remainder in
      let checkDigit := if lt remainder (Num 2) then Num 0 else checkDigit in
      if strict_neq checkDigit (parseInt (charAt nif 8)) then
        Return (Object [("isValid", Bool false);
                        ("error", Str "Invalid check digit");
                        ("details", Object [("calculated", Number checkDigit);
                                            ("provided", Number (parseInt (charAt nif 8)))])])
      else
        entityType ← this_getEntityType this (charAt nif 0);
        Return (Object [("isValid", Bool true);
                        ("error", Null);
                        ("details", Object [("formatted",
                                             Str (slice nif 0 3 ++ " " ++ slice nif 3 6 ++ " "
                                                  ++ slice nif 6 9));
                                            ("type", entityType);
                                            ("country", Str "PT")])]).

Definition nipc (input : string) : jsval :=
  let nipc := strip_non_digits input in
  if negb (String.length nipc =? 9)%nat then
    Object [("isValid", Bool false);
            ("error", Str "NIPC must contain exactly 9 digits");
            ("details", Object [("length", Number (Num (Z.of_nat (String.length nipc))));
                                ("expected", Number (Num 9))])]
  else if repeated_digit 8 nipc then
    Object [("isValid", Bool false);
            ("error", Str "NIPC cannot have all digits the same");
            ("details", Object [("pattern", Str "repeated_digits")])]
  else
    let validFirstDigits := ["5"; "6"; "7"; "8"; "9"] in
    if negb (includes validFirstDigits (charAt nipc 0)) then
      Object [("isValid", Bool false);
              ("error", Str "NIPC must start with 5, 6, 7, 8 or 9");
              ("details", Object [("firstDigit", Str (charAt nipc 0));
                                  ("validFirstDigits", Array (map Str validFirstDigits))])]
    else
      let sum := sum_loop 8 (fun i => mul (parseInt (charAt nipc i)) (index weights i)) in
      let remainder := rem sum (Num 11) in
      let checkDigit := sub (Num 11) remainder in
      let checkDigit := if lt remainder (Num 2) then Num 0 else checkDigit in
      if strict_neq checkDigit (parseInt (charAt nipc 8)) then
        Object [("isValid", Bool false);
                ("error", Str "Invalid check digit");
                ("details", Object [("calculated", Number checkDigit);
                                    ("provided", Number (parseInt (charAt nipc 8)))])]
      else
        Object [("isValid", Bool true);
                ("error", Null);
                ("details", Object [("formatted",
                                     Str (slice nipc 0 3 ++ " " ++ slice nipc 3 6 ++ " "
                                          ++ slice nipc 6 9));
                                    ("type", Str "company");
                                    ("country", Str "PT")])].

(** The rule object, as [registerRules('pt', PortugalRules)] receives it. *)
Definition rules : list (string * property) :=
  [("nif", Function nif);
   ("nipc", plain nipc);
   ("getEntityType", plain getEntityType)].

End PortugalRules.

(* ================================================================== *)
(** * PortugalRules, version 1.0.0 of [nif]:
      src/validators/rules/PortugalRules.js *)
(* ================================================================== *)

Module PortugalRules_1_0_0.

Definition weights : list Z := [9; 8; 7; 6; 5; 4; 3; 2].

Definition nif (input : string) : jsval :=
  let nif := strip_non_digits input in
  if negb (String.length nif =? 9)%nat then
    Object [("isValid", Bool false);
            ("error", Str "NIF must contain exactly 9 digits");
            ("details", Object [("length", Number (Num (Z.of_nat (String.length nif))));
                                ("expected", Number (Num 9))])]
  else if repeated_digit 8 nif then
    Object [("isValid", Bool false);
            ("error", Str "NIF cannot have all digits the same");
            ("details", Object [("pattern", Str "repeated_digits")])]
  else
    let validFirstDigits := ["1"; "2"; "3"] in
    if negb (includes validFirstDigits (charAt nif 0)) then
      Object [("isValid", Bool false);
              ("error", Str "Personal NIF must start with 1, 2 or 3");
              ("details", Object [("firstDigit", Str (charAt nif 0));
                                  ("validFirstDigits", Array (map Str validFirstDigits))])]
    else
      let sum := sum_loop 8 (fun i => mul (parseInt (charAt nif i)) (index weights i)) in
      let remainder := rem sum (Num 11) in
      let checkDigit := sub (Num 11) remainder in
      let checkDigit := if lt remainder (Num 2) then Num 0 else checkDigit in
      if strict_neq checkDigit (parseInt (charAt nif 8)) then
        Object [("isValid", Bool false);
                ("error", Str "Invalid check digit");
                ("details", Object [("calculated", Number checkDigit);
                                    ("provided", Number (parseInt (charAt nif 8)))])]
      else
        Object [("isValid", Bool true);
                ("error", Null);
                ("details", Object [("formatted",
                                     Str (slice nif 0 3 ++ " " ++ slice nif 3 6 ++ " "
                                          ++ slice nif 6 9));
                                    ("type", Str "personal");
                                    ("country", Str "PT")])].

(** [nipc] is the same in both versions. *)
Definition rules : list (string * property) :=
  [("nif", plain nif);
   ("nipc", plain PortugalRules.nipc)].

End PortugalRules_1_0_0.

(* ================================================================== *)
(** * src/validators/rules/USARules.js *)
(* ================================================================== *)

Module USARules.

Definition ssn (input : string) : jsval :=
  let ssn := strip_non_digits input in
  if negb (String.length ssn =? 9)%nat then
    Object [("isValid", Bool false);
            ("error", Str "SSN must contain exactly 9 digits");
            ("details", Object [("length", Number (Num (Z.of_nat (String.length ssn))));
                                ("expected", Number (Num 9))])]
  else if repeated_digit 8 ssn then
    Object [("isValid", Bool false);
            ("error", Str "SSN cannot have all digits the same");
            ("details", Object [("pattern", Str "repeated_digits")])]
  else
    let area := slice ssn 0 3 in
    let group := slice ssn 3 5 in
    let serial := slice ssn 5 9 in
    if String.eqb area "000" then
      Object [("isValid", Bool false);
              ("error", Str "SSN area cannot be 000");
              ("details", Object [("area", Str area); ("issue", Str "invalid_area_000")])]
    else if String.eqb area "666" then
      Object [("isValid", Bool false);
              ("error", Str "");
              ("details", Object [("area", Str area); ("issue", Str "invalid_area_666")])]
    else if String.eqb (charAt area 0) "9" then
      Object [("isValid", Bool false);
              ("error", Str "SSN area cannot start with 9");
              ("details", Object [("area", Str area);
                                  ("issue", Str "invalid_area_starts_with_9")])]
    else if String.eqb group "00" then
      Object [("isValid", Bool false);
              ("error", Str "SSN group cannot be 00");
              ("details", Object [("group", Str group); ("issue", Str "invalid_group_00")])]
    else if String.eqb serial "0000" then
      Object [("isValid", Bool false);
              ("error", Str "SSN serial number cannot be 0000");
              ("details", Object [("serial", Str serial);
                                  ("issue", Str "invalid_serial_0000")])]
    else
      Object [("isValid", Bool true);
              ("error", Null);
              ("details", Object [("formatted", Str (area ++ "-" ++ group ++ "-" ++ serial));
                                  ("type", Str "personal");
                                  ("country", Str "US");
                                  ("parts", Object [("area", Str area);
                                                    ("group", Str group);
                                                    ("serial", Str serial)])])].

Definition validPrefixes : list string :=
  ["01"; "02"; "03"; "04"; "05"; "06"; "10"; "11"; "12"; "13"; "14"; "15"; "16";
   "20"; "21"; "22"; "23"; "24"; "25"; "26"; "27";
   "30"; "31"; "32"; "33"; "34"; "35"; "36"; "37"; "38"; "39";
   "40"; "41"; "42"; "43"; "44"; "45"; "46"; "47"; "48";
   "50"; "51"; "52"; "53"; "54"; "55"; "56"; "57"; "58"; "59";
   "60"; "61"; "62"; "63"; "64"; "65"; "66"; "67"; "68";
   "71"; "72"; "73"; "74"; "75"; "76"; "77";
   "80"; "81"; "82"; "83"; "84"; "85"; "86"; "87"; "88";
   "90"; "91"; "92"; "93"; "94"; "95"; "96"; "98"; "99"].

Definition ein (input : string) : jsval :=
  let ein := strip_non_digits input in
  if negb (String.length ein =? 9)%nat then
    Object [("isValid", Bool false);
            ("error", Str "EIN must contain exactly 9 digits");
            ("details", Object [("length", Number (Num (Z.of_nat (String.length ein))));
                                ("expected", Number (Num 9))])]
  else if repeated_digit 8 ein then
    Object [("isValid", Bool false);
            ("error", Str "EIN cannot have all digits the same");
            ("details", Object [("pattern", Str "repeated_digits")])]
  else
    let prefix := slice ein 0 2 in
    let suffix := slice ein 2 9 in
    if negb (includes validPrefixes prefix) then
      Object [("isValid", Bool false);
              ("error", Str "Invalid EIN prefix");
              ("details", Object [("prefix", Str prefix); ("issue", Str "invalid_prefix")])]
    else if String.eqb suffix "0000000" then
      Object [("isValid", Bool false);
              ("error", Str "EIN suffix cannot be 0000000");
              ("details", Object [("suffix", Str suffix);
                                  ("issue", Str "invalid_suffix_all_zeros")])]
    else
      Object [("isValid", Bool true);
              ("error", Null);
              ("details", Object [("formatted", Str (prefix ++ "-" ++ suffix));
                                  ("type", Str "company");
                                  ("country", Str "US");
                                  ("parts", Object [("prefix", Str prefix);
                                                    ("suffix", Str suffix)])])].

Definition rules : list (string * property) :=
  [("ssn", plain ssn); ("ein", plain ein)].

End USARules.

(* ================================================================== *)
(** * The dispatcher: class [Validator] (validators/Validator.js) *)
(* ================================================================== *)

Module Validator.

(** [rules[k]] on a rule object *)
Fixpoint rule (k : string) (rules : list (string * property)) : option property :=
  match rules with
  | [] => None
  | (k', p) :: rules' => if String.eqb k k' then Some p else rule k rules'
  end.

(** The [Map] from lower-case country codes to rule objects. *)
Record t := { rules : gmap string (list (string * property)) }.

(** [new Validator()]: [loadRules] does nothing. *)
Definition new : t := {| rules := ∅ |}.

Definition registerRules (self : t) (countryCode : string)
    (r : list (string * property)) : t :=
  {| rules := <[toLowerCase countryCode := r]> (rules self) |}.

Definition validate (self : t) (document countryCode documentType : string)
    : outcome jsval :=
  match rules self !! toLowerCase countryCode with
  | None =>
      Return (Object [("isValid", Bool false);
                      ("error", Str ("Regras de validação não encontradas para o país: "
                                     ++ countryCode));
                      ("details", Null)])
  | Some rules =>
      match rule documentType rules with
      | Some (Function validator) =>
          try_catch
            (result ← validator this_undefined document;
             isValid ← get result "isValid";
             error ← get result "error";
             details ← get result "details";
             Return (Object [("isValid", isValid);
                             ("error", or_else error Null);
                             ("details", or_else details Null);
                             ("documentType", Str documentType);
                             ("countryCode", Str countryCode)]))
            (fun error =>
               Return (Object [("isValid", Bool false);
                               ("error", Str ("Erro durante validação: " ++ message error));
                               ("details", Null)]))
      | _ =>
          Return (Object [("isValid", Bool false);
                          ("error", Str ("Validador não encontrado para o tipo: "
                                         ++ documentType));
                          ("details", Null)])
      end
  end.

Definition hasRules (self : t) (countryCode : string) : bool :=
  match rules self !! toLowerCase countryCode with Some _ => true | None => false end.

End Validator.

(** [ValidatorInstance], once the three rule objects have registered,
    with version 1.0.1 of PortugalRules: the registrations of
    dist/tax-document-input.cjs.js, and of the text at the end of
    src/managers/ValidationManager.js. *)
Definition ValidatorInstance : Validator.t :=
  Validator.registerRules
    (Validator.registerRules
       (Validator.registerRules Validator.new "br" BrazilRules.rules)
       "pt" PortugalRules.rules)
    "us" USARules.rules.

(** [ValidatorInstance] with version 1.0.0 of PortugalRules: the
    registrations of the three files of src/validators/rules/, which
    the entry file imports. *)
Definition ValidatorInstance_1_0_0 : Validator.t :=
  Validator.registerRules
    (Validator.registerRules
       (Validator.registerRules Validator.new "br" BrazilRules.rules)
       "pt" PortugalRules_1_0_0.rules)
    "us" USARules.rules.

(* ================================================================== *)
(** * src/CountriesData.js *)
(* ================================================================== *)

Module Doc.
Record config := {
  length : Z;
  mask : string;
  type : string;
  priority : Z
}.
End Doc.

Record Country := {
  name : string;
  iso2 : string;
  flag : string;
  documents : list (string * Doc.config)
}.

Definition CountriesData : list (string * Country) :=
  [("br", {| name := "Brasil"; iso2 := "br"; flag := "https://flagcdn.com/w20/br.png";
             documents :=
               [("cpf", {| Doc.length := 11; Doc.mask := "XXX.XXX.XXX-XX";
                           Doc.type := "personal"; Doc.priority := 1 |});
                ("cnpj", {| Doc.length := 14; Doc.mask := "XX.XXX.XXX/XXXX-XX";
                            Doc.type := "company"; Doc.priority := 2 |})] |});
   ("pt", {| name := "Portugal"; iso2 := "pt"; flag := "https://flagcdn.com/w20/pt.png";
             documents :=
               [("nif", {| Doc.length := 9; Doc.mask := "XXX XXX XXX";
                           Doc.type := "personal"; Doc.priority := 1 |});
                ("nipc", {| Doc.length := 9; Doc.mask := "XXX XXX XXX";
                            Doc.type := "company"; Doc.priority := 2 |})] |});
   ("us", {| name := "United States"; iso2 := "us"; flag := "https://flagcdn.com/w20/us.png";
             documents :=
               [("ssn", {| Doc.length := 9; Doc.mask := "XXX-XX-XXXX";
                           Doc.type := "personal"; Doc.priority := 1 |});
                ("ein", {| Doc.length := 9; Doc.mask := "XX-XXXXXXX";
                           Doc.type := "company"; Doc.priority := 2 |})] |})].

(* ================================================================== *)
(** * Class [FormatManager] (in src/managers/ValidationManager.js) *)
(* ================================================================== *)

Module FormatManager.

(** The fields of a [FormatManager]; [value] is [this.input.value] and
    [None] is the [null] of [currentDocument]. *)
Record t := {
  value : string;
  countries : list (string * Country);
  selectedCountry : string;
  currentDocument : option string
}.

Definition set_currentDocument (self : t) (d : option string) : t :=
  {| value := value self; countries := countries self;
     selectedCountry := selectedCountry self; currentDocument := d |}.

(** [this.countries[code]] *)
Fixpoint country (code : string) (l : list (string * Country)) : option Country :=
  match l with
  | [] => None
  | (k, c) :: l' => if String.eqb code k then Some c else country code l'
  end.

(** [Object.entries(documents).sort((a, b) => a[1].priority - b[1].priority)]:
    the entries come in the order the keys are written and the sort is
    stable, so the result is the insertion sort that keeps entries of
    equal priority in their order. *)
Fixpoint insert_entry (e : string * Doc.config) (l : list (string * Doc.config))
    : list (string * Doc.config) :=
  match l with
  | [] => [e]
  | x :: l' =>
      if Doc.priority (snd e) <=? Doc.priority (snd x) then e :: l
      else x :: insert_entry e l'
  end.

Definition sort_by_priority (l : list (string * Doc.config))
    : list (string * Doc.config) :=
  fold_right insert_entry [] l.

(** [documents[i][0]]: reading index 0 of [undefined] throws. *)
Definition type_at (documents : list (string * Doc.config)) (i : nat) : outcome string :=
  match nth_error documents i with
  | Some (docType, _) => Return docType
  | None => Throw (Error (cannot_read "undefined" "0"))
  end.

Definition detectDocumentType (self : t) : outcome t :=
  let value := strip_non_digits (value self) in
  match country (selectedCountry self) (countries self) with
  | None => Return self
  | Some country =>
      let documents := sort_by_priority (documents country) in
      if (String.length value =? 0)%nat then
        docType ← type_at documents 0;
        Return (set_currentDocument self (Some docType))
      else
        match find (fun '(_, docConfig) =>
                      Z.of_nat (String.length value) <=? Doc.length docConfig)
                   documents with
        | Some (docType, _) => Return (set_currentDocument self (Some docType))
        | None =>
            docType ← type_at documents (List.length documents - 1);
            Return (set_currentDocument self (Some docType))
        end
  end.

(** The loop of [applyMask] from mask position [i] on, [mask] being the
    part of the mask from [i]; it stops when the mask ends or when
    [valueIndex < value.length] fails. *)
Fixpoint applyMask_loop (value : string) (mask : string) (valueIndex : nat)
    (formatted : string) : string :=
  match mask with
  | EmptyString => formatted
  | String m mask' =>
      if (valueIndex <? String.length value)%nat then
        if Ascii.eqb m "X" then
          applyMask_loop value mask' (valueIndex + 1) (formatted ++ charAt value valueIndex)
        else
          applyMask_loop value mask' valueIndex (formatted ++ String m EmptyString)
      else formatted
  end.

Definition applyMask (value mask : string) : string :=
  applyMask_loop value mask 0 "".

(** First loop of [calculateCursorPosition], from index [i] on. *)
Fixpoint count_loop (oldCursor : nat) (oldValue : string) (i : nat)
    (numbersBeforeCursor : nat) : nat :=
  match oldValue with
  | EmptyString => numbersBeforeCursor
  | String c rest =>
      if (i <? oldCursor)%nat then
        count_loop oldCursor rest (i + 1)
          (if is_digit c then numbersBeforeCursor + 1 else numbersBeforeCursor)%nat
      else numbersBeforeCursor
  end.

(** Second loop, from index [i] on, with its [break]. *)
Fixpoint place_loop (numbersBeforeCursor : nat) (newValue : string) (i : nat)
    (newCursor numbersFound : nat) : nat :=
  match newValue with
  | EmptyString => newCursor
  | String c rest =>
      if is_digit c then
        let numbersFound := (numbersFound + 1)%nat in
        if (numbersBeforeCursor <? numbersFound)%nat then newCursor
        else place_loop numbersBeforeCursor rest (i + 1) (i + 1) numbersFound
      else place_loop numbersBeforeCursor rest (i + 1) (i + 1) numbersFound
  end.

Definition calculateCursorPosition (oldValue newValue : string) (oldCursor : nat) : nat :=
  let numbersBeforeCursor := count_loop oldCursor oldValue 0 0 in
  place_loop numbersBeforeCursor newValue 0 0 0.

(** [new FormatManager(input, countries)] *)
Definition new (input_value : string) (countries : list (string * Country)) : t :=
  {| value := input_value; countries := countries;
     selectedCountry := "br"; currentDocument := None |}.

Definition setSelectedCountry (self : t) (countryCode : string) : outcome t :=
  detectDocumentType
    {| value := value self; countries := countries self;
       selectedCountry := countryCode; currentDocument := None |}.

End FormatManager.

(* ================================================================== *)
(** * The specification's vocabulary *)
(* ================================================================== *)

(** The digits of a string of digits, as numbers. *)
Definition digits (s : string) : list Z :=
  map digit_value (list_ascii_of_string s).

(** Sum of [weights[i] * digits[i]] over the positions both lists have. *)
Fixpoint weighted_sum (weights ds : list Z) : Z :=
  match weights, ds with
  | w :: weights', d :: ds' => w * d + weighted_sum weights' ds'
  | _, _ => 0
  end.

(** [remainder = sum mod 11], [digit = 0 if remainder < 2 else 11 - remainder] *)
Definition check_digit (sum : Z) : Z :=
  let remainder := sum mod 11 in
  if remainder <? 2 then 0 else 11 - remainder.

(** All the characters of the string are the same one. *)
Definition all_identical (s : string) : Prop :=
  forall i j a b, String.get i s = Some a -> String.get j s = Some b -> a = b.

(** The two shapes of a [ValidationResult]. *)
Definition failure (msg : string) (details : list (string * jsval)) : jsval :=
  Object [("isValid", Bool false); ("error", Str msg); ("details", Object details)].

Definition success (details : list (string * jsval)) : jsval :=
  Object [("isValid", Bool true); ("error", Null); ("details", Object details)].


(** Weights 10 down to 2, and 11 down to 2. *)
Definition cpf_weights1 : list Z := [10; 9; 8; 7; 6; 5; 4; 3; 2].
Definition cpf_weights2 : list Z := [11; 10; 9; 8; 7; 6; 5; 4; 3; 2].

(** The result of the CPF validator on 11 digits that are not all the
    same, in the specification's words. *)
Definition cpf_result (d : string) : jsval :=
  let ds := digits d in
  let sum1 := weighted_sum cpf_weights1 (firstn 9 ds) in
  let sum2 := weighted_sum cpf_weights2 (firstn 10 ds) in
  if negb (check_digit sum1 =? nth 9 ds 0) then
    failure "Primeiro dígito verificador inválido"
      [("calculated", Number (Num (check_digit sum1)));
       ("provided", Number (Num (nth 9 ds 0)));
       ("sum", Number (Num sum1));
       ("remainder", Number (Num (sum1 mod 11)))]
  else if negb (check_digit sum2 =? nth 10 ds 0) then
    failure "Segundo dígito verificador inválido"
      [("calculated", Number (Num (check_digit sum2)));
       ("provided", Number (Num (nth 10 ds 0)));
       ("sum", Number (Num sum2));
       ("remainder", Number (Num (sum2 mod 11)))]
  else
    success [("formatted", Str (FormatManager.applyMask d "XXX.XXX.XXX-XX"));
             ("type", Str "personal");
             ("country", Str "BR")].


(** The first digits a NIF may start with, and its weights. *)
Definition nif_first_digits : list string := ["1"; "2"; "3"; "5"; "6"; "7"; "8"; "9"].
Definition nif_weights : list Z := [9; 8; 7; 6; 5; 4; 3; 2].

(** 1, 2, 3: personal; 5: public_entity; 6: non_profit; 7, 8, 9:
    other_entity; anything else: unknown. *)
Definition nif_category (first : string) : string :=
  if includes ["1"; "2"; "3"] first then "personal"
  else if String.eqb first "5" then "public_entity"
  else if String.eqb first "6" then "non_profit"
  else if includes ["7"; "8"; "9"] first then "other_entity"
  else "unknown".

(** The result of the NIF validator on 9 digits that are not all the
    same, in the specification's words. *)
Definition nif_result (d : string) : jsval :=
  let first := charAt d 0 in
  let ds := digits d in
  let sum := weighted_sum nif_weights (firstn 8 ds) in
  if negb (includes nif_first_digits first) then
    failure "NIF must start with 1, 2, 3, 5, 6, 7, 8 or 9"
      [("firstDigit", Str first);
       ("validFirstDigits", Array (map Str nif_first_digits))]
  else if negb (check_digit sum =? nth 8 ds 0) then
    failure "Invalid check digit"
      [("calculated", Number (Num (check_digit sum)));
       ("provided", Number (Num (nth 8 ds 0)))]
  else
    success [("formatted", Str (FormatManager.applyMask d "XXX XXX XXX"));
             ("type", Str (nif_category first));
             ("country", Str "PT")].

(** Ascending priority. *)
Definition by_priority (a b : string * Doc.config) : Prop :=
  Doc.priority (snd a) <= Doc.priority (snd b).

(** A document type that can still hold [n] digits. *)
Definition holds (n : Z) (e : string * Doc.config) : Prop :=
  n <= Doc.length (snd e).

(** The number of digits typed so far. *)
Definition digit_count (self : FormatManager.t) : Z :=
  Z.of_nat (String.length (strip_non_digits (FormatManager.value self))).

(** The walk of the specification: a placeholder takes the next digit,
    any other character of the mask is copied, and the walk stops when
    no digit is left. *)
Fixpoint mask_walk (ds mask : string) : string :=
  match mask with
  | EmptyString => EmptyString
  | String m mask' =>
      match ds with
      | EmptyString => EmptyString
      | String d ds' =>
          if Ascii.eqb m "X" then String d (mask_walk ds' mask')
          else String m (mask_walk ds mask')
      end
  end.

(** A character of a mask that is not a digit. *)
Definition separator (c : ascii) : bool := negb (is_digit c).

(** The number of placeholders of a mask. *)
Fixpoint placeholders (mask : string) : nat :=
  match mask with
  | EmptyString => 0
  | String m mask' => ((if Ascii.eqb m "X" then 1 else 0) + placeholders mask')%nat
  end.

Fixpoint last_char (s : string) : option ascii :=
  match s with
  | EmptyString => None
  | String c EmptyString => Some c
  | String _ s' => last_char s'
  end.

(** [s] without its first [n] characters. *)
Fixpoint skip (n : nat) (s : string) : string :=
  match n, s with
  | S n', String _ s' => skip n' s'
  | _, _ => s
  end.

(** The number of digits among the first [cursor] characters. *)
Fixpoint digits_before (cursor : nat) (s : string) : nat :=
  match cursor, s with
  | S cursor', String c s' =>
      ((if is_digit c then 1 else 0) + digits_before cursor' s')%nat
  | _, _ => 0%nat
  end.

(** The index just after the [n]-th digit of [s] (0 when [n] is 0, the
    length of [s] when it has fewer digits): where the specification
    puts the cursor. *)
Fixpoint index_after_digit (n : nat) (s : string) : nat :=
  match n, s with
  | O, _ => 0%nat
  | _, EmptyString => 0%nat
  | S n', String c s' =>
      S (if is_digit c then index_after_digit n' s' else index_after_digit n s')
  end.

(** The index of the digit that follows the first [n] digits of [s], the
    length of [s] when it has no more than [n] digits. *)
Fixpoint index_of_next_digit (n : nat) (s : string) : nat :=
  match s with
  | EmptyString => 0%nat
  | String c s' =>
      if is_digit c then
        match n with
        | O => 0%nat
        | S n' => S (index_of_next_digit n' s')
        end
      else S (index_of_next_digit n s')
  end.

(** The three parts of the nine digits of an SSN. *)
Definition ssn_area (d : string) : string := String.substring 0 3 d.
Definition ssn_group (d : string) : string := String.substring 3 2 d.
Definition ssn_serial (d : string) : string := String.substring 5 4 d.

(** The tags of the five rejections of the SSN validator. *)
Definition ssn_issues : list string :=
  ["invalid_area_000"; "invalid_area_666"; "invalid_area_starts_with_9";
   "invalid_group_00"; "invalid_serial_0000"].

(** An area that is not 000, not 666 and does not start with 9. *)
Definition area_allowed (area : string) : Prop :=
  area <> "000" /\ area <> "666" /\ String.get 0 area <> Some "9"%char.

(** What the specification says of the result [r] of the SSN validator
    on the nine digits [d]. *)
Definition ssn_behaviour (d : string) (r : jsval) : Prop :=
  let area := ssn_area d in
  let group := ssn_group d in
  let serial := ssn_serial d in
  d = area ++ group ++ serial
  /\ (area = "000" ->
      r = failure "SSN area cannot be 000"
            [("area", Str area); ("issue", Str "invalid_area_000")])
  /\ (area = "666" ->
      r = failure "" [("area", Str area); ("issue", Str "invalid_area_666")])
  /\ (String.get 0 area = Some "9"%char ->
      r = failure "SSN area cannot start with 9"
            [("area", Str area); ("issue", Str "invalid_area_starts_with_9")])
  /\ (area_allowed area -> group = "00" ->
      r = failure "SSN group cannot be 00"
            [("group", Str group); ("issue", Str "invalid_group_00")])
  /\ (area_allowed area -> group <> "00" -> serial = "0000" ->
      r = failure "SSN serial number cannot be 0000"
            [("serial", Str serial); ("issue", Str "invalid_serial_0000")])
  /\ (area_allowed area -> group <> "00" -> serial <> "0000" ->
      r = success [("formatted", Str (area ++ "-" ++ group ++ "-" ++ serial));
                   ("type", Str "personal");
                   ("country", Str "US");
                   ("parts", Object [("area", Str area); ("group", Str group);
                                     ("serial", Str serial)])])
  /\ (area = "000" \/ area = "666" \/ String.get 0 area = Some "9"%char
      \/ group = "00" \/ serial = "0000" ->
      field "isValid" r = Bool false
      /\ exists issue, field "issue" (field "details" r) = Str issue
                       /\ In issue ssn_issues).

(** The validators of the six supported document types, each called as
    a method of its rule object. *)
Definition validators : list (string * (string -> outcome jsval)) :=
  [("cpf", fun document => Return (BrazilRules.cpf document));
   ("cnpj", fun document => Return (BrazilRules.cnpj document));
   ("nif", PortugalRules.nif this_rules);
   ("nipc", fun document => Return (PortugalRules.nipc document));
   ("ssn", fun document => Return (USARules.ssn document));
   ("ein", fun document => Return (USARules.ein document))].

(** The same, with the two other ways [nif] exists: called as a plain
    function, and in its version 1.0.0. *)
Definition all_validators : list (string * (string -> outcome jsval)) :=
  validators
  ++ [("nif", PortugalRules.nif this_undefined);
      ("nif", fun document => Return (PortugalRules_1_0_0.nif document))].

(** Validating the formatted string of a success gives the same success. *)
Definition round_trips (v : string -> outcome jsval) : Prop :=
  forall (input : string) (r : jsval),
    v input = Return r -> field "isValid" r = Bool true ->
    exists formatted : string,
      field "formatted" (field "details" r) = Str formatted
      /\ v formatted = Return r.





(* ================================================================== *)
(** * Class [ValidationManager] (src/managers/ValidationManager.js) *)
(* ================================================================== *)

(** The own properties an object spread [{...v}] copies. The manager
    spreads what [Validator.validate] returns, always an object
    literal. *)
Definition own_props (v : jsval) : list (string * jsval) :=
  match v with
  | Object props => props
  | _ => []
  end.

(** A property written after a spread: it replaces the property of that
    name where it stands, or comes last. *)
Fixpoint set_prop (k : string) (v : jsval) (props : list (string * jsval))
    : list (string * jsval) :=
  match props with
  | [] => [(k, v)]
  | (k', v') :: props' =>
      if String.eqb k k' then (k', v) :: props' else (k', v') :: set_prop k v props'
  end.

Module ValidationManager.

(** [validator] is the shared [ValidatorInstance], with the rules it
    holds at the time of the call. *)
Record t := {
  validator : Validator.t;
  lastValidationResult : jsval
}.

Definition new (instance : Validator.t) : t :=
  {| validator := instance; lastValidationResult := Null |}.

(** [!s] for a string *)
Definition empty (s : string) : bool := String.eqb s "".

Definition validateDocument (self : t) (cleanValue country documentType : string)
    : outcome (t * jsval) :=
  if empty country || empty documentType then
    Return (self,
            Object [("isValid", Bool false);
                    ("error", Str "País ou tipo de documento não definido");
                    ("details", Null)])
  else
    result ← Validator.validate (validator self) cleanValue country documentType;
    let last := Object (set_prop "country" (Str country)
                          (set_prop "documentType" (Str documentType)
                             (own_props result))) in
    Return ({| validator := validator self; lastValidationResult := last |}, last).

Definition validateLength (cleanValue : string) (expectedLength : Z) : jsval :=
  if empty cleanValue || (expectedLength =? 0) then Null
  else if (String.length cleanValue =? 0)%nat then Null
  else if Z.of_nat (String.length cleanValue) <? expectedLength then Bool false
  else if Z.of_nat (String.length cleanValue) =? expectedLength then Bool true
  else Bool false.

Definition isDocumentValid (self : t) (cleanValue country documentType : string)
    (expectedLength : Z) : outcome (t * jsval) :=
  if negb (Z.of_nat (String.length cleanValue) =? expectedLength) then
    Return (self, Bool false)
  else
    '(self, result) ← validateDocument self cleanValue country documentType;
    isValid ← get result "isValid";
    Return (self, isValid).

Definition getValidationState (self : t) (cleanValue country documentType : string)
    (expectedLength : Z) : outcome (t * jsval) :=
  if empty cleanValue || (String.length cleanValue =? 0)%nat then
    Return (self, Null)
  else if Z.of_nat (String.length cleanValue) <? expectedLength then
    Return (self, Null)
  else if Z.of_nat (String.length cleanValue) =? expectedLength then
    '(self, result) ← validateDocument self cleanValue country documentType;
    isValid ← get result "isValid";
    Return (self, isValid)
  else Return (self, Bool false).

Definition getLastValidationResult (self : t) : jsval := lastValidationResult self.

Definition getValidationError (self : t) (cleanValue country documentType : string)
    : outcome (t * jsval) :=
  '(self, result) ← validateDocument self cleanValue country documentType;
  error ← get result "error";
  Return (self, error).

Definition hasRulesForCountry (self : t) (country : string) : bool :=
  Validator.hasRules (validator self) country.

Definition clearValidationCache (self : t) : t :=
  {| validator := validator self; lastValidationResult := Null |}.

End ValidationManager.

(* ================================================================== *)
(** * Class [FormatManager], the other methods *)
(* ================================================================== *)

Module Formatting.

Import FormatManager.

(** What [Math.max] returns: a length, or [-Infinity] when it is given
    no number at all. *)
Inductive maximum := minus_infinity | finite (z : Z).

(** [Math.max(a, b)] with [a] the maximum so far *)
Definition max_with (m : maximum) (z : Z) : maximum :=
  match m with
  | minus_infinity => finite z
  | finite m => finite (Z.max m z)
  end.

Definition getMaxLength (self : t) : maximum :=
  match country (selectedCountry self) (countries self) with
  | None => finite 0
  | Some country =>
      fold_left max_with (map (fun d => Doc.length (snd d)) (documents country))
        minus_infinity
  end.

(** [value.substring(0, maxLength)]: an end below 0 counts as 0, an end
    beyond the string as the length of the string. *)
Definition substring_to (value : string) (maxLength : maximum) : string :=
  match maxLength with
  | minus_infinity => EmptyString
  | finite z => String.substring 0 (Z.to_nat z) value
  end.

(** The property name [documents[currentDocument]] reads: [null] reads
    the property called null. *)
Definition key_of (currentDocument : option string) : string :=
  match currentDocument with
  | Some k => k
  | None => "null"
  end.

(** [documents[k]] *)
Fixpoint document (k : string) (l : list (string * Doc.config)) : option Doc.config :=
  match l with
  | [] => None
  | (k', c) :: l' => if String.eqb k k' then Some c else document k l'
  end.

(** What [formatInput] leaves behind: the manager with the new value of
    the input, the caret position it schedules with [setSelectionRange],
    and the arguments it passes to [onFormatChange]. *)
Record formatted := {
  manager : t;
  selection : option nat;
  notified : option (string * option string)
}.

Definition formatInput (self : t) (cursorPosition : nat) : outcome formatted :=
  let value := strip_non_digits (value self) in
  match country (selectedCountry self) (countries self) with
  | None => Return {| manager := self; selection := None; notified := None |}
  | Some country =>
      let maxLength := getMaxLength self in
      let value := substring_to value maxLength in
      self' ← detectDocumentType self;
      match document (key_of (currentDocument self')) (documents country) with
      | None => Return {| manager := self'; selection := None; notified := None |}
      | Some docConfig =>
          let formatted := applyMask value (Doc.mask docConfig) in
          let newCursorPosition :=
            calculateCursorPosition (FormatManager.value self) formatted cursorPosition in
          Return {| manager := {| FormatManager.value := formatted;
                                  countries := countries self';
                                  selectedCountry := selectedCountry self';
                                  currentDocument := currentDocument self' |};
                    selection := Some newCursorPosition;
                    notified := Some (value, currentDocument self') |}
      end
  end.

(** [{ type, category, length, mask, country }] *)
Record info := {
  info_type : string;
  category : string;
  length : Z;
  mask : string;
  info_country : string
}.

(** [!this.currentDocument]: [null] and the empty string *)
Definition no_document (d : option string) : bool :=
  match d with
  | None => true
  | Some k => String.eqb k ""
  end.

Definition getCurrentDocumentInfo (self : t) : outcome (option info) :=
  match country (selectedCountry self) (countries self) with
  | None => Return None
  | Some country =>
      if no_document (currentDocument self) then Return None
      else
        match document (key_of (currentDocument self)) (documents country) with
        | None => Throw (Error (cannot_read "undefined" "type"))
        | Some docConfig =>
            Return (Some {| info_type := key_of (currentDocument self);
                            category := Doc.type docConfig;
                            length := Doc.length docConfig;
                            mask := Doc.mask docConfig;
                            info_country := selectedCountry self |})
        end
  end.

Definition getCleanValue (self : t) : string := strip_non_digits (value self).

Definition getFormattedValue (self : t) : string := value self.

Definition clear (self : t) : outcome t :=
  detectDocumentType
    {| FormatManager.value := ""; countries := countries self;
       selectedCountry := selectedCountry self; currentDocument := None |}.

End Formatting.

(* ================================================================== *)
(** * More of the specification's vocabulary *)
(* ================================================================== *)

(** The result of the CNPJ validator on 14 digits that are not all the
    same: first check digit over digits 0..11, second over digits
    0..12. *)
Definition cnpj_result (d : string) : jsval :=
  let ds := digits d in
  let sum1 := weighted_sum [5; 4; 3; 2; 9; 8; 7; 6; 5; 4; 3; 2] (firstn 12 ds) in
  let sum2 := weighted_sum [6; 5; 4; 3; 2; 9; 8; 7; 6; 5; 4; 3; 2] (firstn 13 ds) in
  if negb (check_digit sum1 =? nth 12 ds 0) then
    failure "Primeiro dígito verificador inválido"
      [("calculated", Number (Num (check_digit sum1)));
       ("provided", Number (Num (nth 12 ds 0)));
       ("sum", Number (Num sum1));
       ("remainder", Number (Num (sum1 mod 11)))]
  else if negb (check_digit sum2 =? nth 13 ds 0) then
    failure "Segundo dígito verificador inválido"
      [("calculated", Number (Num (check_digit sum2)));
       ("provided", Number (Num (nth 13 ds 0)));
       ("sum", Number (Num sum2));
       ("remainder", Number (Num (sum2 mod 11)))]
  else
    success [("formatted", Str (FormatManager.applyMask d "XX.XXX.XXX/XXXX-XX"));
             ("type", Str "company");
             ("country", Str "BR")].

(** The result of the NIPC validator on 9 digits that are not all the
    same. *)
Definition nipc_result (d : string) : jsval :=
  let first := charAt d 0 in
  let ds := digits d in
  let sum := weighted_sum nif_weights (firstn 8 ds) in
  if negb (includes ["5"; "6"; "7"; "8"; "9"] first) then
    failure "NIPC must start with 5, 6, 7, 8 or 9"
      [("firstDigit", Str first);
       ("validFirstDigits", Array [Str "5"; Str "6"; Str "7"; Str "8"; Str "9"])]
  else if negb (check_digit sum =? nth 8 ds 0) then
    failure "Invalid check digit"
      [("calculated", Number (Num (check_digit sum)));
       ("provided", Number (Num (nth 8 ds 0)))]
  else
    success [("formatted", Str (FormatManager.applyMask d "XXX XXX XXX"));
             ("type", Str "company");
             ("country", Str "PT")].

(** What the code does with the nine digits [d] of an EIN, [r] being
    the result. *)
Definition ein_behaviour (d : string) (r : jsval) : Prop :=
  let prefix := String.substring 0 2 d in
  let suffix := String.substring 2 7 d in
  d = prefix ++ suffix
  /\ (~ In prefix USARules.validPrefixes ->
      r = failure "Invalid EIN prefix"
            [("prefix", Str prefix); ("issue", Str "invalid_prefix")])
  /\ (In prefix USARules.validPrefixes -> suffix = "0000000" ->
      r = failure "EIN suffix cannot be 0000000"
            [("suffix", Str suffix); ("issue", Str "invalid_suffix_all_zeros")])
  /\ (In prefix USARules.validPrefixes -> suffix <> "0000000" ->
      r = success [("formatted", Str (FormatManager.applyMask d "XX-XXXXXXX"));
                   ("type", Str "company");
                   ("country", Str "US");
                   ("parts", Object [("prefix", Str prefix); ("suffix", Str suffix)])]).

(** The document types of the country table, with their countries. *)
Definition registered_documents : list (string * (string * Doc.config)) :=
  flat_map (fun c => map (fun d => (fst c, d)) (documents (snd c))) CountriesData.

(** The validators the dispatcher calls as they are written, with the
    country code they are registered under. *)
Definition dispatched : list (string * string * (string -> jsval)) :=
  [("br", "cpf", BrazilRules.cpf);
   ("br", "cnpj", BrazilRules.cnpj);
   ("pt", "nipc", PortugalRules.nipc);
   ("us", "ssn", USARules.ssn);
   ("us", "ein", USARules.ein)].

(** The same under the registrations of src/validators/rules/: version
    1.0.0 of [nif] never reads [this], and a plain call of it returns
    what it is written to return. *)
Definition dispatched_1_0_0 : list (string * string * (string -> jsval)) :=
  ("pt", "nif", PortugalRules_1_0_0.nif) :: dispatched.

(** The number of digits of a string. *)
Definition count_digits (s : string) : nat := String.length (strip_non_digits s).

(** Longer document types come later in the order of priority. *)
Definition by_length (a b : string * Doc.config) : Prop :=
  Doc.length (snd a) <= Doc.length (snd b).

(** The masks of a country fit its document types: no digit of their
    own, and as many placeholders as the type has digits. *)
Definition masks_fit (c : Country) : Prop :=
  forall k cfg, In (k, cfg) (documents c) ->
    all_chars separator (Doc.mask cfg) = true
    /\ Z.of_nat (placeholders (Doc.mask cfg)) = Doc.length cfg.

(** A country as the table writes them: at least one document type,
    each named once, masks that fit, and lengths that do not decrease
    with the priority. *)
Definition well_formed_country (c : Country) : Prop :=
  documents c <> []
  /\ List.NoDup (map fst (documents c))
  /\ masks_fit c
  /\ StronglySorted by_length (FormatManager.sort_by_priority (documents c)).

(** The document type of the bundled table for [n] digits: Brazil grows
    from cpf into cnpj after 11 digits; Portugal and the United States
    leave nif and ssn only beyond their 9 digits. *)
Definition bundled_type (code : string) (n : nat) : string :=
  if String.eqb code "br" then (if (n <=? 11)%nat then "cpf" else "cnpj")
  else if String.eqb code "pt" then (if (n <=? 9)%nat then "nif" else "nipc")
  else (if (n <=? 9)%nat then "ssn" else "ein").

(* ================================================================== *)
(** * Class [TaxDocumentInput] (src/TaxDocumentInput.js): the input
      event and [isValid] *)
(* ================================================================== *)

Module TaxDocumentInput.

(** The state the two read and write: the format manager, the country
    selected in the country manager, the validation manager, and the
    state last given to [domManager.setValidationState] ([null] is
    neutral). [this.countries] is the bundled table. *)
Record t := {
  formatManager : FormatManager.t;
  selectedCountry : string;
  validationManager : ValidationManager.t;
  validationState : jsval
}.

Definition getCleanValue (self : t) : string :=
  Formatting.getCleanValue (formatManager self).

Definition getSelectedCountry (self : t) : string := selectedCountry self.

Definition getCurrentDocumentType (self : t) : option string :=
  FormatManager.currentDocument (formatManager self).

Definition getCurrentDocumentInfo (self : t) : outcome (option Formatting.info) :=
  Formatting.getCurrentDocumentInfo (formatManager self).

(** [this.countries[country]?.documents[documentType]] *)
Definition docConfig_of (country documentType : string) : option Doc.config :=
  match FormatManager.country country CountriesData with
  | None => None
  | Some c => Formatting.document documentType (documents c)
  end.

Definition updateValidationState (self : t) (cleanValue : string)
    (documentType : option string) : outcome t :=
  if Formatting.no_document documentType then Return self
  else
    let country := getSelectedCountry self in
    match docConfig_of country (Formatting.key_of documentType) with
    | None => Return self
    | Some docConfig =>
        '(manager, validationState) ←
          ValidationManager.getValidationState (validationManager self) cleanValue country
            (Formatting.key_of documentType) (Doc.length docConfig);
        Return {| formatManager := formatManager self;
                  selectedCountry := selectedCountry self;
                  validationManager := manager;
                  validationState := validationState |}
    end.

(** The listener of the input event: [formatManager.formatInput(e)],
    which ends with [onFormatChange], set to [updateValidationState].
    [typed] is the value of the input and [cursorPosition] its caret
    when the event fires. *)
Definition input (self : t) (typed : string) (cursorPosition : nat) : outcome t :=
  f ← Formatting.formatInput
         {| FormatManager.value := typed;
            FormatManager.countries := FormatManager.countries (formatManager self);
            FormatManager.selectedCountry := FormatManager.selectedCountry (formatManager self);
            FormatManager.currentDocument := FormatManager.currentDocument (formatManager self) |}
         cursorPosition;
  let self := {| formatManager := Formatting.manager f;
                 selectedCountry := selectedCountry self;
                 validationManager := validationManager self;
                 validationState := validationState self |} in
  match Formatting.notified f with
  | None => Return self
  | Some (cleanValue, documentType) => updateValidationState self cleanValue documentType
  end.

Definition isValid (self : t) : outcome (t * jsval) :=
  let cleanValue := getCleanValue self in
  let country := getSelectedCountry self in
  let documentType := getCurrentDocumentType self in
  docInfo ← getCurrentDocumentInfo self;
  match docInfo with
  | None => Return (self, Bool false)
  | Some docInfo =>
      if Formatting.no_document documentType || ValidationManager.empty country then
        Return (self, Bool false)
      else
        '(manager, valid) ← ValidationManager.isDocumentValid (validationManager self)
                              cleanValue country (Formatting.key_of documentType)
                              (Formatting.length docInfo);
        Return ({| formatManager := formatManager self;
                   selectedCountry := selectedCountry self;
                   validationManager := manager;
                   validationState := validationState self |}, valid)
  end.

(** A widget with the bundled table and the rules of
    [ValidatorInstance] (PortugalRules in its version 1.0.1, as in
    dist/), [code] selected in both managers. *)
Definition ready (self : t) (code : string) : Prop :=
  FormatManager.countries (formatManager self) = CountriesData
  /\ FormatManager.selectedCountry (formatManager self) = code
  /\ selectedCountry self = code
  /\ ValidationManager.validator (validationManager self) = ValidatorInstance.

(** The same widget with the rules of src/validators/rules/ registered:
    version 1.0.0 of PortugalRules. *)
Definition ready_1_0_0 (self : t) (code : string) : Prop :=
  FormatManager.countries (formatManager self) = CountriesData
  /\ FormatManager.selectedCountry (formatManager self) = code
  /\ selectedCountry self = code
  /\ ValidationManager.validator (validationManager self) = ValidatorInstance_1_0_0.

End TaxDocumentInput.

(** The format manager of a widget when the input event fires. *)
Definition typing (w : TaxDocumentInput.t) (typed : string) : FormatManager.t :=
  {| FormatManager.value := typed;
     FormatManager.countries := FormatManager.countries (TaxDocumentInput.formatManager w);
     FormatManager.selectedCountry :=
       FormatManager.selectedCountry (TaxDocumentInput.formatManager w);
     FormatManager.currentDocument :=
       FormatManager.currentDocument (TaxDocumentInput.formatManager w) |}.

(** The character of a digit. *)
Definition digit_char (z : Z) : ascii := ascii_of_nat (Z.to_nat z + 48).

(** The two check digits of the nine first digits of a CPF: the second
    is computed over the nine digits followed by the first. *)
Definition cpf_check_pair (base : string) : string :=
  let c1 := check_digit (weighted_sum cpf_weights1 (digits base)) in
  let c2 := check_digit (weighted_sum cpf_weights2 (digits base ++ [c1])) in
  String (digit_char c1) (String (digit_char c2) EmptyString).
(* ================================================================== *)
(** * Strings of digits *)
(* ================================================================== *)

Arguments is_digit : simpl never.
Arguments digit_value : simpl never.

Lemma strip_all_digits (s : string) :
  all_chars is_digit (strip_non_digits s) = true.
Proof.
  induction s as [|c s IH]; simpl; [reflexivity|].
  destruct (is_digit c) eqn:E; simpl; [rewrite E|]; assumption.
Qed.

Lemma strip_digits_id (s : string) :
  all_chars is_digit s = true -> strip_non_digits s = s.
Proof.
  induction s as [|c s IH]; simpl; [reflexivity|].
  intros [Hc Hs]%andb_true_iff. rewrite Hc, IH by assumption. reflexivity.
Qed.

(** Stripping is idempotent. *)
Lemma strip_idempotent (s : string) :
  strip_non_digits (strip_non_digits s) = strip_non_digits s.
Proof. apply strip_digits_id, strip_all_digits. Qed.

Lemma digit_value_range (c : ascii) :
  is_digit c = true -> 0 <= digit_value c <= 9.
Proof.
  unfold is_digit, digit_value.
  intros [H1 H2]%andb_true_iff.
  apply Nat.leb_le in H1, H2. lia.
Qed.

Lemma all_chars_get (p : ascii -> bool) (s : string) :
  all_chars p s = true <-> forall i a, String.get i s = Some a -> p a = true.
Proof.
  induction s as [|c s IH]; simpl.
  - split; [intros _ i a H; discriminate | reflexivity].
  - rewrite andb_true_iff, IH. split.
    + intros [Hc Hs] [|i] a H; [injection H as <-; exact Hc | eauto].
    + intros H. split; [apply (H 0%nat); reflexivity|].
      intros i a Hi. apply (H (S i)). exact Hi.
Qed.

(** The regular expression [^(\d)\1{k}$] on a string of [k + 1] digits
    says that its characters are all the same. *)
Lemma repeated_digit_identical (k : nat) (s : string) :
  String.length s = S k -> all_chars is_digit s = true ->
  (repeated_digit k s = true <-> all_identical s).
Proof.
  destruct s as [|c s]; [discriminate|]. simpl.
  intros [= Hlen] [Hc Hs]%andb_true_iff.
  rewrite Hc, Hlen, Nat.eqb_refl. simpl. rewrite all_chars_get. split.
  - intros H i j a b Hi Hj.
    assert (forall n x, String.get n (String c s) = Some x -> x = c) as E.
    { intros [|n] x Hx; simpl in Hx; [congruence|].
      apply H in Hx. apply Ascii.eqb_eq in Hx. congruence. }
    rewrite (E _ _ Hi), (E _ _ Hj). reflexivity.
  - intros H i a Hi. apply Ascii.eqb_eq.
    apply (H 0%nat (S i)); [reflexivity | exact Hi].
Qed.

Lemma repeated_digit_false (k : nat) (s : string) :
  String.length s = S k -> all_chars is_digit s = true ->
  ~ all_identical s -> repeated_digit k s = false.
Proof.
  intros Hlen Hd Hn. destruct (repeated_digit k s) eqn:E; [|reflexivity].
  exfalso. apply Hn. apply (repeated_digit_identical k s Hlen Hd). exact E.
Qed.

(** ** Strings of a known length, character by character *)

Ltac explode d H :=
  repeat (destruct d as [|?c d]; simpl in H; [lia|]);
  destruct d; simpl in H; [|lia]; clear H.

Lemma rem_11 (x : Z) : 0 <= x -> rem (Num x) (Num 11) = Num (x mod 11).
Proof. intros H. simpl. f_equal. apply Z.rem_mod_nonneg; lia. Qed.

Lemma check_of_Num (r : Z) :
  check_of (Num r) = Num (if r <? 2 then 0 else 11 - r).
Proof. unfold check_of. simpl. destruct (r <? 2); reflexivity. Qed.

(* ================================================================== *)
(** * The weighted sums *)
(* ================================================================== *)

Lemma sum_loop_S (n : nat) (term : nat -> number) :
  sum_loop (S n) term = add (sum_loop n term) (term n).
Proof. unfold sum_loop. rewrite seq_S, fold_left_app. reflexivity. Qed.

Lemma sum_loop_ext (n : nat) (f g : nat -> number) :
  (forall i, (i < n)%nat -> f i = g i) -> sum_loop n f = sum_loop n g.
Proof.
  induction n as [|n IH]; intros H; [reflexivity|].
  rewrite !sum_loop_S, IH, H by auto with arith. reflexivity.
Qed.

Lemma digits_length (d : string) : List.length (digits d) = String.length d.
Proof.
  unfold digits. rewrite length_map.
  induction d; simpl; congruence.
Qed.

Lemma parseInt_charAt (d : string) (i : nat) :
  all_chars is_digit d = true -> (i < String.length d)%nat ->
  parseInt (charAt d i) = Num (nth i (digits d) 0).
Proof.
  revert i. induction d as [|c d IH]; simpl; intros i Hd Hi; [lia|].
  apply andb_true_iff in Hd as [Hc Hd].
  destruct i as [|i].
  - unfold charAt. simpl. rewrite Hc. reflexivity.
  - unfold charAt in *. simpl. apply IH; [assumption | lia].
Qed.

Lemma index_nth (w : list Z) (i : nat) :
  (i < List.length w)%nat -> index w i = Num (nth i w 0).
Proof.
  intros H. unfold index.
  destruct (nth_error w i) eqn:E.
  - rewrite (nth_error_nth _ _ _ E). reflexivity.
  - apply nth_error_None in E. lia.
Qed.

Lemma weighted_sum_snoc (w : list Z) (x : Z) (ds : list Z) :
  (List.length w < List.length ds)%nat ->
  weighted_sum (w ++ [x]) ds = weighted_sum w ds + x * nth (List.length w) ds 0.
Proof.
  revert ds. induction w as [|y w IH]; intros [|d ds] H; simpl in *; try lia.
  rewrite IH by lia. lia.
Qed.

(** The loop of a validator computes the weighted sum of the
    specification. *)
Lemma sum_loop_weighted (w : list Z) (d : string) :
  all_chars is_digit d = true -> (List.length w <= String.length d)%nat ->
  sum_loop (List.length w) (fun i => mul (parseInt (charAt d i)) (index w i))
  = Num (weighted_sum w (digits d)).
Proof.
  intros Hd. induction w as [|x w IH] using rev_ind; intros Hlen.
  - reflexivity.
  - rewrite length_app in *. simpl in *.
    replace (List.length w + 1)%nat with (S (List.length w)) by lia.
    rewrite sum_loop_S.
    rewrite (sum_loop_ext _ _ (fun i => mul (parseInt (charAt d i)) (index w i))).
    + rewrite IH by lia.
      rewrite parseInt_charAt by (assumption || lia).
      rewrite index_nth by (rewrite length_app; simpl; lia).
      rewrite app_nth2, Nat.sub_diag by lia. simpl.
      rewrite weighted_sum_snoc by (rewrite digits_length; lia).
      f_equal. lia.
    + intros i Hi. unfold index. rewrite nth_error_app1 by assumption. reflexivity.
Qed.

Lemma weighted_sum_firstn (w ds : list Z) :
  weighted_sum w (firstn (List.length w) ds) = weighted_sum w ds.
Proof.
  revert ds. induction w as [|x w IH]; intros [|d ds]; simpl; try reflexivity.
  rewrite IH. reflexivity.
Qed.

Lemma digits_nonneg (d : string) :
  all_chars is_digit d = true -> Forall (fun x => 0 <= x) (digits d).
Proof.
  unfold digits. induction d as [|c d IH]; simpl; intros H; constructor.
  - apply andb_true_iff in H as [Hc _]. apply digit_value_range in Hc. lia.
  - apply IH. apply andb_true_iff in H as [_ H]. exact H.
Qed.

Lemma weighted_sum_nonneg (w ds : list Z) :
  Forall (fun x => 0 <= x) w -> Forall (fun x => 0 <= x) ds ->
  0 <= weighted_sum w ds.
Proof.
  intros Hw. revert ds. induction Hw as [|x w Hx Hw IH]; intros ds Hds; simpl; [lia|].
  destruct Hds as [|d ds Hd Hds]; [lia|].
  specialize (IH ds Hds). nia.
Qed.

(** What one check-digit step of a validator computes, from the weights
    to the comparison. *)
Lemma check_step (w : list Z) (d : string) (k : nat) :
  all_chars is_digit d = true -> (List.length w <= String.length d)%nat ->
  (k < String.length d)%nat -> Forall (fun x => 0 <= x) w ->
  let sum := sum_loop (List.length w) (fun i => mul (parseInt (charAt d i)) (index w i)) in
  let s := weighted_sum w (firstn (List.length w) (digits d)) in
  sum = Num s
  /\ rem sum (Num 11) = Num (s mod 11)
  /\ check_of (rem sum (Num 11)) = Num (check_digit s)
  /\ parseInt (charAt d k) = Num (nth k (digits d) 0).
Proof.
  intros Hd Hlen Hk Hw sum s. subst s. rewrite weighted_sum_firstn.
  set (s := weighted_sum w (digits d)).
  assert (sum = Num s) as E by (apply sum_loop_weighted; assumption).
  assert (0 <= s) as Hs by (apply weighted_sum_nonneg; [assumption | apply digits_nonneg; assumption]).
  rewrite E, rem_11, check_of_Num by assumption.
  repeat split. apply parseInt_charAt; assumption.
Qed.

(* ================================================================== *)
(** * CPF *)
(* ================================================================== *)

Lemma cpf_weight1 (i : nat) :
  (i < 9)%nat -> Num (10 - Z.of_nat i) = index cpf_weights1 i.
Proof. intros H. do 9 (destruct i as [|i]; [reflexivity|]). lia. Qed.

Lemma cpf_weight2 (i : nat) :
  (i < 10)%nat -> Num (11 - Z.of_nat i) = index cpf_weights2 i.
Proof. intros H. do 10 (destruct i as [|i]; [reflexivity|]). lia. Qed.

Lemma cpf_formatted (d : string) :
  String.length d = 11%nat ->
  slice d 0 3 ++ "." ++ slice d 3 6 ++ "." ++ slice d 6 9 ++ "-" ++ slice d 9 11
  = FormatManager.applyMask d "XXX.XXX.XXX-XX".
Proof. intros H. explode d H. reflexivity. Qed.

Ltac nonneg_weights := repeat constructor; lia.

Lemma cpf_on_digits (d : string) :
  String.length d = 11%nat -> all_chars is_digit d = true ->
  repeated_digit 10 d = false ->
  BrazilRules.cpf d = cpf_result d.
Proof.
  intros Hlen Hd Hrep. unfold BrazilRules.cpf, cpf_result.
  rewrite (strip_digits_id d Hd), Hlen, Hrep, (cpf_formatted d Hlen).
  rewrite (sum_loop_ext 9 _ (fun i => mul (parseInt (charAt d i)) (index cpf_weights1 i)))
    by (intros i Hi; rewrite cpf_weight1 by assumption; reflexivity).
  rewrite (sum_loop_ext 10 _ (fun i => mul (parseInt (charAt d i)) (index cpf_weights2 i)))
    by (intros i Hi; rewrite cpf_weight2 by assumption; reflexivity).
  destruct (check_step cpf_weights1 d 9 Hd) as (E1 & R1 & C1 & P1);
    [simpl; lia | lia | nonneg_weights |].
  destruct (check_step cpf_weights2 d 10 Hd) as (E2 & R2 & C2 & P2);
    [simpl; lia | lia | nonneg_weights |].
  simpl List.length in *.
  rewrite C1, P1, R1, E1, C2, P2, R2, E2.
  reflexivity.
Qed.

Lemma cpf_strip (input : string) :
  BrazilRules.cpf input = BrazilRules.cpf (strip_non_digits input).
Proof. unfold BrazilRules.cpf. rewrite strip_idempotent. reflexivity. Qed.

(** C1: on every input whose digits are 11 and not all identical, the
    CPF validator computes the first check digit from digits 0..8 with
    weights 10 down to 2 and the second from digits 0..9 with weights 11
    down to 2 (remainder of the sum modulo 11, digit 0 below 2 and
    11 - remainder otherwise), compares them with digits 9 and 10,
    reports calculated, provided, sum and remainder on a mismatch, and
    on success formats the digits as XXX.XXX.XXX-XX. "11144477735" is
    valid with formatted "111.444.777-35"; "11111111111" fails with the
    repeated-digit error. *)
Theorem cpf_check_digits :
  (forall input : string,
      let d := strip_non_digits input in
      String.length d = 11%nat -> ~ all_identical d ->
      BrazilRules.cpf input = cpf_result d)
  /\ BrazilRules.cpf "11144477735"
     = success [("formatted", Str "111.444.777-35");
                ("type", Str "personal"); ("country", Str "BR")]
  /\ BrazilRules.cpf "11111111111"
     = failure "CPF não pode ter todos os dígitos iguais"
         [("pattern", Str "repeated_digits")].
Proof.
  split; [|split; reflexivity].
  intros input d Hlen Hne. rewrite cpf_strip. fold d.
  pose proof (strip_all_digits input) as Hd. fold d in Hd.
  apply cpf_on_digits; try assumption.
  apply repeated_digit_false; assumption.
Qed.

Lemma cpf_check_digits_witness :
  BrazilRules.cpf "111.444.777-35" = cpf_result "11144477735".
Proof.
  apply (proj1 cpf_check_digits "111.444.777-35").
  - reflexivity.
  - intros H. specialize (H 0%nat 3%nat "1"%char "4"%char eq_refl eq_refl).
    discriminate H.
Defined.

(* ================================================================== *)
(** * NIF *)
(* ================================================================== *)

Lemma getEntityType_category (x : string) :
  PortugalRules.getEntityType x = Str (nif_category x).
Proof.
  unfold PortugalRules.getEntityType, PortugalRules.entityTypes, nif_category,
    includes, field, or_else.
  simpl lookup_prop. simpl existsb.
  repeat match goal with
         | |- context [String.eqb x ?k] => destruct (String.eqb x k); simpl
         end; reflexivity.
Qed.

Lemma pt_formatted (d : string) :
  String.length d = 9%nat ->
  slice d 0 3 ++ " " ++ slice d 3 6 ++ " " ++ slice d 6 9
  = FormatManager.applyMask d "XXX XXX XXX".
Proof. intros H. explode d H. reflexivity. Qed.

Lemma nif_on_digits (d : string) :
  String.length d = 9%nat -> all_chars is_digit d = true ->
  repeated_digit 8 d = false ->
  PortugalRules.nif this_rules d = Return (nif_result d).
Proof.
  intros Hlen Hd Hrep. unfold PortugalRules.nif, nif_result.
  rewrite (strip_digits_id d Hd), Hlen, Hrep, (pt_formatted d Hlen).
  destruct (check_step PortugalRules.weights d 8 Hd) as (E & R & C & P);
    [simpl; lia | lia | nonneg_weights |].
  simpl List.length in *. unfold check_of in C.
  change (includes nif_first_digits (charAt d 0))
    with (includes ["1"; "2"; "3"; "5"; "6"; "7"; "8"; "9"] (charAt d 0)).
  cbv zeta. rewrite C, P.
  simpl negb at 1. cbv iota.
  destruct (includes _ (charAt d 0)); [|reflexivity].
  simpl negb. cbv iota. simpl strict_neq.
  destruct (_ =? _); [|reflexivity].
  simpl. rewrite getEntityType_category. reflexivity.
Qed.

Lemma nif_strip (this : receiver) (input : string) :
  PortugalRules.nif this input = PortugalRules.nif this (strip_non_digits input).
Proof. unfold PortugalRules.nif. rewrite strip_idempotent. reflexivity. Qed.

(** What version 1.0.1 of the NIF validator is written to do, and does
    when it is called as a method of its rule object: on every input
    whose digits are 9 and not all identical it rejects a first digit
    outside 1, 2, 3, 5, 6, 7, 8, 9, compares the check digit computed
    with weights 9..2 over digits 0..7 with digit 8, and on a match
    returns a valid result whose category is that of the first digit:
    1, 2, 3 personal; 5 public_entity; 6 non_profit; 7, 8, 9
    other_entity; any other character unknown. No caller in the
    library calls it that way. *)
Lemma nif_first_digit_and_category :
  (forall input : string,
      let d := strip_non_digits input in
      String.length d = 9%nat -> ~ all_identical d ->
      PortugalRules.nif this_rules input = Return (nif_result d))
  /\ (forall c : ascii,
        PortugalRules.getEntityType (String c "") = Str (nif_category (String c "")))
  /\ PortugalRules.nif this_rules "123456789"
     = Return (success [("formatted", Str "123 456 789");
                        ("type", Str "personal"); ("country", Str "PT")]).
Proof.
  split; [|split; [intros c; apply getEntityType_category | reflexivity]].
  intros input d Hlen Hne. rewrite nif_strip. fold d.
  pose proof (strip_all_digits input) as Hd. fold d in Hd.
  apply nif_on_digits; try assumption.
  apply repeated_digit_false; assumption.
Qed.

Lemma nif_first_digit_and_category_witness :
  PortugalRules.nif this_rules "501 964 843" = Return (nif_result "501964843").
Proof.
  apply (proj1 nif_first_digit_and_category "501 964 843").
  - reflexivity.
  - intros H. specialize (H 0%nat 1%nat "5"%char "0"%char eq_refl eq_refl).
    discriminate H.
Defined.

(** Called as a plain function, as the dispatcher calls it, the same
    validator throws where it would have succeeded: [this] is undefined
    when [this.getEntityType] is read. *)
Lemma nif_plain_call (input : string) :
  let d := strip_non_digits input in
  String.length d = 9%nat -> ~ all_identical d ->
  PortugalRules.nif this_undefined input
  = if truthy (field "isValid" (nif_result d)) then
      Throw (Error (cannot_read "undefined" "getEntityType"))
    else Return (nif_result d).
Proof.
  intros d Hlen Hne. rewrite nif_strip. fold d.
  pose proof (strip_all_digits input) as Hd. fold d in Hd.
  pose proof (repeated_digit_false 8 d Hlen Hd Hne) as Hrep.
  pose proof (nif_on_digits d Hlen Hd Hrep) as Hb.
  unfold PortugalRules.nif in *. rewrite (strip_digits_id d Hd), Hlen, Hrep in *.
  cbv zeta in *. simpl negb in Hb at 1. simpl negb at 1. cbv iota in *.
  unfold nif_result in *. cbv zeta in *.
  change (includes nif_first_digits (charAt d 0))
    with (includes ["1"; "2"; "3"; "5"; "6"; "7"; "8"; "9"] (charAt d 0)) in *.
  destruct (negb (includes _ (charAt d 0))); [exact Hb|].
  destruct (strict_neq _ _).
  - destruct (negb (_ =? _)); [exact Hb | discriminate Hb].
  - destruct (negb (_ =? _)); [discriminate Hb | reflexivity].
Qed.

(** Version 1.0.0 of [nif] accepts the first digits 1, 2 and 3 only, and
    agrees with version 1.0.1 on them. *)
Lemma nif_1_0_0_on_digits (d : string) :
  String.length d = 9%nat -> all_chars is_digit d = true ->
  repeated_digit 8 d = false ->
  PortugalRules_1_0_0.nif d
  = if includes ["1"; "2"; "3"] (charAt d 0) then nif_result d
    else failure "Personal NIF must start with 1, 2 or 3"
           [("firstDigit", Str (charAt d 0));
            ("validFirstDigits", Array [Str "1"; Str "2"; Str "3"])].
Proof.
  intros Hlen Hd Hrep. unfold PortugalRules_1_0_0.nif, nif_result.
  rewrite (strip_digits_id d Hd), Hlen, Hrep, (pt_formatted d Hlen).
  destruct (check_step PortugalRules_1_0_0.weights d 8 Hd) as (E & R & C & P);
    [simpl; lia | lia | nonneg_weights |].
  simpl List.length in *. unfold check_of in C.
  cbv zeta. rewrite C, P.
  simpl negb at 1. cbv iota.
  unfold nif_category, nif_first_digits, includes. simpl existsb.
  destruct (String.eqb (charAt d 0) "1"); simpl;
    [destruct (_ =? _); reflexivity|].
  destruct (String.eqb (charAt d 0) "2"); simpl;
    [destruct (_ =? _); reflexivity|].
  destruct (String.eqb (charAt d 0) "3"); simpl;
    [destruct (_ =? _); reflexivity|].
  reflexivity.
Qed.

Example nif_1_0_0_rejects_5 :
  field "isValid" (PortugalRules_1_0_0.nif "501964843") = Bool false
  /\ field "isValid" <$> PortugalRules.nif this_rules "501964843" = Return (Bool true).
Proof. split; reflexivity. Qed.

(* ================================================================== *)
(** * Detection of the document type *)
(* ================================================================== *)

Section Sorting.

Import FormatManager.

Lemma insert_entry_perm e l : Permutation (insert_entry e l) (e :: l).
Proof.
  induction l as [|x l IH]; simpl; [reflexivity|].
  destruct (_ <=? _); [reflexivity|].
  rewrite IH. apply perm_swap.
Qed.

Lemma sort_by_priority_perm l : Permutation (sort_by_priority l) l.
Proof.
  induction l as [|e l IH]; simpl; [reflexivity|].
  rewrite insert_entry_perm. constructor. exact IH.
Qed.

Lemma insert_entry_sorted e l :
  StronglySorted by_priority l -> StronglySorted by_priority (insert_entry e l).
Proof.
  induction 1 as [|x l Hl IH Hx]; simpl.
  - repeat constructor.
  - destruct (Z.leb_spec (Doc.priority (snd e)) (Doc.priority (snd x))) as [Hle|Hgt].
    + constructor; [constructor; assumption|].
      constructor; [exact Hle|].
      eapply List.Forall_impl; [|exact Hx].
      intros y Hy. unfold by_priority in *. lia.
    + constructor; [exact IH|].
      rewrite insert_entry_perm. constructor; [|exact Hx].
      unfold by_priority. lia.
Qed.

Lemma sort_by_priority_sorted l : StronglySorted by_priority (sort_by_priority l).
Proof.
  induction l as [|e l IH]; simpl; [constructor | apply insert_entry_sorted, IH].
Qed.

(** The sort is stable: entries already in order stay where they are. *)
Lemma sort_by_priority_stable l :
  StronglySorted by_priority l -> sort_by_priority l = l.
Proof.
  induction 1 as [|x l Hl IH Hx]; simpl; [reflexivity|].
  rewrite IH. destruct l as [|y l]; [reflexivity|]. simpl.
  apply Forall_inv in Hx. unfold by_priority in Hx.
  apply Z.leb_le in Hx. rewrite Hx. reflexivity.
Qed.

Lemma sort_by_priority_nonempty l : l <> [] -> sort_by_priority l <> [].
Proof.
  intros H E. apply H. apply Permutation_nil.
  rewrite <- E. apply sort_by_priority_perm.
Qed.

End Sorting.

Lemma find_first {A} (p : A -> bool) (pre : list A) (e : A) (post : list A) :
  Forall (fun x => p x = false) pre -> p e = true ->
  find p (pre ++ e :: post) = Some e.
Proof.
  induction 1 as [|x pre Hx Hpre IH]; simpl; intros He.
  - rewrite He. reflexivity.
  - rewrite Hx. apply IH, He.
Qed.

Lemma find_nobody {A} (p : A -> bool) (l : list A) :
  Forall (fun x => p x = false) l -> find p l = None.
Proof.
  induction 1 as [|x l Hx Hl IH]; simpl; [reflexivity|]. rewrite Hx. exact IH.
Qed.

Lemma nth_error_last {A} (l : list A) (d : A) :
  l <> [] -> nth_error l (List.length l - 1) = Some (List.last l d).
Proof.
  induction l as [|x l IH]; [congruence|]. intros _.
  destruct l as [|y l]; [reflexivity|].
  specialize (IH ltac:(discriminate)).
  replace (List.length (x :: y :: l) - 1)%nat with (S (List.length (y :: l) - 1))
    by (simpl; lia).
  exact IH.
Qed.

(** C3: for a country with document types, the detector strips the
    non-digits, sorts the types by ascending priority, and picks the
    first one when no digit is typed, otherwise the first one in that
    order whose length is at least the number of digits, and the last
    one when every length is smaller. For Brazil: no digit gives cpf,
    12 digits cnpj, 20 digits cnpj. *)
Theorem detect_by_length :
  (forall (self : FormatManager.t) (c : Country),
      FormatManager.country (FormatManager.selectedCountry self)
        (FormatManager.countries self) = Some c ->
      documents c <> [] ->
      let n := digit_count self in
      let sorted := FormatManager.sort_by_priority (documents c) in
      StronglySorted by_priority sorted /\ Permutation sorted (documents c)
      /\ exists e : string * Doc.config,
          FormatManager.detectDocumentType self
          = Return (FormatManager.set_currentDocument self (Some (fst e)))
          /\ (n = 0 -> List.head sorted = Some e)
          /\ (n <> 0 ->
              forall pre x post, sorted = (pre ++ x :: post)%list ->
                Forall (fun y => ~ holds n y) pre -> holds n x -> e = x)
          /\ (n <> 0 -> Forall (fun y => ~ holds n y) sorted ->
              forall d, e = List.last sorted d))
  /\ FormatManager.currentDocument
       <$> FormatManager.detectDocumentType (FormatManager.new "" CountriesData)
     = Return (Some "cpf")
  /\ FormatManager.currentDocument
       <$> FormatManager.detectDocumentType (FormatManager.new "123456789012" CountriesData)
     = Return (Some "cnpj")
  /\ FormatManager.currentDocument
       <$> FormatManager.detectDocumentType
             (FormatManager.new "12345678901234567890" CountriesData)
     = Return (Some "cnpj").
Proof.
  split; [|repeat split; reflexivity].
  intros self c Hc Hne n sorted.
  split; [apply sort_by_priority_sorted|].
  split; [apply sort_by_priority_perm|].
  pose proof (sort_by_priority_nonempty _ Hne) as Hs. fold sorted in Hs.
  unfold FormatManager.detectDocumentType. rewrite Hc. fold sorted.
  assert (not_holds : forall l, Forall (fun y => ~ holds n y) l ->
            Forall (fun x : string * Doc.config =>
                      (let '(_, docConfig) := x in n <=? Doc.length docConfig) = false) l).
  { intros l. apply List.Forall_impl. intros [k cfg] H. apply Z.leb_gt.
    unfold holds in H. simpl in H. lia. }
  destruct (Nat.eqb_spec (String.length (strip_non_digits (FormatManager.value self))) 0)
    as [Hz|Hnz].
  - destruct sorted as [|e sorted'] eqn:Es; [congruence|].
    exists e. destruct e as [k cfg]. simpl.
    repeat split; intros; unfold n, digit_count in *; try lia; reflexivity.
  - assert (n <> 0) as Hn by (unfold n, digit_count; lia).
    fold (digit_count self). fold n.
    destruct (find _ sorted) as [[k cfg]|] eqn:Ef.
    + exists (k, cfg). split; [reflexivity|]. split; [intros; contradiction|]. split.
      * intros _ pre x post E Hpre Hx. subst sorted. rewrite E in Ef.
        rewrite (find_first _ pre x post) in Ef.
        -- congruence.
        -- apply not_holds, Hpre.
        -- destruct x as [k' cfg']. apply Z.leb_le. exact Hx.
      * intros _ Hall. apply not_holds in Hall.
        rewrite (find_nobody _ _ Hall) in Ef. discriminate.
    + pose (d0 := (EmptyString, {| Doc.length := 0; Doc.mask := ""; Doc.type := "";
                                   Doc.priority := 0 |})).
      destruct (List.last sorted d0) as [k cfg] eqn:El.
      exists (k, cfg). unfold FormatManager.type_at.
      rewrite (nth_error_last sorted d0 Hs), El. simpl.
      split; [reflexivity|]. split; [intros; contradiction|]. split.
      * intros _ pre x post E Hpre Hx. exfalso.
        rewrite E, (find_first _ pre x post) in Ef; [discriminate | apply not_holds, Hpre |].
        destruct x as [k' cfg']. apply Z.leb_le. exact Hx.
      * intros _ _ d. rewrite <- El. 
        destruct sorted as [|s0 sorted']; [congruence|].
        clear. revert s0. induction sorted' as [|y l IH]; intros s0; [reflexivity|].
        simpl in *. apply IH.
Qed.

Lemma detect_by_length_witness :
  exists e : string * Doc.config,
    FormatManager.detectDocumentType (FormatManager.new "123.456.789-012" CountriesData)
    = Return (FormatManager.set_currentDocument
                (FormatManager.new "123.456.789-012" CountriesData) (Some (fst e))).
Proof.
  destruct (proj1 detect_by_length
              (FormatManager.new "123.456.789-012" CountriesData)
              {| name := "Brasil"; iso2 := "br"; flag := "https://flagcdn.com/w20/br.png";
                 documents :=
                   [("cpf", {| Doc.length := 11; Doc.mask := "XXX.XXX.XXX-XX";
                               Doc.type := "personal"; Doc.priority := 1 |});
                    ("cnpj", {| Doc.length := 14; Doc.mask := "XX.XXX.XXX/XXXX-XX";
                                Doc.type := "company"; Doc.priority := 2 |})] |}
              eq_refl ltac:(discriminate)) as (_ & _ & e & He & _).
  exists e. exact He.
Defined.

(* ================================================================== *)
(** * The mask *)
(* ================================================================== *)

Lemma append_cons (x : ascii) (a b : string) : String x a ++ b = String x (a ++ b).
Proof. reflexivity. Qed.

Lemma append_assoc (a b c : string) : (a ++ b) ++ c = a ++ (b ++ c).
Proof.
  induction a as [|x a IH]; [reflexivity|].
  rewrite !append_cons, IH. reflexivity.
Qed.

Lemma append_empty_r (a : string) : a ++ "" = a.
Proof.
  induction a as [|x a IH]; [reflexivity|].
  rewrite append_cons, IH. reflexivity.
Qed.

Lemma skip_all (n : nat) (s : string) :
  (String.length s <= n)%nat -> skip n s = "".
Proof.
  revert n. induction s as [|c s IH]; intros [|n] H; simpl in *; try reflexivity; try lia.
  apply IH. lia.
Qed.

Lemma skip_charAt (n : nat) (s : string) :
  (n < String.length s)%nat -> skip n s = charAt s n ++ skip (n + 1) s.
Proof.
  revert n. induction s as [|c s IH]; intros n H; simpl in H; [lia|].
  destruct n as [|n]; simpl.
  - unfold charAt. simpl. destruct s; reflexivity.
  - rewrite IH by lia. unfold charAt. simpl. reflexivity.
Qed.

Lemma charAt_one (n : nat) (s : string) :
  (n < String.length s)%nat -> exists c, charAt s n = String c "".
Proof.
  revert n. induction s as [|c s IH]; intros n H; simpl in H; [lia|].
  destruct n as [|n]; unfold charAt; simpl; [eauto|].
  apply IH. lia.
Qed.

Lemma mask_walk_no_digit (mask : string) : mask_walk "" mask = "".
Proof. destruct mask; reflexivity. Qed.

(** The loop, from any of its states, appends the walk over what is left
    of the digits and of the mask. *)
Lemma applyMask_loop_walk (value mask : string) (valueIndex : nat) (formatted : string) :
  FormatManager.applyMask_loop value mask valueIndex formatted
  = formatted ++ mask_walk (skip valueIndex value) mask.
Proof.
  revert valueIndex formatted.
  induction mask as [|m mask IH]; intros valueIndex formatted; simpl.
  - rewrite append_empty_r. reflexivity.
  - destruct (Nat.ltb_spec valueIndex (String.length value)) as [Hlt|Hge].
    + rewrite (skip_charAt _ _ Hlt).
      destruct (charAt_one _ _ Hlt) as [c Hc]. rewrite Hc. simpl.
      destruct (Ascii.eqb m "X").
      * rewrite IH, append_assoc. reflexivity.
      * rewrite IH, append_assoc. simpl.
        rewrite (skip_charAt _ _ Hlt), Hc. reflexivity.
    + rewrite (skip_all _ _ Hge), append_empty_r. reflexivity.
Qed.

Lemma applyMask_walk (value mask : string) :
  FormatManager.applyMask value mask = mask_walk value mask.
Proof. unfold FormatManager.applyMask. rewrite applyMask_loop_walk. reflexivity. Qed.

Lemma mask_walk_exhausted (ds m1 m2 : string) :
  (String.length ds <= placeholders m1)%nat ->
  mask_walk ds (m1 ++ m2) = mask_walk ds m1.
Proof.
  revert ds. induction m1 as [|m m1 IH]; intros ds H; simpl in *.
  - destruct ds; simpl in H; [apply mask_walk_no_digit | lia].
  - destruct ds as [|d ds]; [reflexivity|]. simpl in H.
    destruct (Ascii.eqb m "X"); f_equal; apply IH; simpl; lia.
Qed.

Lemma last_char_cons (c : ascii) (s : string) :
  s <> "" -> last_char (String c s) = last_char s.
Proof. destruct s; [congruence | reflexivity]. Qed.

Lemma last_char_some (s : string) : s <> "" -> last_char s <> None.
Proof.
  induction s as [|c s IH]; [congruence|]. intros _.
  destruct s as [|c' s]; [discriminate|].
  rewrite last_char_cons by discriminate. apply IH. discriminate.
Qed.

Lemma mask_walk_last (ds mask : string) :
  ds <> "" -> (String.length ds <= placeholders mask)%nat ->
  last_char (mask_walk ds mask) = last_char ds.
Proof.
  revert ds. induction mask as [|m mask IH]; intros ds Hne H; simpl in *.
  - destruct ds; simpl in H; [congruence | lia].
  - destruct ds as [|d ds]; [congruence|]. simpl in H.
    assert (forall c s, s <> "" -> (String.length s <= placeholders mask)%nat ->
              last_char (String c (mask_walk s mask)) = last_char s) as step.
    { intros c s Hs Hl. rewrite last_char_cons; [apply IH; assumption|].
      intros E. apply (last_char_some s Hs). rewrite <- (IH s Hs Hl), E. reflexivity. }
    destruct (Ascii.eqb m "X").
    + destruct ds as [|d' ds].
      * rewrite mask_walk_no_digit. reflexivity.
      * rewrite step by (simpl in *; (discriminate || lia)).
        symmetry. apply last_char_cons. discriminate.
    + apply step; [discriminate | simpl in *; lia].
Qed.

(** C4: [applyMask] walks the mask from the left; a placeholder X takes
    the next digit, any other character is copied, and the walk stops as
    soon as the digits are used up: what the mask holds after the
    placeholder of the last digit is never appended, so the result ends
    with the last digit. applyMask("12345", "XXX-XX") is "123-45" and
    applyMask("123", "XXX-XX") is "123". *)
Theorem applyMask_stops_with_digits :
  (forall value mask : string,
      FormatManager.applyMask value mask = mask_walk value mask)
  /\ (forall value m1 m2 : string,
        (String.length value <= placeholders m1)%nat ->
        FormatManager.applyMask value (m1 ++ m2) = FormatManager.applyMask value m1)
  /\ (forall value mask : string,
        value <> "" -> (String.length value <= placeholders mask)%nat ->
        last_char (FormatManager.applyMask value mask) = last_char value)
  /\ FormatManager.applyMask "12345" "XXX-XX" = "123-45"
  /\ FormatManager.applyMask "123" "XXX-XX" = "123".
Proof.
  split; [exact applyMask_walk|].
  split; [intros value m1 m2 H; rewrite !applyMask_walk; apply mask_walk_exhausted, H|].
  split; [intros value mask Hne H; rewrite applyMask_walk; apply mask_walk_last; assumption|].
  split; reflexivity.
Qed.

Lemma applyMask_stops_with_digits_witness :
  FormatManager.applyMask "123" ("XXX" ++ "-XX") = FormatManager.applyMask "123" "XXX".
Proof.
  apply (proj1 (proj2 applyMask_stops_with_digits) "123" "XXX" "-XX").
  simpl. lia.
Defined.

(* ================================================================== *)
(** * The cursor *)
(* ================================================================== *)

Lemma count_loop_digits_before (oldCursor : nat) (oldValue : string) (i acc : nat) :
  FormatManager.count_loop oldCursor oldValue i acc
  = (acc + digits_before (oldCursor - i) oldValue)%nat.
Proof.
  revert i acc. induction oldValue as [|c s IH]; intros i acc; simpl.
  - destruct (oldCursor - i)%nat; simpl; lia.
  - destruct (Nat.ltb_spec i oldCursor) as [Hlt|Hge].
    + rewrite IH.
      replace (oldCursor - i)%nat with (S (oldCursor - (i + 1))) by lia.
      simpl. destruct (is_digit c); lia.
    + replace (oldCursor - i)%nat with 0%nat by lia. simpl. lia.
Qed.

(** The second loop keeps [newCursor = i] and stops in front of the
    digit that makes [numbersFound] exceed [numbersBeforeCursor]. *)
Lemma place_loop_next_digit (n : nat) (newValue : string) (i found : nat) :
  (found <= n)%nat ->
  FormatManager.place_loop n newValue i i found
  = (i + index_of_next_digit (n - found) newValue)%nat.
Proof.
  revert i found. induction newValue as [|c s IH]; intros i found H; simpl.
  - lia.
  - destruct (is_digit c).
    + destruct (Nat.ltb_spec n (found + 1)) as [Hlt|Hge].
      * replace (n - found)%nat with 0%nat by lia. lia.
      * rewrite IH by lia.
        replace (n - found)%nat with (S (n - (found + 1))) by lia. lia.
    + rewrite IH by lia. lia.
Qed.

(** C5 as the code has it: the function counts the digits strictly
    before the old cursor in the old string, then returns the index, in
    the new string, of the digit that follows that many digits: the
    position in front of the next digit, after the separators that
    follow the last counted digit, or the length of the new string when
    it has no further digit. For old "123.456", new "123.456.7" and
    cursor 7 the result is 8. *)
Theorem cursor_before_next_digit :
  (forall (oldValue newValue : string) (oldCursor : nat),
      FormatManager.calculateCursorPosition oldValue newValue oldCursor
      = index_of_next_digit (digits_before oldCursor oldValue) newValue)
  /\ FormatManager.calculateCursorPosition "123.456" "123.456.7" 7 = 8%nat.
Proof.
  split; [|reflexivity].
  intros oldValue newValue oldCursor. unfold FormatManager.calculateCursorPosition.
  rewrite count_loop_digits_before, place_loop_next_digit by lia.
  rewrite !Nat.sub_0_r. reflexivity.
Qed.

(** On the specification's own instance the result is not 9, and it is
    not the index just after the sixth digit either. *)
Lemma cursor_instance_not_9 :
  FormatManager.calculateCursorPosition "123.456" "123.456.7" 7 <> 9%nat
  /\ FormatManager.calculateCursorPosition "123.456" "123.456.7" 7
     <> index_after_digit (digits_before 7 "123.456") "123.456.7".
Proof. split; vm_compute; discriminate. Qed.

(* ================================================================== *)
(** * The dispatcher *)
(* ================================================================== *)

Section Dispatcher.

Variable self : Validator.t.
Variables document countryCode documentType : string.

Lemma validate_no_rules :
  Validator.rules self !! toLowerCase countryCode = None ->
  Validator.validate self document countryCode documentType
  = Return (Object [("isValid", Bool false);
                    ("error", Str ("Regras de validação não encontradas para o país: "
                                   ++ countryCode));
                    ("details", Null)]).
Proof. intros H. unfold Validator.validate. rewrite H. reflexivity. Qed.

Lemma validate_no_validator (rules : list (string * property)) :
  Validator.rules self !! toLowerCase countryCode = Some rules ->
  (forall f, Validator.rule documentType rules <> Some (Function f)) ->
  Validator.validate self document countryCode documentType
  = Return (Object [("isValid", Bool false);
                    ("error", Str ("Validador não encontrado para o tipo: "
                                   ++ documentType));
                    ("details", Null)]).
Proof.
  intros H Hf. unfold Validator.validate. rewrite H.
  destruct (Validator.rule documentType rules) as [[f|v]|]; try reflexivity.
  exfalso. apply (Hf f). reflexivity.
Qed.

Lemma validate_throwing (rules : list (string * property))
    (validator : receiver -> string -> outcome jsval) (e : exception) :
  Validator.rules self !! toLowerCase countryCode = Some rules ->
  Validator.rule documentType rules = Some (Function validator) ->
  validator this_undefined document = Throw e ->
  Validator.validate self document countryCode documentType
  = Return (Object [("isValid", Bool false);
                    ("error", Str ("Erro durante validação: " ++ message e));
                    ("details", Null)]).
Proof.
  intros H Hf He. unfold Validator.validate. rewrite H, Hf, He. reflexivity.
Qed.

(** A validator that returns an object, or any value but [undefined]
    and [null], has its three fields copied, [error] and [details]
    through [|| null]. *)
Lemma validate_returning (rules : list (string * property))
    (validator : receiver -> string -> outcome jsval) (result : jsval) :
  Validator.rules self !! toLowerCase countryCode = Some rules ->
  Validator.rule documentType rules = Some (Function validator) ->
  validator this_undefined document = Return result ->
  result <> Undefined -> result <> Null ->
  Validator.validate self document countryCode documentType
  = Return (Object [("isValid", field "isValid" result);
                    ("error", or_else (field "error" result) Null);
                    ("details", or_else (field "details" result) Null);
                    ("documentType", Str documentType);
                    ("countryCode", Str countryCode)]).
Proof.
  intros H Hf Hr Hu Hn. unfold Validator.validate. rewrite H, Hf, Hr.
  destruct result; try congruence; reflexivity.
Qed.

(** Every call returns; none throws. *)
Lemma validate_returns :
  exists r, Validator.validate self document countryCode documentType = Return r.
Proof.
  unfold Validator.validate.
  destruct (Validator.rules self !! toLowerCase countryCode) as [rules|]; [|eauto].
  destruct (Validator.rule documentType rules) as [[f|v]|]; eauto.
  destruct (f this_undefined document) as [result|e]; [|simpl; eauto].
  destruct result; simpl; eauto.
Qed.

(** The [error] of what the dispatcher returns is [null] or truthy. *)
Lemma validate_error (r : jsval) :
  Validator.validate self document countryCode documentType = Return r ->
  field "error" r = Null \/ truthy (field "error" r) = true.
Proof.
  unfold Validator.validate.
  destruct (Validator.rules self !! toLowerCase countryCode) as [rules|];
    [|intros [= <-]; right; reflexivity].
  destruct (Validator.rule documentType rules) as [[f|v]|];
    try (intros [= <-]; right; reflexivity).
  destruct (f this_undefined document) as [result|e];
    [|intros [= <-]; right; reflexivity].
  destruct result; simpl; intros [= <-]; simpl; auto.
  unfold or_else. simpl.
  destruct (truthy _) eqn:E; auto.
Qed.

End Dispatcher.

(** C6: whatever the document, the country code and the document type,
    the dispatcher returns a result and never throws: a failed result
    naming the country when no rule set is registered for the
    lower-cased country code, a failed result naming the type when the
    rule set has no function for it, and a failed result carrying the
    exception's message when the validator throws. *)
Theorem validate_reports_failures :
  forall (self : Validator.t) (document countryCode documentType : string),
    (exists r, Validator.validate self document countryCode documentType = Return r)
    /\ (Validator.rules self !! toLowerCase countryCode = None ->
        Validator.validate self document countryCode documentType
        = Return (Object [("isValid", Bool false);
                          ("error", Str ("Regras de validação não encontradas para o país: "
                                         ++ countryCode));
                          ("details", Null)]))
    /\ (forall rules : list (string * property),
          Validator.rules self !! toLowerCase countryCode = Some rules ->
          (forall f, Validator.rule documentType rules <> Some (Function f)) ->
          Validator.validate self document countryCode documentType
          = Return (Object [("isValid", Bool false);
                            ("error", Str ("Validador não encontrado para o tipo: "
                                           ++ documentType));
                            ("details", Null)]))
    /\ (forall (rules : list (string * property))
               (validator : receiver -> string -> outcome jsval) (e : exception),
          Validator.rules self !! toLowerCase countryCode = Some rules ->
          Validator.rule documentType rules = Some (Function validator) ->
          validator this_undefined document = Throw e ->
          Validator.validate self document countryCode documentType
          = Return (Object [("isValid", Bool false);
                            ("error", Str ("Erro durante validação: " ++ message e));
                            ("details", Null)])).
Proof.
  intros self document countryCode documentType.
  split; [apply validate_returns|].
  split; [apply validate_no_rules|].
  split; [apply validate_no_validator | apply validate_throwing].
Qed.

(** The dispatcher calls the validators as plain functions: a NIF that
    passes every check makes [PortugalRules.nif] throw, and the
    dispatcher reports the exception. *)
Lemma validate_reports_failures_witness :
  Validator.validate ValidatorInstance "123456789" "pt" "nif"
  = Return (Object [("isValid", Bool false);
                    ("error", Str ("Erro durante validação: "
                                   ++ cannot_read "undefined" "getEntityType"));
                    ("details", Null)]).
Proof.
  apply (proj2 (proj2 (proj2
           (validate_reports_failures ValidatorInstance "123456789" "pt" "nif")))
           PortugalRules.rules PortugalRules.nif
           (Error (cannot_read "undefined" "getEntityType")));
    reflexivity.
Defined.

(** C10: the dispatcher passes the validator's [error] through
    [|| null]: a falsy error, the empty string of the SSN area-666
    branch among them, leaves the dispatcher as [null], and no result of
    the dispatcher has an empty string as its error. *)
Theorem validate_error_normalized :
  (forall (self : Validator.t) (document countryCode documentType : string) (r : jsval),
      Validator.validate self document countryCode documentType = Return r ->
      field "error" r <> Str ""
      /\ (field "error" r = Null \/ truthy (field "error" r) = true))
  /\ (forall (self : Validator.t) (document countryCode documentType : string)
             (rules : list (string * property))
             (validator : receiver -> string -> outcome jsval) (result : jsval),
        Validator.rules self !! toLowerCase countryCode = Some rules ->
        Validator.rule documentType rules = Some (Function validator) ->
        validator this_undefined document = Return result ->
        result <> Undefined -> result <> Null ->
        truthy (field "error" result) = false ->
        field "error" <$> Validator.validate self document countryCode documentType
        = Return Null)
  /\ field "error" (USARules.ssn "666123456") = Str ""
  /\ field "error" <$> Validator.validate ValidatorInstance "666123456" "us" "ssn"
     = Return Null.
Proof.
  split; [|split; [|split; reflexivity]].
  - intros self document countryCode documentType r H.
    pose proof (validate_error _ _ _ _ _ H) as He.
    split; [|exact He].
    intros E. rewrite E in He. destruct He as [He|He]; discriminate He.
  - intros self document countryCode documentType rules validator result
      H Hf Hr Hu Hn Hfalsy.
    rewrite (validate_returning _ _ _ _ _ _ _ H Hf Hr Hu Hn).
    unfold or_else. rewrite Hfalsy. reflexivity.
Qed.

Lemma validate_error_normalized_witness :
  field "error" <$> Validator.validate ValidatorInstance "666-12-3456" "US" "ssn"
  = Return Null.
Proof.
  apply (proj1 (proj2 validate_error_normalized)
           ValidatorInstance "666-12-3456" "US" "ssn"
           USARules.rules (fun _ document => Return (USARules.ssn document))
           (USARules.ssn "666-12-3456"));
    try reflexivity; discriminate.
Defined.

(* ================================================================== *)
(** * The NIF validator behind the dispatcher *)
(* ================================================================== *)

(** C2: the NIF validator does not accept the numbers the
    specification says it accepts. The dispatcher, its only caller,
    calls it as a plain function; version 1.0.1 reads
    [this.getEntityType] once the first digit and the check digit have
    passed, so on every number of 9 digits, not all identical, that the
    specification finds valid, the call throws and the dispatcher
    returns a failed result with the message of the exception. Version
    1.0.0 has no entity types and rejects the first digits 5 to 9. On
    501964843, a number with first digit 5 and a matching check digit,
    which the specification finds valid as a public entity, both
    versions end in [isValid] false. *)
Theorem nif_valid_number_rejected :
  (forall input code : string,
      let d := strip_non_digits input in
      String.length d = 9%nat -> ~ all_identical d ->
      field "isValid" (nif_result d) = Bool true ->
      toLowerCase code = "pt" ->
      Validator.validate ValidatorInstance input code "nif"
      = Return (Object [("isValid", Bool false);
                        ("error", Str ("Erro durante validação: "
                                       ++ cannot_read "undefined" "getEntityType"));
                        ("details", Null)]))
  /\ nif_result "501964843"
     = success [("formatted", Str "501 964 843");
                ("type", Str "public_entity"); ("country", Str "PT")]
  /\ PortugalRules.nif this_undefined "501964843"
     = Throw (Error (cannot_read "undefined" "getEntityType"))
  /\ Validator.validate ValidatorInstance "501964843" "pt" "nif"
     = Return (Object [("isValid", Bool false);
                       ("error", Str ("Erro durante validação: "
                                      ++ cannot_read "undefined" "getEntityType"));
                       ("details", Null)])
  /\ Validator.validate ValidatorInstance_1_0_0 "501964843" "pt" "nif"
     = Return (Object [("isValid", Bool false);
                       ("error", Str "Personal NIF must start with 1, 2 or 3");
                       ("details", Object [("firstDigit", Str "5");
                                           ("validFirstDigits",
                                            Array [Str "1"; Str "2"; Str "3"])]);
                       ("documentType", Str "nif");
                       ("countryCode", Str "pt")]).
Proof.
  split; [|repeat split; reflexivity].
  intros input code d Hlen Hne Hvalid E.
  apply (validate_throwing ValidatorInstance input code "nif" PortugalRules.rules
           PortugalRules.nif (Error (cannot_read "undefined" "getEntityType"))).
  - rewrite E. reflexivity.
  - reflexivity.
  - rewrite (nif_plain_call input Hlen Hne). fold d. rewrite Hvalid. reflexivity.
Qed.

Lemma nif_valid_number_rejected_witness :
  Validator.validate ValidatorInstance "123 456 789" "PT" "nif"
  = Return (Object [("isValid", Bool false);
                    ("error", Str ("Erro durante validação: "
                                   ++ cannot_read "undefined" "getEntityType"));
                    ("details", Null)]).
Proof.
  apply (proj1 nif_valid_number_rejected "123 456 789" "PT").
  - reflexivity.
  - intros H. specialize (H 0%nat 1%nat "1"%char "2"%char eq_refl eq_refl).
    discriminate H.
  - reflexivity.
  - reflexivity.
Defined.

(* ================================================================== *)
(** * SSN *)
(* ================================================================== *)

Lemma ssn_strip (input : string) :
  USARules.ssn input = USARules.ssn (strip_non_digits input).
Proof. unfold USARules.ssn. rewrite strip_idempotent. reflexivity. Qed.

Lemma charAt_0_eqb (s : string) (c : ascii) :
  String.eqb (charAt s 0) (String c "") = true <-> String.get 0 s = Some c.
Proof.
  rewrite String.eqb_eq. unfold charAt. destruct s as [|x s]; simpl.
  - split; discriminate.
  - split; congruence.
Qed.

Ltac ssn_branch :=
  repeat split; intros;
  try match goal with
      | |- exists _, _ => simpl; eexists; split; [reflexivity | simpl; tauto]
      end;
  first [reflexivity | discriminate | congruence | tauto | (exfalso; intuition congruence)].

Lemma ssn_on_digits (d : string) :
  String.length d = 9%nat -> all_chars is_digit d = true ->
  repeated_digit 8 d = false ->
  ssn_behaviour d (USARules.ssn d).
Proof.
  intros Hlen Hd Hrep. unfold ssn_behaviour.
  set (area := ssn_area d). set (group := ssn_group d). set (serial := ssn_serial d).
  split; [subst area group serial; explode d Hlen; reflexivity|].
  unfold USARules.ssn. rewrite (strip_digits_id d Hd), Hlen, Hrep.
  change (slice d 0 3) with area. change (slice d 3 5) with group.
  change (slice d 5 9) with serial.
  simpl negb. cbv iota zeta.
  clearbody area group serial. unfold area_allowed.
  destruct (String.eqb_spec area "000") as [E0|N0]; [subst area; ssn_branch|].
  destruct (String.eqb_spec area "666") as [E6|N6]; [subst area; ssn_branch|].
  destruct (String.eqb (charAt area 0) "9") eqn:E9;
    [apply charAt_0_eqb in E9; ssn_branch|].
  assert (String.get 0 area <> Some "9"%char) as N9
    by (intros E; apply charAt_0_eqb in E; congruence).
  destruct (String.eqb_spec group "00") as [Eg|Ng]; [ssn_branch|].
  destruct (String.eqb_spec serial "0000") as [Es|Ns]; ssn_branch.
Qed.

(** C7: on nine digits that are not all identical, split into area
    (3), group (2) and serial (4), the SSN validator rejects area 000,
    area 666, an area starting with 9, group 00 and serial 0000, each
    with its own issue tag in the details, and otherwise succeeds with
    formatted area-group-serial and the three parts in the details.
    "000456789" is rejected for its area and "123456789" is valid. *)
Theorem ssn_rejections :
  (forall input : string,
      let d := strip_non_digits input in
      String.length d = 9%nat -> ~ all_identical d ->
      ssn_behaviour d (USARules.ssn input))
  /\ List.NoDup ssn_issues
  /\ USARules.ssn "000456789"
     = failure "SSN area cannot be 000"
         [("area", Str "000"); ("issue", Str "invalid_area_000")]
  /\ USARules.ssn "123456789"
     = success [("formatted", Str "123-45-6789");
                ("type", Str "personal");
                ("country", Str "US");
                ("parts", Object [("area", Str "123"); ("group", Str "45");
                                  ("serial", Str "6789")])].
Proof.
  split; [|split; [|split; reflexivity]].
  - intros input d Hlen Hne. rewrite ssn_strip. fold d.
    pose proof (strip_all_digits input) as Hd. fold d in Hd.
    apply ssn_on_digits; try assumption.
    apply repeated_digit_false; assumption.
  - unfold ssn_issues.
    repeat (apply List.NoDup_cons; [simpl; intuition discriminate|]).
    apply List.NoDup_nil.
Qed.

Lemma ssn_rejections_witness : ssn_behaviour "123006789" (USARules.ssn "123-00-6789").
Proof.
  apply (proj1 ssn_rejections "123-00-6789").
  - reflexivity.
  - intros H. specialize (H 0%nat 1%nat "1"%char "2"%char eq_refl eq_refl).
    discriminate H.
Defined.

(* ================================================================== *)
(** * Validating what a validator formatted *)
(* ================================================================== *)

(** Stripping a masked string of digits gives the digits back, when the
    mask has room for all of them and no digit of its own. *)
Lemma strip_mask_walk (ds mask : string) :
  all_chars is_digit ds = true -> all_chars separator mask = true ->
  (String.length ds <= placeholders mask)%nat ->
  strip_non_digits (mask_walk ds mask) = ds.
Proof.
  revert ds. induction mask as [|m mask IH]; intros ds Hd Hm Hlen; simpl in *.
  - destruct ds; simpl in Hlen; [reflexivity | lia].
  - destruct ds as [|d ds]; [reflexivity|].
    apply andb_true_iff in Hm as [Hm Hmask]. simpl in Hd, Hlen.
    apply andb_true_iff in Hd as [Hd Hds].
    destruct (Ascii.eqb m "X"); simpl.
    + rewrite Hd. f_equal. apply IH; [assumption | assumption | lia].
    + unfold separator in Hm. apply negb_true_iff in Hm. rewrite Hm.
      apply IH; [simpl; rewrite Hd, Hds; reflexivity | assumption | simpl; lia].
Qed.

Lemma round_trip_masked (v : string -> outcome jsval) (k : nat) (mask : string) :
  (forall s, v s = v (strip_non_digits s)) ->
  all_chars separator mask = true -> placeholders mask = k ->
  (forall s r, v s = Return r -> field "isValid" r = Bool true ->
     String.length (strip_non_digits s) = k
     /\ field "formatted" (field "details" r)
        = Str (FormatManager.applyMask (strip_non_digits s) mask)) ->
  round_trips v.
Proof.
  intros Hstrip Hmask Hk Hshape input r Hr Hvalid.
  destruct (Hshape input r Hr Hvalid) as [Hlen Hf].
  eexists. split; [exact Hf|].
  rewrite Hstrip, applyMask_walk, strip_mask_walk, <- Hstrip; try assumption.
  - apply strip_all_digits.
  - lia.
Qed.

Lemma cnpj_formatted (d : string) :
  String.length d = 14%nat ->
  slice d 0 2 ++ "." ++ slice d 2 5 ++ "." ++ slice d 5 8 ++ "/" ++ slice d 8 12
    ++ "-" ++ slice d 12 14
  = FormatManager.applyMask d "XX.XXX.XXX/XXXX-XX".
Proof. intros H. explode d H. reflexivity. Qed.

Lemma ssn_formatted (d : string) :
  String.length d = 9%nat ->
  slice d 0 3 ++ "-" ++ slice d 3 5 ++ "-" ++ slice d 5 9
  = FormatManager.applyMask d "XXX-XX-XXXX".
Proof. intros H. explode d H. reflexivity. Qed.

Lemma ein_formatted (d : string) :
  String.length d = 9%nat ->
  slice d 0 2 ++ "-" ++ slice d 2 9 = FormatManager.applyMask d "XX-XXXXXXX".
Proof. intros H. explode d H. reflexivity. Qed.

Lemma length_checked (n k : nat) : negb (n =? k)%nat = false -> n = k.
Proof. intros H. apply negb_false_iff, Nat.eqb_eq in H. exact H. Qed.

(** Takes the branches of a validator one after the other; a failing
    branch contradicts [isValid = true]. *)
Ltac next_check :=
  match goal with
  | |- context [if ?c then _ else _] =>
      let E := fresh "E" in
      destruct c eqn:E; [intros H; discriminate H|]
  end.

Lemma cpf_valid_shape (s : string) :
  field "isValid" (BrazilRules.cpf s) = Bool true ->
  String.length (strip_non_digits s) = 11%nat
  /\ field "formatted" (field "details" (BrazilRules.cpf s))
     = Str (FormatManager.applyMask (strip_non_digits s) "XXX.XXX.XXX-XX").
Proof.
  unfold BrazilRules.cpf. cbv zeta.
  do 4 next_check. intros _.
  apply length_checked in E. split; [exact E|].
  rewrite <- (cpf_formatted _ E). reflexivity.
Qed.

Lemma cnpj_valid_shape (s : string) :
  field "isValid" (BrazilRules.cnpj s) = Bool true ->
  String.length (strip_non_digits s) = 14%nat
  /\ field "formatted" (field "details" (BrazilRules.cnpj s))
     = Str (FormatManager.applyMask (strip_non_digits s) "XX.XXX.XXX/XXXX-XX").
Proof.
  unfold BrazilRules.cnpj. cbv zeta.
  do 4 next_check. intros _.
  apply length_checked in E. split; [exact E|].
  rewrite <- (cnpj_formatted _ E). reflexivity.
Qed.

Lemma nif_valid_shape (this : receiver) (s : string) (r : jsval) :
  PortugalRules.nif this s = Return r -> field "isValid" r = Bool true ->
  String.length (strip_non_digits s) = 9%nat
  /\ field "formatted" (field "details" r)
     = Str (FormatManager.applyMask (strip_non_digits s) "XXX XXX XXX").
Proof.
  unfold PortugalRules.nif. cbv zeta.
  destruct (negb (_ =? 9)%nat) eqn:E; [intros [= <-] H; discriminate H|].
  destruct (repeated_digit _ _); [intros [= <-] H; discriminate H|].
  destruct (negb (includes _ _)); [intros [= <-] H; discriminate H|].
  destruct (strict_neq _ _); [intros [= <-] H; discriminate H|].
  destruct this; simpl; [discriminate|]. intros [= <-] _.
  apply length_checked in E. split; [exact E|].
  rewrite <- (pt_formatted _ E). reflexivity.
Qed.

Lemma nipc_valid_shape (s : string) :
  field "isValid" (PortugalRules.nipc s) = Bool true ->
  String.length (strip_non_digits s) = 9%nat
  /\ field "formatted" (field "details" (PortugalRules.nipc s))
     = Str (FormatManager.applyMask (strip_non_digits s) "XXX XXX XXX").
Proof.
  unfold PortugalRules.nipc. cbv zeta.
  do 4 next_check. intros _.
  apply length_checked in E. split; [exact E|].
  rewrite <- (pt_formatted _ E). reflexivity.
Qed.

Lemma ssn_valid_shape (s : string) :
  field "isValid" (USARules.ssn s) = Bool true ->
  String.length (strip_non_digits s) = 9%nat
  /\ field "formatted" (field "details" (USARules.ssn s))
     = Str (FormatManager.applyMask (strip_non_digits s) "XXX-XX-XXXX").
Proof.
  unfold USARules.ssn. cbv zeta.
  do 7 next_check. intros _.
  apply length_checked in E. split; [exact E|].
  rewrite <- (ssn_formatted _ E). reflexivity.
Qed.

Lemma ein_valid_shape (s : string) :
  field "isValid" (USARules.ein s) = Bool true ->
  String.length (strip_non_digits s) = 9%nat
  /\ field "formatted" (field "details" (USARules.ein s))
     = Str (FormatManager.applyMask (strip_non_digits s) "XX-XXXXXXX").
Proof.
  unfold USARules.ein. cbv zeta.
  do 4 next_check. intros _.
  apply length_checked in E. split; [exact E|].
  rewrite <- (ein_formatted _ E). reflexivity.
Qed.

Lemma cnpj_strip (input : string) :
  BrazilRules.cnpj input = BrazilRules.cnpj (strip_non_digits input).
Proof. unfold BrazilRules.cnpj. rewrite strip_idempotent. reflexivity. Qed.

Lemma nipc_strip (input : string) :
  PortugalRules.nipc input = PortugalRules.nipc (strip_non_digits input).
Proof. unfold PortugalRules.nipc. rewrite strip_idempotent. reflexivity. Qed.

Lemma ein_strip (input : string) :
  USARules.ein input = USARules.ein (strip_non_digits input).
Proof. unfold USARules.ein. rewrite strip_idempotent. reflexivity. Qed.

(** A validator that does not throw round-trips when its successes have
    the shape of its mask. *)
Lemma round_trip_plain (v : string -> jsval) (k : nat) (mask : string) :
  (forall s, v s = v (strip_non_digits s)) ->
  all_chars separator mask = true -> placeholders mask = k ->
  (forall s, field "isValid" (v s) = Bool true ->
     String.length (strip_non_digits s) = k
     /\ field "formatted" (field "details" (v s))
        = Str (FormatManager.applyMask (strip_non_digits s) mask)) ->
  round_trips (fun document => Return (v document)).
Proof.
  intros Hstrip Hmask Hk Hshape.
  apply (round_trip_masked _ k mask); try assumption.
  - intros s. rewrite <- Hstrip. reflexivity.
  - intros s r [= <-]. apply Hshape.
Qed.

(** C8: for each of the six document types, when the validator
    succeeds on an input, validating the formatted string of that
    success succeeds again, with the very same result. *)
Theorem formatted_round_trip :
  forall (name : string) (v : string -> outcome jsval),
    In (name, v) validators ->
    forall (input : string) (r : jsval),
      v input = Return r -> field "isValid" r = Bool true ->
      exists formatted : string,
        field "formatted" (field "details" r) = Str formatted
        /\ v formatted = Return r
        /\ (field "isValid" <$> v formatted) = Return (Bool true).
Proof.
  intros name v Hin input r Hr Hvalid.
  assert (round_trips v) as Hrt.
  { simpl in Hin.
    destruct Hin as [[= <- <-]|[[= <- <-]|[[= <- <-]|[[= <- <-]|[[= <- <-]|[[= <- <-]|[]]]]]]].
    - apply (round_trip_plain _ 11 "XXX.XXX.XXX-XX");
        [exact cpf_strip | reflexivity | reflexivity | exact cpf_valid_shape].
    - apply (round_trip_plain _ 14 "XX.XXX.XXX/XXXX-XX");
        [exact cnpj_strip | reflexivity | reflexivity | exact cnpj_valid_shape].
    - apply (round_trip_masked _ 9 "XXX XXX XXX");
        [exact (nif_strip this_rules) | reflexivity | reflexivity
        | exact (nif_valid_shape this_rules)].
    - apply (round_trip_plain _ 9 "XXX XXX XXX");
        [exact nipc_strip | reflexivity | reflexivity | exact nipc_valid_shape].
    - apply (round_trip_plain _ 9 "XXX-XX-XXXX");
        [exact ssn_strip | reflexivity | reflexivity | exact ssn_valid_shape].
    - apply (round_trip_plain _ 9 "XX-XXXXXXX");
        [exact ein_strip | reflexivity | reflexivity | exact ein_valid_shape]. }
  destruct (Hrt input r Hr Hvalid) as (formatted & Hf & Hv).
  exists formatted. split; [exact Hf|]. split; [exact Hv|].
  rewrite Hv. simpl. rewrite Hvalid. reflexivity.
Qed.

Lemma formatted_round_trip_witness :
  exists formatted : string,
    field "formatted" (field "details" (BrazilRules.cnpj "11222333000181")) = Str formatted
    /\ BrazilRules.cnpj formatted = BrazilRules.cnpj "11222333000181".
Proof.
  destruct (formatted_round_trip "cnpj" (fun document => Return (BrazilRules.cnpj document))
              ltac:(simpl; tauto) "11222333000181" _ eq_refl eq_refl)
    as (formatted & Hf & Hv & _).
  exists formatted. split; [exact Hf|]. injection Hv as Hv. exact Hv.
Defined.

(* ================================================================== *)
(** * The invariant of the results *)
(* ================================================================== *)























(* ================================================================== *)
(** * CNPJ, NIPC and EIN *)
(* ================================================================== *)

Lemma cnpj_on_digits (d : string) :
  String.length d = 14%nat -> all_chars is_digit d = true ->
  repeated_digit 13 d = false ->
  BrazilRules.cnpj d = cnpj_result d.
Proof.
  intros Hlen Hd Hrep. unfold BrazilRules.cnpj, cnpj_result.
  rewrite (strip_digits_id d Hd), Hlen, Hrep, (cnpj_formatted d Hlen).
  destruct (check_step BrazilRules.weights1 d 12 Hd) as (E1 & R1 & C1 & P1);
    [simpl; lia | lia | nonneg_weights |].
  destruct (check_step BrazilRules.weights2 d 13 Hd) as (E2 & R2 & C2 & P2);
    [simpl; lia | lia | nonneg_weights |].
  simpl List.length in *.
  rewrite C1, P1, R1, E1, C2, P2, R2, E2.
  reflexivity.
Qed.

(** X1: on 14 digits that are not all identical the CNPJ validator
    computes the two check digits with the weights 5,4,3,2,9,...,2 over
    digits 0..11 and 6,5,4,3,2,9,...,2 over digits 0..12, compares them
    with digits 12 and 13 and formats a success as
    XX.XXX.XXX/XXXX-XX. *)
Theorem cnpj_check_digits (input : string) :
  let d := strip_non_digits input in
  String.length d = 14%nat -> ~ all_identical d ->
  BrazilRules.cnpj input = cnpj_result d.
Proof.
  intros d Hlen Hne. rewrite cnpj_strip. fold d.
  pose proof (strip_all_digits input) as Hd. fold d in Hd.
  apply cnpj_on_digits; try assumption.
  apply repeated_digit_false; assumption.
Qed.

Lemma cnpj_check_digits_witness :
  BrazilRules.cnpj "11.222.333/0001-81"
  = success [("formatted", Str "11.222.333/0001-81");
             ("type", Str "company"); ("country", Str "BR")].
Proof.
  rewrite (cnpj_check_digits "11.222.333/0001-81").
  - reflexivity.
  - reflexivity.
  - intros H. specialize (H 0%nat 2%nat "1"%char "2"%char eq_refl eq_refl).
    discriminate H.
Defined.

Lemma nipc_on_digits (d : string) :
  String.length d = 9%nat -> all_chars is_digit d = true ->
  repeated_digit 8 d = false ->
  PortugalRules.nipc d = nipc_result d.
Proof.
  intros Hlen Hd Hrep. unfold PortugalRules.nipc, nipc_result.
  rewrite (strip_digits_id d Hd), Hlen, Hrep, (pt_formatted d Hlen).
  destruct (check_step PortugalRules.weights d 8 Hd) as (E & R & C & P);
    [simpl; lia | lia | nonneg_weights |].
  simpl List.length in *. unfold check_of in C.
  cbv zeta. rewrite C, P.
  simpl negb at 1. cbv iota.
  destruct (includes _ (charAt d 0)); [|reflexivity].
  simpl negb. cbv iota. simpl strict_neq.
  destruct (_ =? _); reflexivity.
Qed.

(** X2: on 9 digits that are not all identical the NIPC validator
    rejects a first digit outside 5..9, compares the check digit
    computed with weights 9..2 over digits 0..7 with digit 8, and a
    success is a company of country PT formatted as XXX XXX XXX. *)
Theorem nipc_first_digit_and_check (input : string) :
  let d := strip_non_digits input in
  String.length d = 9%nat -> ~ all_identical d ->
  PortugalRules.nipc input = nipc_result d.
Proof.
  intros d Hlen Hne. rewrite nipc_strip. fold d.
  pose proof (strip_all_digits input) as Hd. fold d in Hd.
  apply nipc_on_digits; try assumption.
  apply repeated_digit_false; assumption.
Qed.

Lemma nipc_first_digit_and_check_witness :
  PortugalRules.nipc "501 964 843"
  = success [("formatted", Str "501 964 843");
             ("type", Str "company"); ("country", Str "PT")].
Proof.
  rewrite (nipc_first_digit_and_check "501 964 843").
  - reflexivity.
  - reflexivity.
  - intros H. specialize (H 0%nat 1%nat "5"%char "0"%char eq_refl eq_refl).
    discriminate H.
Defined.

Lemma includes_In (l : list string) (s : string) :
  includes l s = true <-> In s l.
Proof.
  unfold includes. rewrite existsb_exists. split.
  - intros (x & Hx & E). apply String.eqb_eq in E. subst. exact Hx.
  - intros H. exists s. split; [exact H | apply String.eqb_refl].
Qed.

Lemma ein_on_digits (d : string) :
  String.length d = 9%nat -> all_chars is_digit d = true ->
  repeated_digit 8 d = false ->
  ein_behaviour d (USARules.ein d).
Proof.
  intros Hlen Hd Hrep. unfold ein_behaviour.
  split; [explode d Hlen; reflexivity|].
  unfold USARules.ein.
  rewrite (strip_digits_id d Hd), Hlen, Hrep, <- (ein_formatted d Hlen).
  change (slice d 0 2) with (String.substring 0 2 d).
  change (slice d 2 9) with (String.substring 2 7 d).
  simpl negb at 1. cbv iota zeta.
  destruct (includes USARules.validPrefixes _) eqn:Ei.
  - apply includes_In in Ei. simpl negb. cbv iota.
    destruct (String.eqb_spec (String.substring 2 7 d) "0000000") as [Es|Ns].
    + repeat split; intros; (reflexivity || contradiction).
    + repeat split; intros; (reflexivity || contradiction).
  - assert (~ In (String.substring 0 2 d) USARules.validPrefixes) as Hn.
    { intros H. apply includes_In in H. congruence. }
    simpl negb. cbv iota.
    repeat split; intros; (reflexivity || contradiction).
Qed.

(** X3: on 9 digits that are not all identical the EIN validator splits
    them into a prefix of 2 and a suffix of 7, rejects a prefix outside
    its list with the tag invalid_prefix, then a suffix 0000000 with
    the tag invalid_suffix_all_zeros, and otherwise succeeds with
    formatted prefix-suffix and the two parts. *)
Theorem ein_prefix_and_suffix (input : string) :
  let d := strip_non_digits input in
  String.length d = 9%nat -> ~ all_identical d ->
  ein_behaviour d (USARules.ein input).
Proof.
  intros d Hlen Hne. rewrite ein_strip. fold d.
  pose proof (strip_all_digits input) as Hd. fold d in Hd.
  apply ein_on_digits; try assumption.
  apply repeated_digit_false; assumption.
Qed.

Lemma ein_prefix_and_suffix_witness :
  USARules.ein "07-1234567"
  = failure "Invalid EIN prefix" [("prefix", Str "07"); ("issue", Str "invalid_prefix")].
Proof.
  destruct (ein_prefix_and_suffix "07-1234567") as (_ & H & _).
  - reflexivity.
  - intros H. specialize (H 0%nat 1%nat "0"%char "7"%char eq_refl eq_refl).
    discriminate H.
  - apply H. simpl. intuition discriminate.
Defined.

(* ================================================================== *)
(** * What every validator does *)
(* ================================================================== *)

Lemma nif_1_0_0_strip (input : string) :
  PortugalRules_1_0_0.nif input = PortugalRules_1_0_0.nif (strip_non_digits input).
Proof. unfold PortugalRules_1_0_0.nif. rewrite strip_idempotent. reflexivity. Qed.

Lemma all_validators_strip (name : string) (v : string -> outcome jsval) :
  In (name, v) all_validators -> forall s, v s = v (strip_non_digits s).
Proof.
  intros Hin s. simpl in Hin.
  destruct Hin as [[= <- <-]|[[= <- <-]|[[= <- <-]|[[= <- <-]|[[= <- <-]|[[= <- <-]|
                  [[= <- <-]|[[= <- <-]|[]]]]]]]]].
  - f_equal. apply cpf_strip.
  - f_equal. apply cnpj_strip.
  - apply nif_strip.
  - f_equal. apply nipc_strip.
  - f_equal. apply ssn_strip.
  - f_equal. apply ein_strip.
  - apply nif_strip.
  - f_equal. apply nif_1_0_0_strip.
Qed.

(** X4: a validator reads nothing of its input but the digits: two
    inputs with the same digits, whatever separators, letters or spaces
    stand between them, get the same result. *)
Theorem validators_read_digits_only (name : string) (v : string -> outcome jsval)
    (s1 s2 : string) :
  In (name, v) all_validators ->
  strip_non_digits s1 = strip_non_digits s2 ->
  v s1 = v s2.
Proof.
  intros Hin E.
  rewrite (all_validators_strip name v Hin s1), (all_validators_strip name v Hin s2), E.
  reflexivity.
Qed.

Lemma validators_read_digits_only_witness :
  Return (BrazilRules.cpf "111.444.777-35") = Return (BrazilRules.cpf "CPF 111 444 777 35").
Proof.
  apply (validators_read_digits_only "cpf" (fun document => Return (BrazilRules.cpf document))).
  - simpl. tauto.
  - reflexivity.
Defined.

Lemma all_identical_repeated (k : nat) (s : string) :
  String.length s = S k -> all_chars is_digit s = true -> all_identical s ->
  repeated_digit k s = true.
Proof. intros Hlen Hd H. apply repeated_digit_identical; assumption. Qed.

Ltac structural v :=
  unfold v; cbv zeta;
  match goal with
  | |- context [negb (?n =? ?k)%nat] =>
      destruct (Nat.eqb_spec n k) as [El|Nl]; simpl negb; cbv iota
  end.

(** X5: each of the six validators expects the number of digits the
    country table gives for its document type; with any other number of
    digits, none included, it rejects the input and reports the number
    it found and the number it expects; with that number of identical
    digits it rejects the input as repeated digits. *)
Theorem structural_rejections (name : string) (v : string -> outcome jsval)
    (country : string) (config : Doc.config) (input : string) :
  In (name, v) validators ->
  In (country, (name, config)) registered_documents ->
  let d := strip_non_digits input in
  let n := Z.of_nat (String.length d) in
  exists r : jsval,
    v input = Return r
    /\ (n <> Doc.length config ->
        field "isValid" r = Bool false
        /\ field "length" (field "details" r) = Number (Num n)
        /\ field "expected" (field "details" r) = Number (Num (Doc.length config)))
    /\ (n = Doc.length config -> all_identical d ->
        field "isValid" r = Bool false
        /\ field "pattern" (field "details" r) = Str "repeated_digits").
Proof.
  intros Hv Hc d n.
  pose proof (strip_all_digits input) as Hd. subst d n.
  simpl in Hv.
  destruct Hv as [[= <- <-]|[[= <- <-]|[[= <- <-]|[[= <- <-]|[[= <- <-]|[[= <- <-]|[]]]]]]];
    simpl in Hc;
    repeat match goal with
           | H : _ \/ _ |- _ => destruct H as [H|H]
           | H : _ = _ |- _ => try discriminate H; injection H as <- <-
           | H : False |- _ => destruct H
           end;
    cbn [Doc.length].
  - eexists; (split; [reflexivity|]). structural BrazilRules.cpf.
    + split; [lia|]. intros _ Hi.
      rewrite (all_identical_repeated 10 _ El Hd Hi). split; reflexivity.
    + split; [|lia]. intros _. repeat split.
  - eexists; (split; [reflexivity|]). structural BrazilRules.cnpj.
    + split; [lia|]. intros _ Hi.
      rewrite (all_identical_repeated 13 _ El Hd Hi). split; reflexivity.
    + split; [|lia]. intros _. repeat split.
  - rewrite nif_strip. set (d := strip_non_digits input) in *.
    destruct (Nat.eqb_spec (String.length d) 9) as [El|Nl].
    + destruct (repeated_digit 8 d) eqn:Er.
      * unfold PortugalRules.nif. rewrite (strip_digits_id d Hd), El, Er.
        eexists; (split; [reflexivity|]). split; [lia|]. split; reflexivity.
      * rewrite (nif_on_digits d El Hd Er).
        eexists; (split; [reflexivity|]). split; [lia|]. intros _ Hi.
        rewrite (all_identical_repeated 8 d El Hd Hi) in Er. discriminate Er.
    + unfold PortugalRules.nif. rewrite (strip_digits_id d Hd).
      destruct (Nat.eqb_spec (String.length d) 9) as [El|_]; [contradiction|].
      eexists; (split; [reflexivity|]). split; [|lia]. intros _. repeat split.
  - eexists; (split; [reflexivity|]). structural PortugalRules.nipc.
    + split; [lia|]. intros _ Hi.
      rewrite (all_identical_repeated 8 _ El Hd Hi). split; reflexivity.
    + split; [|lia]. intros _. repeat split.
  - eexists; (split; [reflexivity|]). structural USARules.ssn.
    + split; [lia|]. intros _ Hi.
      rewrite (all_identical_repeated 8 _ El Hd Hi). split; reflexivity.
    + split; [|lia]. intros _. repeat split.
  - eexists; (split; [reflexivity|]). structural USARules.ein.
    + split; [lia|]. intros _ Hi.
      rewrite (all_identical_repeated 8 _ El Hd Hi). split; reflexivity.
    + split; [|lia]. intros _. repeat split.
Qed.

Lemma structural_rejections_witness :
  exists r : jsval,
    Return (BrazilRules.cpf "") = Return r
    /\ field "isValid" r = Bool false
    /\ field "length" (field "details" r) = Number (Num 0)
    /\ field "expected" (field "details" r) = Number (Num 11).
Proof.
  destruct (structural_rejections "cpf" (fun document => Return (BrazilRules.cpf document))
              "br" {| Doc.length := 11; Doc.mask := "XXX.XXX.XXX-XX";
                      Doc.type := "personal"; Doc.priority := 1 |} "")
    as (r & Hr & Hlen & _).
  - simpl. tauto.
  - simpl. tauto.
  - exists r. split; [exact Hr|]. apply Hlen. discriminate.
Defined.

(* ================================================================== *)
(** * The registry of the dispatcher *)
(* ================================================================== *)

(** X6: registering rules for a country makes them the rules of every
    spelling of its code, upper or lower case, replaces what was
    registered for it before, and leaves the other countries as they
    were. *)
Theorem registerRules_lookup (self : Validator.t) (countryCode : string)
    (r : list (string * property)) (code : string) :
  (toLowerCase code = toLowerCase countryCode ->
   Validator.hasRules (Validator.registerRules self countryCode r) code = true
   /\ forall document documentType,
       Validator.validate (Validator.registerRules self countryCode r)
         document code documentType
       = Validator.validate (Validator.registerRules Validator.new countryCode r)
           document code documentType)
  /\ (toLowerCase code <> toLowerCase countryCode ->
      Validator.hasRules (Validator.registerRules self countryCode r) code
      = Validator.hasRules self code
      /\ forall document documentType,
          Validator.validate (Validator.registerRules self countryCode r)
            document code documentType
          = Validator.validate self document code documentType).
Proof.
  unfold Validator.hasRules, Validator.validate, Validator.registerRules. simpl.
  split; intros H.
  - rewrite H, !lookup_insert_eq. split; reflexivity.
  - rewrite lookup_insert_ne by congruence. split; reflexivity.
Qed.

Lemma registerRules_lookup_witness :
  Validator.hasRules (Validator.registerRules ValidatorInstance "BR" USARules.rules) "br"
  = true.
Proof.
  apply (proj1 (registerRules_lookup ValidatorInstance "BR" USARules.rules "br")).
  reflexivity.
Defined.

(** Reading a field of [x || null] is reading it of [x]. *)
Lemma field_or_null (k : string) (x : jsval) : field k (or_else x Null) = field k x.
Proof. unfold or_else. destruct x as [| |b|n|s|l|props]; try reflexivity.
  - destruct b; reflexivity.
  - destruct n as [|z]; [reflexivity|]. simpl. destruct (negb _); reflexivity.
  - simpl. destruct (negb _); reflexivity.
Qed.

Lemma dispatched_rules (country type : string) (v : string -> jsval) (code : string) :
  In (country, type, v) dispatched -> toLowerCase code = country ->
  exists rules,
    Validator.rules ValidatorInstance !! toLowerCase code = Some rules
    /\ Validator.rule type rules = Some (plain v).
Proof.
  intros Hin E. rewrite E. simpl in Hin.
  destruct Hin as [[= <- <- <-]|[[= <- <- <-]|[[= <- <- <-]|[[= <- <- <-]|[[= <- <- <-]|[]]]]]];
    eexists; split; reflexivity.
Qed.

Lemma dispatched_object (country type : string) (v : string -> jsval) (document : string) :
  In (country, type, v) dispatched -> exists props, v document = Object props.
Proof.
  intros Hin. simpl in Hin.
  destruct Hin as [[= <- <- <-]|[[= <- <- <-]|[[= <- <- <-]|[[= <- <- <-]|[[= <- <- <-]|[]]]]]].
  - unfold BrazilRules.cpf. cbv zeta.
    repeat match goal with |- context [if ?c then _ else _] => destruct c end; eauto.
  - unfold BrazilRules.cnpj. cbv zeta.
    repeat match goal with |- context [if ?c then _ else _] => destruct c end; eauto.
  - unfold PortugalRules.nipc. cbv zeta.
    repeat match goal with |- context [if ?c then _ else _] => destruct c end; eauto.
  - unfold USARules.ssn. cbv zeta.
    repeat match goal with |- context [if ?c then _ else _] => destruct c end; eauto.
  - unfold USARules.ein. cbv zeta.
    repeat match goal with |- context [if ?c then _ else _] => destruct c end; eauto.
Qed.

(** X7: for CPF, CNPJ, NIPC, SSN and EIN, under any spelling of the
    country code, the dispatcher returns what the validator returns:
    the same [isValid], the same details field by field, the same error
    or [null] for an empty one, and the document type and the country
    code as they were passed. *)
Theorem dispatcher_agrees (country type : string) (v : string -> jsval)
    (document code : string) :
  In (country, type, v) dispatched -> toLowerCase code = country ->
  exists r : jsval,
    Validator.validate ValidatorInstance document code type = Return r
    /\ field "isValid" r = field "isValid" (v document)
    /\ field "error" r = or_else (field "error" (v document)) Null
    /\ (forall k, field k (field "details" r) = field k (field "details" (v document)))
    /\ field "documentType" r = Str type
    /\ field "countryCode" r = Str code.
Proof.
  intros Hin E.
  destruct (dispatched_rules _ _ _ _ Hin E) as (rules & Hr & Hv).
  destruct (dispatched_object _ _ _ document Hin) as (props & Hp).
  eexists. split.
  - apply (validate_returning ValidatorInstance document code type rules
             (fun _ document => Return (v document)) (v document) Hr Hv eq_refl);
      rewrite Hp; discriminate.
  - repeat split. intros k. simpl. apply field_or_null.
Qed.

Lemma dispatcher_agrees_witness :
  exists r : jsval,
    Validator.validate ValidatorInstance "111.444.777-35" "BR" "cpf" = Return r
    /\ field "isValid" r = Bool true.
Proof.
  destruct (dispatcher_agrees "br" "cpf" BrazilRules.cpf "111.444.777-35" "BR"
              ltac:(simpl; tauto) eq_refl)
    as (r & Hr & Hv & _).
  exists r. split; [exact Hr | exact Hv].
Defined.

Lemma nif_plain_call_invalid (s : string) (r : jsval) :
  PortugalRules.nif this_undefined s = Return r -> field "isValid" r = Bool false.
Proof.
  unfold PortugalRules.nif. cbv zeta.
  repeat match goal with
         | |- (if ?c then _ else _) = _ -> _ => destruct c
         end;
    intros [= <-]; reflexivity.
Qed.

(** X8: the dispatcher never finds a NIF valid. It calls [nif] as a
    plain function, [nif] reads [this.getEntityType] once every check
    has passed, and the exception becomes a failed result: whatever the
    document, [isValid] is false. *)
Theorem dispatcher_nif_never_valid (document code : string) :
  toLowerCase code = "pt" ->
  exists r : jsval,
    Validator.validate ValidatorInstance document code "nif" = Return r
    /\ field "isValid" r = Bool false.
Proof.
  intros E.
  assert (Validator.rules ValidatorInstance !! toLowerCase code = Some PortugalRules.rules)
    as Hr by (rewrite E; reflexivity).
  destruct (PortugalRules.nif this_undefined document) as [result|e] eqn:En.
  - pose proof (nif_plain_call_invalid _ _ En) as Hv.
    eexists. split.
    + apply (validate_returning ValidatorInstance document code "nif" PortugalRules.rules
               PortugalRules.nif result Hr eq_refl En);
        intros ->; discriminate Hv.
    + exact Hv.
  - eexists. split.
    + apply (validate_throwing ValidatorInstance document code "nif" PortugalRules.rules
               PortugalRules.nif e Hr eq_refl En).
    + reflexivity.
Qed.

Lemma dispatcher_nif_never_valid_witness :
  exists r : jsval,
    Validator.validate ValidatorInstance "123 456 789" "PT" "nif" = Return r
    /\ field "isValid" r = Bool false.
Proof. apply (dispatcher_nif_never_valid "123 456 789" "PT"). reflexivity. Defined.

(* ================================================================== *)
(** * The validation manager *)
(* ================================================================== *)

Lemma field_set_prop_eq (k : string) (v : jsval) (props : list (string * jsval)) :
  field k (Object (set_prop k v props)) = v.
Proof.
  unfold field. induction props as [|[k' v'] props IH]; simpl.
  - rewrite String.eqb_refl. reflexivity.
  - destruct (String.eqb k k') eqn:E; simpl; rewrite E; [reflexivity | exact IH].
Qed.

Lemma field_set_prop_ne (k k' : string) (v : jsval) (props : list (string * jsval)) :
  k <> k' -> field k (Object (set_prop k' v props)) = field k (Object props).
Proof.
  intros Hne. unfold field. induction props as [|[k0 v0] props IH]; simpl.
  - apply String.eqb_neq in Hne. rewrite Hne. reflexivity.
  - destruct (String.eqb k' k0) eqn:E; simpl.
    + apply String.eqb_eq in E. subst k0.
      apply String.eqb_neq in Hne. rewrite Hne. reflexivity.
    + destruct (String.eqb k k0); [reflexivity | exact IH].
Qed.

(** What the dispatcher returns is an object. *)
Lemma validate_object (self : Validator.t) (document countryCode documentType : string) :
  exists props,
    Validator.validate self document countryCode documentType = Return (Object props).
Proof.
  unfold Validator.validate.
  destruct (Validator.rules self !! toLowerCase countryCode) as [rules|]; [|eauto].
  destruct (Validator.rule documentType rules) as [[f|v]|]; eauto.
  destruct (f this_undefined document) as [result|e]; [|simpl; eauto].
  destruct result; simpl; eauto.
Qed.

Lemma empty_spec (s : string) : ValidationManager.empty s = true <-> s = "".
Proof. unfold ValidationManager.empty. apply String.eqb_eq. Qed.

Lemma validateDocument_object (self : ValidationManager.t)
    (cleanValue country documentType : string) :
  exists (self' : ValidationManager.t) (props : list (string * jsval)),
    ValidationManager.validateDocument self cleanValue country documentType
    = Return (self', Object props).
Proof.
  unfold ValidationManager.validateDocument.
  destruct (ValidationManager.empty country || ValidationManager.empty documentType);
    [eauto|].
  destruct (validate_object (ValidationManager.validator self) cleanValue country documentType)
    as (props & Hp).
  rewrite Hp. simpl. eauto.
Qed.

(** X9: [validateDocument] never throws and never changes the
    validator. Without a country or without a document type it fails
    at once and leaves the last result alone; otherwise it returns the
    dispatcher's result with the document type and the country written
    into it, and that is the last result from then on. *)
Theorem validateDocument_caches (self : ValidationManager.t)
    (cleanValue country documentType : string) :
  exists (self' : ValidationManager.t) (result : jsval),
    ValidationManager.validateDocument self cleanValue country documentType
    = Return (self', result)
    /\ ValidationManager.validator self' = ValidationManager.validator self
    /\ (country = "" \/ documentType = "" ->
        self' = self /\ field "isValid" result = Bool false)
    /\ (country <> "" -> documentType <> "" ->
        ValidationManager.getLastValidationResult self' = result
        /\ field "country" result = Str country
        /\ field "documentType" result = Str documentType
        /\ exists r : jsval,
            Validator.validate (ValidationManager.validator self)
              cleanValue country documentType = Return r
            /\ forall k, k <> "country" -> k <> "documentType" ->
                 field k result = field k r).
Proof.
  unfold ValidationManager.validateDocument.
  destruct (ValidationManager.empty country) eqn:Ec; simpl.
  { apply empty_spec in Ec. do 2 eexists. split; [reflexivity|].
    repeat split; congruence. }
  destruct (ValidationManager.empty documentType) eqn:Ed; simpl.
  { apply empty_spec in Ed. do 2 eexists. split; [reflexivity|].
    repeat split; congruence. }
  destruct (validate_object (ValidationManager.validator self) cleanValue country documentType)
    as (props & Hp).
  rewrite Hp. simpl. do 2 eexists. split; [reflexivity|].
  split; [reflexivity|]. split.
  - intros [->| ->]; discriminate.
  - intros _ _. split; [reflexivity|].
    split; [apply field_set_prop_eq|]. split.
    + rewrite field_set_prop_ne by discriminate. apply field_set_prop_eq.
    + eexists. split; [reflexivity|]. intros k Hc Hd.
      rewrite !field_set_prop_ne by assumption. reflexivity.
Qed.

(** X10: on a value that is not empty, [getValidationState] and
    [isDocumentValid] say "valid" together. With another length than
    the expected one neither calls the validator nor touches the last
    result (the state is neutral for a shorter value and false for a
    longer one); with the expected length both return the same
    [isValid] and leave the same manager behind. A later
    [clearValidationCache] forgets the last result. *)
Theorem validation_state_consistent (self : ValidationManager.t)
    (cleanValue country documentType : string) (expectedLength : Z) :
  cleanValue <> "" ->
  let n := Z.of_nat (String.length cleanValue) in
  exists (s1 s2 : ValidationManager.t) (v1 v2 : jsval),
    ValidationManager.getValidationState self cleanValue country documentType expectedLength
    = Return (s1, v1)
    /\ ValidationManager.isDocumentValid self cleanValue country documentType expectedLength
       = Return (s2, v2)
    /\ (v1 = Bool true <-> v2 = Bool true)
    /\ (n < expectedLength -> s1 = self /\ s2 = self /\ v1 = Null /\ v2 = Bool false)
    /\ (n > expectedLength -> s1 = self /\ s2 = self /\ v1 = Bool false /\ v2 = Bool false)
    /\ (n = expectedLength -> s1 = s2 /\ v1 = v2)
    /\ ValidationManager.getLastValidationResult
         (ValidationManager.clearValidationCache s1) = Null.
Proof.
  intros Hne n.
  unfold ValidationManager.getValidationState, ValidationManager.isDocumentValid.
  assert (ValidationManager.empty cleanValue = false) as He.
  { destruct (ValidationManager.empty cleanValue) eqn:E; [|reflexivity].
    apply empty_spec in E. contradiction. }
  assert ((String.length cleanValue =? 0)%nat = false) as Hl.
  { destruct cleanValue; [contradiction | reflexivity]. }
  rewrite He, Hl. simpl orb. cbv iota. fold n.
  destruct (Z.ltb_spec n expectedLength) as [Hlt|Hge].
  - destruct (Z.eqb_spec n expectedLength) as [Heq|_]; [lia|]. simpl.
    do 4 eexists. split; [reflexivity|]. split; [reflexivity|].
    repeat split; intros; try discriminate; try lia; reflexivity.
  - destruct (Z.eqb_spec n expectedLength) as [Heq|Hneq]; simpl.
    + destruct (validateDocument_object self cleanValue country documentType)
        as (self' & props & Hv).
      rewrite Hv. simpl.
      do 4 eexists. split; [reflexivity|]. split; [reflexivity|].
      repeat split; intros; try lia; assumption.
    + simpl. do 4 eexists. split; [reflexivity|]. split; [reflexivity|].
      repeat split; intros; try discriminate; try lia; reflexivity.
Qed.

Lemma validation_state_consistent_witness :
  exists (s1 s2 : ValidationManager.t) (v1 v2 : jsval),
    ValidationManager.getValidationState (ValidationManager.new ValidatorInstance)
      "11144477735" "br" "cpf" 11 = Return (s1, v1)
    /\ ValidationManager.isDocumentValid (ValidationManager.new ValidatorInstance)
         "11144477735" "br" "cpf" 11 = Return (s2, v2)
    /\ s1 = s2 /\ v1 = v2.
Proof.
  destruct (validation_state_consistent (ValidationManager.new ValidatorInstance)
              "11144477735" "br" "cpf" 11 ltac:(discriminate))
    as (s1 & s2 & v1 & v2 & H1 & H2 & _ & _ & _ & Heq & _).
  exists s1, s2, v1, v2. split; [exact H1|]. split; [exact H2|].
  apply Heq. reflexivity.
Defined.

Lemma validateDocument_caches_witness :
  exists (self' : ValidationManager.t) (result : jsval),
    ValidationManager.validateDocument (ValidationManager.new ValidatorInstance)
      "11144477735" "br" "cpf" = Return (self', result)
    /\ ValidationManager.getLastValidationResult self' = result
    /\ field "country" result = Str "br".
Proof.
  destruct (validateDocument_caches (ValidationManager.new ValidatorInstance)
              "11144477735" "br" "cpf")
    as (self' & result & Hv & _ & _ & H).
  destruct H as (Hl & Hc & _); [discriminate | discriminate |].
  exists self', result. split; [exact Hv|]. split; [exact Hl | exact Hc].
Defined.

Lemma validateDocument_nif (self : ValidationManager.t) (cleanValue code : string) :
  ValidationManager.validator self = ValidatorInstance ->
  toLowerCase code = "pt" ->
  exists (self' : ValidationManager.t) (result : jsval),
    ValidationManager.validateDocument self cleanValue code "nif" = Return (self', result)
    /\ field "isValid" result = Bool false.
Proof.
  intros Hv E. unfold ValidationManager.validateDocument.
  destruct (ValidationManager.empty code || ValidationManager.empty "nif");
    [do 2 eexists; split; reflexivity|].
  rewrite Hv.
  assert (Validator.rules ValidatorInstance !! toLowerCase code = Some PortugalRules.rules)
    as Hr by (rewrite E; reflexivity).
  destruct (PortugalRules.nif this_undefined cleanValue) as [r0|e] eqn:En.
  - pose proof (nif_plain_call_invalid _ _ En) as Hf.
    rewrite (validate_returning ValidatorInstance cleanValue code "nif" PortugalRules.rules
               PortugalRules.nif r0 Hr eq_refl En)
      by (intros ->; discriminate Hf).
    simpl. do 2 eexists. split; [reflexivity|]. exact Hf.
  - rewrite (validate_throwing ValidatorInstance cleanValue code "nif" PortugalRules.rules
               PortugalRules.nif e Hr eq_refl En).
    simpl. do 2 eexists. split; reflexivity.
Qed.

(** With version 1.0.1 of PortugalRules registered, a manager never
    finds a document of type nif valid. *)
Lemma manager_nif_1_0_1 (self : ValidationManager.t) (cleanValue code : string)
    (expectedLength : Z) :
  ValidationManager.validator self = ValidatorInstance ->
  toLowerCase code = "pt" ->
  (exists s, ValidationManager.isDocumentValid self cleanValue code "nif" expectedLength
             = Return (s, Bool false))
  /\ (exists s v, ValidationManager.getValidationState self cleanValue code "nif"
                    expectedLength = Return (s, v)
                  /\ v <> Bool true).
Proof.
  intros Hv E.
  destruct (validateDocument_nif self cleanValue code Hv E) as (self' & result & Hd & Hf).
  destruct (validateDocument_object self cleanValue code "nif") as (s0 & props & Ho).
  rewrite Ho in Hd. injection Hd as <- <-.
  unfold ValidationManager.isDocumentValid, ValidationManager.getValidationState.
  split.
  - destruct (negb _); [eauto|]. rewrite Ho. simpl. simpl in Hf. rewrite Hf. eauto.
  - destruct (_ || _); [do 2 eexists; split; [reflexivity | discriminate]|].
    destruct (_ <? _); [do 2 eexists; split; [reflexivity | discriminate]|].
    destruct (_ =? _); [|do 2 eexists; split; [reflexivity | discriminate]].
    rewrite Ho. simpl. simpl in Hf. rewrite Hf.
    do 2 eexists; split; [reflexivity | discriminate].
Qed.

(* ================================================================== *)
(** * Masks and clean values *)
(* ================================================================== *)

Lemma substring_0_cons (n : nat) (c : ascii) (s : string) :
  String.substring 0 (S n) (String c s) = String c (String.substring 0 n s).
Proof. reflexivity. Qed.

Lemma substring_0_all (n : nat) (s : string) :
  (String.length s <= n)%nat -> String.substring 0 n s = s.
Proof.
  revert n. induction s as [|c s IH]; intros n H.
  - destruct n; reflexivity.
  - destruct n as [|n]; simpl in H; [lia|].
    rewrite substring_0_cons, IH by lia. reflexivity.
Qed.

Lemma substring_0_length (n : nat) (s : string) :
  String.length (String.substring 0 n s) = Nat.min n (String.length s).
Proof.
  revert n. induction s as [|c s IH]; intros n.
  - destruct n; reflexivity.
  - destruct n as [|n]; [reflexivity|].
    rewrite substring_0_cons. simpl. rewrite IH. reflexivity.
Qed.

Lemma substring_0_digits (n : nat) (s : string) :
  all_chars is_digit s = true -> all_chars is_digit (String.substring 0 n s) = true.
Proof.
  revert n. induction s as [|c s IH]; intros n H.
  - destruct n; reflexivity.
  - destruct n as [|n]; [reflexivity|].
    rewrite substring_0_cons. simpl in *.
    apply andb_true_iff in H as [Hc Hs]. rewrite Hc. apply IH, Hs.
Qed.

(** Whatever the number of digits, the clean value of a masked string
    is the digits the mask had placeholders for. *)
Lemma strip_mask_walk_prefix (ds mask : string) :
  all_chars is_digit ds = true -> all_chars separator mask = true ->
  strip_non_digits (mask_walk ds mask) = String.substring 0 (placeholders mask) ds.
Proof.
  revert ds. induction mask as [|m mask IH]; intros ds Hd Hm.
  - destruct ds; reflexivity.
  - destruct ds as [|d ds]; [simpl; destruct (placeholders _), (Ascii.eqb m "X"); reflexivity|].
    simpl in Hm. apply andb_true_iff in Hm as [Hm Hmask].
    pose proof Hd as Hd'. simpl in Hd'. apply andb_true_iff in Hd' as [Hc Hds].
    simpl mask_walk. simpl placeholders.
    destruct (Ascii.eqb m "X").
    + simpl strip_non_digits. rewrite Hc, (IH ds Hds Hmask). reflexivity.
    + unfold separator in Hm. apply negb_true_iff in Hm.
      simpl strip_non_digits. rewrite Hm. simpl. apply IH; assumption.
Qed.

(** X12: the clean value of what [applyMask] produces is made of the
    first digits of the value, as many as the mask has placeholders, in
    their order: the mask adds separators only, and a value that fits
    the mask comes back whole. *)
Theorem applyMask_clean_value (value mask : string) :
  all_chars is_digit value = true -> all_chars separator mask = true ->
  strip_non_digits (FormatManager.applyMask value mask)
  = String.substring 0 (placeholders mask) value
  /\ ((String.length value <= placeholders mask)%nat ->
      strip_non_digits (FormatManager.applyMask value mask) = value).
Proof.
  intros Hd Hm. rewrite applyMask_walk, strip_mask_walk_prefix by assumption.
  split; [reflexivity|]. apply substring_0_all.
Qed.

Lemma applyMask_clean_value_witness :
  strip_non_digits (FormatManager.applyMask "12345678901234" "XXX.XXX.XXX-XX")
  = "12345678901".
Proof.
  apply (proj1 (applyMask_clean_value "12345678901234" "XXX.XXX.XXX-XX" eq_refl eq_refl)).
Defined.

Lemma mask_walk_prefix (d1 d2 mask : string) :
  exists rest, mask_walk (d1 ++ d2) mask = mask_walk d1 mask ++ rest.
Proof.
  revert d1. induction mask as [|m mask IH]; intros d1.
  - exists "". reflexivity.
  - destruct d1 as [|c d1].
    + rewrite mask_walk_no_digit. eexists. reflexivity.
    + rewrite append_cons. simpl. destruct (Ascii.eqb m "X").
      * destruct (IH d1) as [rest E]. exists rest. rewrite E. reflexivity.
      * destruct (IH (String c d1)) as [rest E]. exists rest.
        rewrite append_cons in E. rewrite E. reflexivity.
Qed.

(** X13: under one mask, the masked form of a value is the beginning
    of the masked form of any longer value that starts with it: as
    long as the mask stays the same, further characters only extend
    what is displayed. *)
Theorem applyMask_extends (value more mask : string) :
  exists rest : string,
    FormatManager.applyMask (value ++ more) mask
    = FormatManager.applyMask value mask ++ rest.
Proof. rewrite !applyMask_walk. apply mask_walk_prefix. Qed.

(* ================================================================== *)
(** * Where the cursor lands *)
(* ================================================================== *)

Lemma calculateCursorPosition_spec (oldValue newValue : string) (oldCursor : nat) :
  FormatManager.calculateCursorPosition oldValue newValue oldCursor
  = index_of_next_digit (digits_before oldCursor oldValue) newValue.
Proof.
  unfold FormatManager.calculateCursorPosition.
  rewrite count_loop_digits_before, place_loop_next_digit by lia.
  rewrite !Nat.sub_0_r. reflexivity.
Qed.

Lemma index_of_next_digit_le (n : nat) (s : string) :
  (index_of_next_digit n s <= String.length s)%nat.
Proof.
  revert n. induction s as [|c s IH]; intros n; simpl; [lia|].
  destruct (is_digit c).
  - destruct n as [|n]; [lia|]. specialize (IH n). lia.
  - specialize (IH n). lia.
Qed.

Lemma index_of_next_digit_end (n : nat) (s : string) :
  (count_digits s <= n)%nat -> index_of_next_digit n s = String.length s.
Proof.
  unfold count_digits. revert n. induction s as [|c s IH]; intros n H; simpl in *.
  - reflexivity.
  - destruct (is_digit c); simpl in H.
    + destruct n as [|n]; [lia|]. rewrite IH by lia. reflexivity.
    + rewrite IH by lia. reflexivity.
Qed.

Lemma digits_before_all (cursor : nat) (s : string) :
  (String.length s <= cursor)%nat -> digits_before cursor s = count_digits s.
Proof.
  unfold count_digits. revert cursor. induction s as [|c s IH]; intros cursor H; simpl in *.
  - destruct cursor; reflexivity.
  - destruct cursor as [|cursor]; [lia|]. simpl.
    rewrite IH by lia. destruct (is_digit c); reflexivity.
Qed.

Lemma digits_before_le (cursor : nat) (s : string) :
  (digits_before cursor s <= count_digits s)%nat.
Proof.
  unfold count_digits. revert cursor. induction s as [|c s IH]; intros cursor; simpl.
  - destruct cursor; simpl; lia.
  - destruct cursor as [|cursor]; simpl; [lia|].
    specialize (IH cursor). destruct (is_digit c); simpl; lia.
Qed.

(** X14: the new cursor never lies beyond the new value, and it is at
    its very end when the old cursor had at least as many digits before
    it as the new value has in all; so it is when the old cursor stood
    at the end of an old value with no fewer digits than the new one. *)
Theorem cursor_within_new_value (oldValue newValue : string) (oldCursor : nat) :
  (FormatManager.calculateCursorPosition oldValue newValue oldCursor
   <= String.length newValue)%nat
  /\ ((count_digits newValue <= digits_before oldCursor oldValue)%nat ->
      FormatManager.calculateCursorPosition oldValue newValue oldCursor
      = String.length newValue)
  /\ ((String.length oldValue <= oldCursor)%nat ->
      (count_digits newValue <= count_digits oldValue)%nat ->
      FormatManager.calculateCursorPosition oldValue newValue oldCursor
      = String.length newValue).
Proof.
  rewrite calculateCursorPosition_spec.
  split; [apply index_of_next_digit_le|].
  split; [apply index_of_next_digit_end|].
  intros Hc Hn. apply index_of_next_digit_end.
  rewrite digits_before_all by assumption. exact Hn.
Qed.

Lemma cursor_within_new_value_witness :
  FormatManager.calculateCursorPosition "1234" "123.4" 4 = 5%nat.
Proof.
  apply (proj2 (proj2 (cursor_within_new_value "1234" "123.4" 4))).
  - simpl. lia.
  - vm_compute. lia.
Defined.

Lemma index_of_digit_at (cursor : nat) (s : string) (c : ascii) :
  String.get cursor s = Some c -> is_digit c = true ->
  index_of_next_digit (digits_before cursor s) s = cursor.
Proof.
  revert cursor. induction s as [|a s IH]; intros cursor Hg Hc; [discriminate|].
  destruct cursor as [|cursor]; simpl in *.
  - injection Hg as ->. rewrite Hc. reflexivity.
  - destruct (is_digit a); simpl; rewrite (IH cursor Hg Hc); reflexivity.
Qed.

(** X15: a reformatting that changes nothing leaves the cursor where
    it is when it stands in front of a digit or at the end of the
    value. *)
Theorem cursor_stays (value : string) (cursor : nat) :
  cursor = String.length value
  \/ (exists c, String.get cursor value = Some c /\ is_digit c = true) ->
  FormatManager.calculateCursorPosition value value cursor = cursor.
Proof.
  rewrite calculateCursorPosition_spec. intros [->|(c & Hg & Hc)].
  - apply index_of_next_digit_end. rewrite digits_before_all; lia.
  - apply (index_of_digit_at _ _ c); assumption.
Qed.

Lemma cursor_stays_witness :
  FormatManager.calculateCursorPosition "123.456" "123.456" 4 = 4%nat.
Proof.
  apply cursor_stays. right. exists "4"%char. split; reflexivity.
Defined.

(* ================================================================== *)
(** * Formatting the input *)
(* ================================================================== *)

Lemma fold_max_with (l : list Z) (z : Z) :
  exists m,
    fold_left Formatting.max_with l (Formatting.finite z) = Formatting.finite m
    /\ z <= m /\ Forall (fun x => x <= m) l /\ (m = z \/ In m l).
Proof.
  revert z. induction l as [|x l IH]; intros z; simpl.
  - exists z. repeat split; [lia | constructor | tauto].
  - destruct (IH (Z.max z x)) as (m & E & Hz & Hall & Hin).
    exists m. split; [exact E|]. split; [lia|]. split.
    + constructor; [lia | exact Hall].
    + destruct Hin as [->|Hin]; [|tauto].
      destruct (Z.max_spec z x) as [[_ ->]|[_ ->]]; tauto.
Qed.

Lemma getMaxLength_bounds (self : FormatManager.t) :
  (FormatManager.country (FormatManager.selectedCountry self) (FormatManager.countries self)
   = None -> Formatting.getMaxLength self = Formatting.finite 0)
  /\ (forall c,
        FormatManager.country (FormatManager.selectedCountry self)
          (FormatManager.countries self) = Some c ->
        (documents c = [] -> Formatting.getMaxLength self = Formatting.minus_infinity)
        /\ (documents c <> [] ->
            exists m,
              Formatting.getMaxLength self = Formatting.finite m
              /\ (forall k cfg, In (k, cfg) (documents c) -> Doc.length cfg <= m)
              /\ (exists k cfg, In (k, cfg) (documents c) /\ Doc.length cfg = m))).
Proof.
  unfold Formatting.getMaxLength. split; [intros ->; reflexivity|].
  intros c ->. split; [intros ->; reflexivity|].
  intros Hne. destruct (documents c) as [|[k0 c0] l]; [congruence|]. simpl.
  destruct (fold_max_with (map (fun d => Doc.length (snd d)) l) (Doc.length c0))
    as (m & E & Hz & Hall & Hin).
  exists m. split; [exact E|]. split.
  - intros k cfg [[= -> ->]|H]; [exact Hz|].
    rewrite List.Forall_forall in Hall. apply Hall.
    apply (in_map (fun d => Doc.length (snd d)) _ _ H).
  - destruct Hin as [->|Hin].
    + exists k0, c0. split; [left; reflexivity | reflexivity].
    + apply in_map_iff in Hin as ([k cfg] & E' & H). exists k, cfg. split; [right; exact H | exact E'].
Qed.

(** X16: [getMaxLength] is 0 when the selected country is not in the
    table and [-Infinity] when the country has no document type;
    otherwise it is the length of one of the country's document types,
    and none is longer. *)
Theorem getMaxLength_is_maximum (self : FormatManager.t) :
  (FormatManager.country (FormatManager.selectedCountry self) (FormatManager.countries self)
   = None -> Formatting.getMaxLength self = Formatting.finite 0)
  /\ (forall c,
        FormatManager.country (FormatManager.selectedCountry self)
          (FormatManager.countries self) = Some c ->
        (documents c = [] -> Formatting.getMaxLength self = Formatting.minus_infinity)
        /\ (documents c <> [] ->
            exists m,
              Formatting.getMaxLength self = Formatting.finite m
              /\ (forall k cfg, In (k, cfg) (documents c) -> Doc.length cfg <= m)
              /\ (exists k cfg, In (k, cfg) (documents c) /\ Doc.length cfg = m))).
Proof. exact (getMaxLength_bounds self). Qed.

Lemma getMaxLength_is_maximum_witness :
  exists m,
    Formatting.getMaxLength (FormatManager.new "" CountriesData) = Formatting.finite m
    /\ exists k cfg,
        In (k, cfg) [("cpf", {| Doc.length := 11; Doc.mask := "XXX.XXX.XXX-XX";
                                Doc.type := "personal"; Doc.priority := 1 |});
                     ("cnpj", {| Doc.length := 14; Doc.mask := "XX.XXX.XXX/XXXX-XX";
                                 Doc.type := "company"; Doc.priority := 2 |})]
        /\ Doc.length cfg = m.
Proof.
  destruct (proj2 (getMaxLength_is_maximum (FormatManager.new "" CountriesData)) _ eq_refl)
    as [_ H].
  destruct (H ltac:(discriminate)) as (m & E & _ & Hin).
  exists m. split; [exact E | exact Hin].
Defined.

Lemma document_In (k : string) (cfg : Doc.config) (l : list (string * Doc.config)) :
  List.NoDup (map fst l) -> In (k, cfg) l -> Formatting.document k l = Some cfg.
Proof.
  induction l as [|[k' c'] l IH]; intros Hnd Hin; [contradiction|].
  simpl in *. apply List.NoDup_cons_iff in Hnd as [Hk Hnd].
  destruct Hin as [[= -> ->]|Hin].
  - rewrite String.eqb_refl. reflexivity.
  - destruct (String.eqb_spec k k') as [->|_]; [|apply IH; assumption].
    exfalso. apply Hk. apply (in_map fst _ _ Hin).
Qed.

Lemma sorted_last_longest (l : list (string * Doc.config)) (d x : string * Doc.config) :
  StronglySorted by_length l -> In x l -> by_length x (List.last l d).
Proof.
  induction 1 as [|y l Hl IH Hy]; intros Hin; [contradiction|].
  destruct l as [|z l].
  - destruct Hin as [->|[]]. unfold by_length. simpl. lia.
  - change (List.last (y :: z :: l) d) with (List.last (z :: l) d).
    destruct Hin as [->|Hin]; [|apply IH, Hin].
    rewrite List.Forall_forall in Hy. apply Hy.
    clear. revert z. induction l as [|w l IH]; intros z; [left; reflexivity|].
    right. apply IH.
Qed.

(** The three ways the detector picks its entry [e]. *)
Lemma detect_cases (self : FormatManager.t) (c : Country) :
  FormatManager.country (FormatManager.selectedCountry self) (FormatManager.countries self)
  = Some c ->
  documents c <> [] ->
  let n := digit_count self in
  let sorted := FormatManager.sort_by_priority (documents c) in
  exists e : string * Doc.config,
    In e (documents c)
    /\ FormatManager.detectDocumentType self
       = Return (FormatManager.set_currentDocument self (Some (fst e)))
    /\ (n = 0 \/ n <= Doc.length (snd e) \/ forall d, e = List.last sorted d).
Proof.
  intros Hc Hne n sorted.
  pose proof (sort_by_priority_nonempty _ Hne) as Hs. fold sorted in Hs.
  assert (forall x, In x sorted -> In x (documents c)) as Hin.
  { intros x. apply Permutation_in, sort_by_priority_perm. }
  unfold FormatManager.detectDocumentType. rewrite Hc. fold sorted.
  destruct (Nat.eqb_spec (String.length (strip_non_digits (FormatManager.value self))) 0)
    as [Hz|Hnz].
  - destruct sorted as [|[k cfg] sorted'] eqn:Es; [congruence|].
    exists (k, cfg). split; [apply Hin; left; reflexivity|].
    split; [reflexivity|]. left. unfold n, digit_count. lia.
  - fold (digit_count self). fold n.
    destruct (find _ sorted) as [[k cfg]|] eqn:Ef.
    + apply find_some in Ef as [Hk Hfit].
      exists (k, cfg). split; [apply Hin, Hk|]. split; [reflexivity|].
      right. left. apply Z.leb_le. exact Hfit.
    + pose (d0 := (EmptyString, {| Doc.length := 0; Doc.mask := ""; Doc.type := "";
                                   Doc.priority := 0 |})).
      destruct (List.last sorted d0) as [k cfg] eqn:El.
      exists (k, cfg). unfold FormatManager.type_at.
      rewrite (nth_error_last sorted d0 Hs), El. simpl.
      split; [|split; [reflexivity|]].
      * apply Hin. rewrite <- El.
        destruct sorted as [|s0 sorted']; [congruence|].
        clear. revert s0. induction sorted' as [|y l IH]; intros s0; [left; reflexivity|].
        right. apply IH.
      * right. right. intros d. rewrite <- El.
        destruct sorted as [|s0 sorted']; [congruence|].
        clear. revert s0. induction sorted' as [|y l IH]; intros s0; [reflexivity|].
        simpl in *. apply IH.
Qed.

(** What [formatInput] computes for a country of the table: the digits
    [t] it keeps, the entry it formats them with, and the fact that the
    mask of that entry has room for them. *)
Lemma formatInput_result (self : FormatManager.t) (c : Country) (cursorPosition : nat) :
  FormatManager.country (FormatManager.selectedCountry self) (FormatManager.countries self)
  = Some c ->
  well_formed_country c ->
  exists (k : string) (cfg : Doc.config) (m : Z),
    In (k, cfg) (documents c)
    /\ Formatting.getMaxLength self = Formatting.finite m
    /\ FormatManager.detectDocumentType self
       = Return (FormatManager.set_currentDocument self (Some k))
    /\ let t := String.substring 0 (Z.to_nat m) (strip_non_digits (FormatManager.value self)) in
       let shown := FormatManager.applyMask t (Doc.mask cfg) in
       Formatting.formatInput self cursorPosition
       = Return {| Formatting.manager :=
                     {| FormatManager.value := shown;
                        FormatManager.countries := FormatManager.countries self;
                        FormatManager.selectedCountry := FormatManager.selectedCountry self;
                        FormatManager.currentDocument := Some k |};
                   Formatting.selection :=
                     Some (FormatManager.calculateCursorPosition
                             (FormatManager.value self) shown cursorPosition);
                   Formatting.notified := Some (t, Some k) |}
       /\ strip_non_digits shown = t.
Proof.
  intros Hc (Hne & Hkeys & Hmasks & Hmono).
  destruct (proj2 (proj2 (getMaxLength_bounds self) c Hc) Hne) as (m & Em & Hall & k1 & c1 & Hin1 & E1).
  destruct (detect_cases self c Hc Hne) as ([k cfg] & Hin & Hdet & Hcase).
  exists k, cfg, m. split; [exact Hin|]. split; [exact Em|]. split; [exact Hdet|].
  simpl. unfold Formatting.formatInput. rewrite Hc, Hdet, Em. simpl.
  rewrite (document_In k cfg _ Hkeys Hin). split; [reflexivity|].
  destruct (Hmasks k cfg Hin) as [Hsep Hph].
  set (d := strip_non_digits (FormatManager.value self)) in *.
  assert (all_chars is_digit d = true) as Hd by apply strip_all_digits.
  rewrite applyMask_walk, strip_mask_walk_prefix
    by (try apply substring_0_digits; assumption).
  apply substring_0_all. rewrite substring_0_length.
  simpl in Hcase. unfold digit_count in Hcase. fold d in Hcase.
  destruct Hcase as [Hz|[Hfit|Hlast]]; [lia | lia |].
  assert (m <= Doc.length cfg); [|lia].
  rewrite <- E1.
  pose (d0 := (k, cfg)).
  specialize (Hlast d0).
  change (Doc.length c1 <= Doc.length cfg) with (by_length (k1, c1) (k, cfg)).
  rewrite Hlast. apply sorted_last_longest; [exact Hmono|].
  apply (Permutation_in _ (Permutation_sym (sort_by_priority_perm _))). exact Hin1.
Qed.

(** X17: for a well-formed country, [formatInput] keeps the digits of
    the typed value up to the longest length of the country and
    nothing else: they are the clean value of the new input and what
    [onFormatChange] is told, with the document type the detector
    finds for the typed value. The caret it schedules lies within the
    new value, at its end when it was at the end of the typed value. *)
Theorem formatInput_keeps_digits (self : FormatManager.t) (c : Country)
    (cursorPosition : nat) :
  FormatManager.country (FormatManager.selectedCountry self) (FormatManager.countries self)
  = Some c ->
  well_formed_country c ->
  exists (f : Formatting.formatted) (m : Z),
    Formatting.formatInput self cursorPosition = Return f
    /\ Formatting.getMaxLength self = Formatting.finite m
    /\ Formatting.getCleanValue (Formatting.manager f)
       = String.substring 0 (Z.to_nat m) (Formatting.getCleanValue self)
    /\ Formatting.notified f
       = Some (Formatting.getCleanValue (Formatting.manager f),
               FormatManager.currentDocument (Formatting.manager f))
    /\ FormatManager.currentDocument <$> FormatManager.detectDocumentType self
       = Return (FormatManager.currentDocument (Formatting.manager f))
    /\ (exists p, Formatting.selection f = Some p
                  /\ (p <= String.length (Formatting.getFormattedValue (Formatting.manager f)))%nat)
    /\ ((String.length (FormatManager.value self) <= cursorPosition)%nat ->
        Formatting.selection f
        = Some (String.length (Formatting.getFormattedValue (Formatting.manager f)))).
Proof.
  intros Hc Hwf.
  destruct (formatInput_result self c cursorPosition Hc Hwf)
    as (k & cfg & m & Hin & Em & Hdet & Hf & Hclean).
  eexists. exists m. split; [exact Hf|]. split; [exact Em|].
  unfold Formatting.getCleanValue, Formatting.getFormattedValue. simpl.
  split; [exact Hclean|]. split; [rewrite Hclean; reflexivity|].
  split; [rewrite Hdet; reflexivity|].
  rewrite calculateCursorPosition_spec. split.
  - eexists. split; [reflexivity | apply index_of_next_digit_le].
  - intros Hend. f_equal. apply index_of_next_digit_end.
    rewrite digits_before_all by exact Hend.
    unfold count_digits. rewrite Hclean, substring_0_length. lia.
Qed.

Lemma CountriesData_well_formed (code : string) (c : Country) :
  FormatManager.country code CountriesData = Some c -> well_formed_country c.
Proof.
  unfold CountriesData. simpl.
  repeat match goal with
         | |- context [String.eqb code ?k] => destruct (String.eqb code k)
         end;
    intros [= <-]; unfold well_formed_country, masks_fit; simpl;
    (split; [discriminate|]);
    (split; [repeat (apply List.NoDup_cons; [simpl; intuition discriminate|]);
             apply List.NoDup_nil|]);
    (split; [intros k cfg [[= <- <-]|[[= <- <-]|[]]]; split; reflexivity|]);
    repeat constructor; unfold by_length; simpl; lia.
Qed.

Lemma formatInput_keeps_digits_witness :
  exists (f : Formatting.formatted) (m : Z),
    Formatting.formatInput (FormatManager.new "111444777-35 and 999" CountriesData) 20
    = Return f
    /\ Formatting.getMaxLength (FormatManager.new "111444777-35 and 999" CountriesData)
       = Formatting.finite m
    /\ Formatting.getCleanValue (Formatting.manager f)
       = String.substring 0 (Z.to_nat m) "11144477735999".
Proof.
  destruct (formatInput_keeps_digits
              (FormatManager.new "111444777-35 and 999" CountriesData) _ 20 eq_refl
              (CountriesData_well_formed "br" _ eq_refl))
    as (f & m & Hf & Em & Hc & _).
  exists f, m. split; [exact Hf|]. split; [exact Em | exact Hc].
Defined.

Lemma detect_same_count (s1 s2 : FormatManager.t) :
  FormatManager.countries s1 = FormatManager.countries s2 ->
  FormatManager.selectedCountry s1 = FormatManager.selectedCountry s2 ->
  String.length (strip_non_digits (FormatManager.value s1))
  = String.length (strip_non_digits (FormatManager.value s2)) ->
  FormatManager.currentDocument <$> FormatManager.detectDocumentType s1
  = FormatManager.currentDocument <$> FormatManager.detectDocumentType s2
  \/ FormatManager.country (FormatManager.selectedCountry s1) (FormatManager.countries s1)
     = None.
Proof.
  intros Hc Hs Hn. unfold FormatManager.detectDocumentType.
  rewrite <- Hc, <- Hs, <- Hn.
  destruct (FormatManager.country _ _) as [c|]; [left | right; reflexivity].
  destruct (_ =? 0)%nat.
  - destruct (FormatManager.type_at _ 0); reflexivity.
  - destruct (find _ _) as [[k cfg]|]; [reflexivity|].
    destruct (FormatManager.type_at _ _); reflexivity.
Qed.

(** X18: for a well-formed country and a typed value with no more
    digits than the longest length, [formatInput] is idempotent:
    formatting the value it has just written, with the cursor anywhere,
    writes the same value, keeps the same document type and notifies
    the same digits. *)
Theorem formatInput_idempotent (self : FormatManager.t) (c : Country)
    (cursorPosition again : nat) (m : Z) (f : Formatting.formatted) :
  FormatManager.country (FormatManager.selectedCountry self) (FormatManager.countries self)
  = Some c ->
  well_formed_country c ->
  Formatting.getMaxLength self = Formatting.finite m ->
  digit_count self <= m ->
  Formatting.formatInput self cursorPosition = Return f ->
  exists f' : Formatting.formatted,
    Formatting.formatInput (Formatting.manager f) again = Return f'
    /\ Formatting.manager f' = Formatting.manager f
    /\ Formatting.notified f' = Formatting.notified f.
Proof.
  intros Hc Hwf Em Hn Hf.
  destruct (formatInput_result self c cursorPosition Hc Hwf)
    as (k & cfg & m1 & Hin & Em1 & Hdet & Hf1 & Hclean).
  rewrite Em in Em1. injection Em1 as <-.
  simpl in Hf1. rewrite Hf in Hf1. injection Hf1 as ->.
  set (d := strip_non_digits (FormatManager.value self)) in *.
  assert (String.substring 0 (Z.to_nat m) d = d) as Ht.
  { apply substring_0_all. unfold digit_count in Hn. fold d in Hn. lia. }
  rewrite Ht in *.
  set (s2 := {| FormatManager.value := FormatManager.applyMask d (Doc.mask cfg);
                FormatManager.countries := FormatManager.countries self;
                FormatManager.selectedCountry := FormatManager.selectedCountry self;
                FormatManager.currentDocument := Some k |}).
  simpl Formatting.manager. simpl Formatting.notified.
  destruct (formatInput_result s2 c again Hc Hwf)
    as (k2 & cfg2 & m2 & Hin2 & Em2 & Hdet2 & Hf2 & _).
  assert (m2 = m) as ->.
  { unfold Formatting.getMaxLength in Em2, Em. simpl in Em2. rewrite Em in Em2.
    congruence. }
  simpl in Hf2. rewrite Hclean, Ht in Hf2.
  assert (k2 = k) as ->.
  { destruct (detect_same_count s2 self eq_refl eq_refl) as [E|E].
    - simpl. rewrite Hclean. reflexivity.
    - rewrite Hdet2, Hdet in E. simpl in E. congruence.
    - simpl in E. congruence. }
  assert (cfg2 = cfg) as ->.
  { destruct Hwf as (_ & Hkeys & _).
    pose proof (document_In k cfg _ Hkeys Hin) as E1.
    pose proof (document_In k cfg2 _ Hkeys Hin2) as E2. congruence. }
  eexists. split; [exact Hf2|]. split; reflexivity.
Qed.

Lemma formatInput_idempotent_witness :
  exists f f' : Formatting.formatted,
    Formatting.formatInput (FormatManager.new "12345678" CountriesData) 8 = Return f
    /\ Formatting.formatInput (Formatting.manager f) 0 = Return f'
    /\ Formatting.manager f' = Formatting.manager f.
Proof.
  eexists.
  destruct (formatInput_idempotent (FormatManager.new "12345678" CountriesData) _ 8 0 14 _
              eq_refl (CountriesData_well_formed "br" _ eq_refl) eq_refl
              ltac:(vm_compute; discriminate) eq_refl)
    as (f' & H1 & H2 & _).
  exists f'. split; [reflexivity|]. split; [exact H1 | exact H2].
Defined.

(* ================================================================== *)
(** * The detected document type *)
(* ================================================================== *)

Lemma detect_bundled (self : FormatManager.t) :
  FormatManager.countries self = CountriesData ->
  In (FormatManager.selectedCountry self) ["br"; "pt"; "us"] ->
  FormatManager.detectDocumentType self
  = Return (FormatManager.set_currentDocument self
              (Some (bundled_type (FormatManager.selectedCountry self)
                       (count_digits (FormatManager.value self))))).
Proof.
  intros Hc Hs. unfold FormatManager.detectDocumentType, count_digits, bundled_type.
  rewrite Hc.
  set (n := String.length (strip_non_digits (FormatManager.value self))).
  simpl in Hs. destruct Hs as [<-|[<-|[<-|[]]]]; simpl.
  - destruct (Nat.eqb_spec n 0) as [->|Hn]; [reflexivity|]. simpl.
    destruct (Z.leb_spec (Z.of_nat n) 11), (Nat.leb_spec n 11); try lia; [reflexivity|].
    destruct (Z.leb_spec (Z.of_nat n) 14); reflexivity.
  - destruct (Nat.eqb_spec n 0) as [->|Hn]; [reflexivity|]. simpl.
    destruct (Z.leb_spec (Z.of_nat n) 9), (Nat.leb_spec n 9); try lia; reflexivity.
  - destruct (Nat.eqb_spec n 0) as [->|Hn]; [reflexivity|]. simpl.
    destruct (Z.leb_spec (Z.of_nat n) 9), (Nat.leb_spec n 9); try lia; reflexivity.
Qed.

(** X19: with the bundled country table the detector follows the
    number of digits only: Brazil is cpf up to 11 digits and cnpj
    beyond; Portugal is nif and the United States ssn up to 9 digits,
    and nipc and ein are picked only beyond 9 digits, when the value
    overflows every length. *)
Theorem bundled_detection (self : FormatManager.t) :
  FormatManager.countries self = CountriesData ->
  In (FormatManager.selectedCountry self) ["br"; "pt"; "us"] ->
  FormatManager.detectDocumentType self
  = Return (FormatManager.set_currentDocument self
              (Some (bundled_type (FormatManager.selectedCountry self)
                       (count_digits (FormatManager.value self))))).
Proof. exact (detect_bundled self). Qed.

Lemma bundled_detection_witness :
  FormatManager.currentDocument
    <$> FormatManager.detectDocumentType
          {| FormatManager.value := "12-34567890"; FormatManager.countries := CountriesData;
             FormatManager.selectedCountry := "us"; FormatManager.currentDocument := None |}
  = Return (Some "ein").
Proof.
  rewrite bundled_detection; [reflexivity | reflexivity | simpl; tauto].
Defined.

(** X20: once the detector has run for a country with document types,
    each named once and none with an empty name,
    [getCurrentDocumentInfo] returns the information of the detected
    type: its name, category, length and mask as the table has them,
    and the selected country. Before any detection it returns
    [null]. *)
Theorem detected_document_info (self : FormatManager.t) (c : Country) :
  FormatManager.country (FormatManager.selectedCountry self) (FormatManager.countries self)
  = Some c ->
  documents c <> [] ->
  List.NoDup (map fst (documents c)) ->
  ~ In EmptyString (map fst (documents c)) ->
  (exists (self' : FormatManager.t) (k : string) (cfg : Doc.config),
      FormatManager.detectDocumentType self = Return self'
      /\ FormatManager.currentDocument self' = Some k
      /\ In (k, cfg) (documents c)
      /\ Formatting.getCurrentDocumentInfo self'
         = Return (Some {| Formatting.info_type := k;
                           Formatting.category := Doc.type cfg;
                           Formatting.length := Doc.length cfg;
                           Formatting.mask := Doc.mask cfg;
                           Formatting.info_country := FormatManager.selectedCountry self |}))
  /\ (FormatManager.currentDocument self = None ->
      Formatting.getCurrentDocumentInfo self = Return None).
Proof.
  intros Hc Hne Hkeys Hnames. split.
  - destruct (detect_cases self c Hc Hne) as ([k cfg] & Hin & Hdet & _).
    eexists. exists k, cfg. split; [exact Hdet|]. split; [reflexivity|].
    split; [exact Hin|].
    unfold Formatting.getCurrentDocumentInfo. simpl. rewrite Hc.
    destruct (String.eqb_spec k "") as [->|_].
    + exfalso. apply Hnames. apply (in_map fst _ _ Hin).
    + rewrite (document_In k cfg _ Hkeys Hin). reflexivity.
  - intros Hd. unfold Formatting.getCurrentDocumentInfo. rewrite Hc, Hd. reflexivity.
Qed.

Lemma detected_document_info_witness :
  exists (self' : FormatManager.t) (k : string) (cfg : Doc.config),
    FormatManager.detectDocumentType (FormatManager.new "123" CountriesData) = Return self'
    /\ FormatManager.currentDocument self' = Some k
    /\ Formatting.getCurrentDocumentInfo self'
       = Return (Some {| Formatting.info_type := k;
                         Formatting.category := Doc.type cfg;
                         Formatting.length := Doc.length cfg;
                         Formatting.mask := Doc.mask cfg;
                         Formatting.info_country := "br" |}).
Proof.
  destruct (proj1 (detected_document_info (FormatManager.new "123" CountriesData) _ eq_refl
                     ltac:(discriminate)
                     (proj1 (proj2 (CountriesData_well_formed "br" _ eq_refl)))
                     ltac:(simpl; intuition discriminate)))
    as (self' & k & cfg & Hd & Hk & _ & Hi).
  exists self', k, cfg. split; [exact Hd|]. split; [exact Hk | exact Hi].
Defined.

(** Beyond the 9 digits of an SSN the value is cut to 9 digits and
    written as an EIN; formatted again, it is an SSN. *)
Example formatInput_overflow :
  (Formatting.getFormattedValue ∘ Formatting.manager)
    <$> Formatting.formatInput
          {| FormatManager.value := "1234567890"; FormatManager.countries := CountriesData;
             FormatManager.selectedCountry := "us"; FormatManager.currentDocument := None |} 10
  = Return "12-3456789"
  /\ (Formatting.getFormattedValue ∘ Formatting.manager)
       <$> Formatting.formatInput
             {| FormatManager.value := "12-3456789"; FormatManager.countries := CountriesData;
                FormatManager.selectedCountry := "us";
                FormatManager.currentDocument := Some "ein" |} 10
     = Return "123-45-6789".
Proof. split; reflexivity. Qed.

(* ================================================================== *)
(** * From the keystroke to the verdict *)
(* ================================================================== *)

Lemma toLowerCase_nonempty (code country : string) :
  toLowerCase code = country -> country <> "" -> ValidationManager.empty code = false.
Proof.
  intros E Hne. destruct code; [simpl in E; congruence | reflexivity].
Qed.

(** The callers of the dispatcher, for any registry [instance] and any
    table of validators that it calls as they are written: each is
    registered under its country and its document type, and returns an
    object. *)
Section Registered.

Variable instance : Validator.t.
Variable table : list (string * string * (string -> jsval)).

Hypothesis registered :
  forall (country type : string) (v : string -> jsval) (code : string),
    In (country, type, v) table -> toLowerCase code = country ->
    country <> "" /\ type <> ""
    /\ (exists rules,
           Validator.rules instance !! toLowerCase code = Some rules
           /\ Validator.rule type rules = Some (plain v))
    /\ (forall document, exists props, v document = Object props).

Lemma validateDocument_dispatched (vm : ValidationManager.t) (cleanValue code : string)
    (country type : string) (v : string -> jsval) :
  In (country, type, v) table -> toLowerCase code = country ->
  ValidationManager.validator vm = instance ->
  exists (vm' : ValidationManager.t) (props : list (string * jsval)),
    ValidationManager.validateDocument vm cleanValue code type = Return (vm', Object props)
    /\ ValidationManager.validator vm' = instance
    /\ field "isValid" (Object props) = field "isValid" (v cleanValue).
Proof.
  intros Hin E Hv.
  destruct (registered _ _ _ code Hin E) as (Hcn & Htn & (rules & Hr & Hf) & Hobj).
  destruct (Hobj cleanValue) as (props & Hp).
  unfold ValidationManager.validateDocument.
  assert (ValidationManager.empty code = false) as ->
    by exact (toLowerCase_nonempty code country E Hcn).
  assert (ValidationManager.empty type = false) as ->
    by (apply String.eqb_neq; exact Htn).
  simpl orb. cbv iota. rewrite Hv.
  rewrite (validate_returning instance cleanValue code type rules
             (fun _ document => Return (v document)) (v cleanValue) Hr Hf eq_refl)
    by (rewrite Hp; discriminate).
  simpl. do 2 eexists. split; [reflexivity|]. split; reflexivity.
Qed.

Lemma isDocumentValid_dispatched (vm : ValidationManager.t) (cleanValue code : string)
    (country type : string) (v : string -> jsval) (expectedLength : Z) :
  In (country, type, v) table -> toLowerCase code = country ->
  ValidationManager.validator vm = instance ->
  exists vm' : ValidationManager.t,
    ValidationManager.isDocumentValid vm cleanValue code type expectedLength
    = Return (vm', if Z.of_nat (String.length cleanValue) =? expectedLength
                   then field "isValid" (v cleanValue) else Bool false)
    /\ ValidationManager.validator vm' = instance.
Proof.
  intros Hin E Hv. unfold ValidationManager.isDocumentValid.
  destruct (_ =? _); simpl; [|eauto].
  destruct (validateDocument_dispatched vm cleanValue code country type v Hin E Hv)
    as (vm' & props & Hd & Hv' & Hf).
  rewrite Hd. simpl. simpl in Hf. rewrite Hf. eauto.
Qed.

Lemma getValidationState_dispatched (vm : ValidationManager.t) (cleanValue code : string)
    (country type : string) (v : string -> jsval) (expectedLength : Z) :
  In (country, type, v) table -> toLowerCase code = country ->
  ValidationManager.validator vm = instance ->
  exists vm' : ValidationManager.t,
    ValidationManager.getValidationState vm cleanValue code type expectedLength
    = Return (vm', if (String.length cleanValue =? 0)%nat then Null
                   else if Z.of_nat (String.length cleanValue) <? expectedLength then Null
                   else if Z.of_nat (String.length cleanValue) =? expectedLength
                        then field "isValid" (v cleanValue)
                   else Bool false)
    /\ ValidationManager.validator vm' = instance.
Proof.
  intros Hin E Hv. unfold ValidationManager.getValidationState.
  destruct cleanValue as [|c s] eqn:Ec; [simpl; eauto|]. rewrite <- Ec.
  assert (ValidationManager.empty cleanValue = false) as -> by (subst; reflexivity).
  assert ((String.length cleanValue =? 0)%nat = false) as -> by (subst; reflexivity).
  simpl orb. cbv iota.
  destruct (_ <? _); [eauto|].
  destruct (_ =? _); [|eauto].
  destruct (validateDocument_dispatched vm cleanValue code country type v Hin E Hv)
    as (vm' & props & Hd & Hv' & Hf).
  rewrite Hd. simpl. simpl in Hf. rewrite Hf. eauto.
Qed.

(** A widget with the bundled table and the rules of [instance],
    [code] selected in both managers. *)
Variable w : TaxDocumentInput.t.
Variable code : string.

Hypothesis ready :
  FormatManager.countries (TaxDocumentInput.formatManager w) = CountriesData
  /\ FormatManager.selectedCountry (TaxDocumentInput.formatManager w) = code
  /\ TaxDocumentInput.selectedCountry w = code
  /\ ValidationManager.validator (TaxDocumentInput.validationManager w) = instance.

Lemma ready_country (c : Country) (typed : string) :
  FormatManager.country code CountriesData = Some c ->
  FormatManager.country (FormatManager.selectedCountry (typing w typed))
    (FormatManager.countries (typing w typed)) = Some c.
Proof. destruct ready as (Hc & Hs & _). intros H. simpl. rewrite Hc, Hs. exact H. Qed.

(** The input event followed by [isValid], for a document type whose
    validator the dispatcher calls as it is written. *)
Lemma input_then_isValid (typed : string) (cursorPosition : nat)
    (c : Country) (k : string) (cfg : Doc.config) (m : Z)
    (v : string -> jsval) :
  FormatManager.country code CountriesData = Some c ->
  toLowerCase code = code ->
  In (code, k, v) table ->
  In (k, cfg) (documents c) ->
  Formatting.getMaxLength (typing w typed) = Formatting.finite m ->
  FormatManager.detectDocumentType (typing w typed)
  = Return (FormatManager.set_currentDocument (typing w typed) (Some k)) ->
  let t := String.substring 0 (Z.to_nat m) (strip_non_digits typed) in
  let n := Z.of_nat (String.length t) in
  exists w1 w2 : TaxDocumentInput.t,
    TaxDocumentInput.input w typed cursorPosition = Return w1
    /\ TaxDocumentInput.getCleanValue w1 = t
    /\ TaxDocumentInput.getCurrentDocumentType w1 = Some k
    /\ TaxDocumentInput.validationState w1
       = (if n =? 0 then Null
          else if n <? Doc.length cfg then Null
          else if n =? Doc.length cfg then field "isValid" (v t)
          else Bool false)
    /\ TaxDocumentInput.isValid w1
       = Return (w2, if n =? Doc.length cfg then field "isValid" (v t) else Bool false).
Proof.
  intros Hc Hlow Hv Hin Em Hdet t n.
  pose proof (ready_country c typed Hc) as Hc'.
  pose proof (CountriesData_well_formed code c Hc) as Hwf.
  destruct (formatInput_result (typing w typed) c cursorPosition Hc' Hwf)
    as (k' & cfg' & m' & Hin' & Em' & Hdet' & Hf & Hclean).
  rewrite Em in Em'. injection Em' as <-.
  rewrite Hdet in Hdet'. injection Hdet' as <-.
  assert (cfg' = cfg) as ->.
  { destruct Hwf as (_ & Hkeys & _).
    pose proof (document_In k cfg _ Hkeys Hin) as E1.
    pose proof (document_In k cfg' _ Hkeys Hin') as E2. congruence. }
  simpl in Hf, Hclean. fold t in Hf, Hclean.
  destruct ready as (Hcs & Hsel & Hsel' & Hvm).
  assert (k <> "") as Hk by exact (proj1 (proj2 (registered _ _ _ code Hv Hlow))).
  assert (String.eqb k "" = false) as Hnd by (apply String.eqb_neq; exact Hk).
  assert (Formatting.document k (documents c) = Some cfg) as Hdoc.
  { destruct Hwf as (_ & Hkeys & _). apply document_In; assumption. }
  unfold TaxDocumentInput.input. fold (typing w typed). rewrite Hf. simpl.
  unfold TaxDocumentInput.updateValidationState, TaxDocumentInput.getSelectedCountry. simpl.
  rewrite Hnd. unfold TaxDocumentInput.docConfig_of. rewrite Hsel', Hc, Hdoc.
  destruct (getValidationState_dispatched (TaxDocumentInput.validationManager w) t code
              code k v (Doc.length cfg) Hv Hlow Hvm) as (vm1 & Hgs & Hvm1).
  rewrite Hgs. simpl.
  destruct (isDocumentValid_dispatched vm1 t code code k v (Doc.length cfg) Hv Hlow Hvm1)
    as (vm2 & Hiv & _).
  do 2 eexists. split; [reflexivity|].
  unfold TaxDocumentInput.getCleanValue, Formatting.getCleanValue,
    TaxDocumentInput.getCurrentDocumentType. simpl.
  split; [exact Hclean|]. split; [reflexivity|]. split.
  - subst n. destruct (String.length t); reflexivity.
  - unfold TaxDocumentInput.isValid, TaxDocumentInput.getCurrentDocumentInfo,
      Formatting.getCurrentDocumentInfo, TaxDocumentInput.getCleanValue,
      Formatting.getCleanValue, TaxDocumentInput.getSelectedCountry,
      TaxDocumentInput.getCurrentDocumentType. simpl.
    rewrite Hcs, Hsel, Hc, Hnd, Hdoc. simpl.
    rewrite (toLowerCase_nonempty code code Hlow)
      by (intros ->; discriminate Hc).
    rewrite Hclean, Hiv. reflexivity.
Qed.

Lemma typing_bundled (typed : string) :
  In code ["br"; "pt"; "us"] ->
  FormatManager.detectDocumentType (typing w typed)
  = Return (FormatManager.set_currentDocument (typing w typed)
              (Some (bundled_type code (count_digits typed)))).
Proof.
  destruct ready as (Hc & Hs & _). intros Hin.
  rewrite (detect_bundled (typing w typed)); simpl; rewrite ?Hs; auto.
Qed.

Lemma typing_max (typed : string) (c : Country) :
  FormatManager.country code CountriesData = Some c ->
  Formatting.getMaxLength (typing w typed)
  = fold_left Formatting.max_with (map (fun d => Doc.length (snd d)) (documents c))
      Formatting.minus_infinity.
Proof.
  destruct ready as (Hc & Hs & _). intros H.
  unfold Formatting.getMaxLength. simpl. rewrite Hc, Hs, H.
  reflexivity.
Qed.

End Registered.

(** The two registries and their tables. *)
Lemma dispatched_registered (country type : string) (v : string -> jsval) (code : string) :
  In (country, type, v) dispatched -> toLowerCase code = country ->
  country <> "" /\ type <> ""
  /\ (exists rules,
         Validator.rules ValidatorInstance !! toLowerCase code = Some rules
         /\ Validator.rule type rules = Some (plain v))
  /\ (forall document, exists props, v document = Object props).
Proof.
  intros Hin E.
  split; [|split; [|split]].
  - simpl in Hin.
    destruct Hin as [[= <- <- <-]|[[= <- <- <-]|[[= <- <- <-]|[[= <- <- <-]|[[= <- <- <-]|[]]]]]];
      discriminate.
  - simpl in Hin.
    destruct Hin as [[= <- <- <-]|[[= <- <- <-]|[[= <- <- <-]|[[= <- <- <-]|[[= <- <- <-]|[]]]]]];
      discriminate.
  - exact (dispatched_rules country type v code Hin E).
  - intros document. exact (dispatched_object country type v document Hin).
Qed.

Lemma nif_1_0_0_object (document : string) :
  exists props, PortugalRules_1_0_0.nif document = Object props.
Proof.
  unfold PortugalRules_1_0_0.nif. cbv zeta.
  repeat match goal with |- context [if ?c then _ else _] => destruct c end; eauto.
Qed.

Lemma dispatched_1_0_0_registered (country type : string) (v : string -> jsval)
    (code : string) :
  In (country, type, v) dispatched_1_0_0 -> toLowerCase code = country ->
  country <> "" /\ type <> ""
  /\ (exists rules,
         Validator.rules ValidatorInstance_1_0_0 !! toLowerCase code = Some rules
         /\ Validator.rule type rules = Some (plain v))
  /\ (forall document, exists props, v document = Object props).
Proof.
  intros [[= <- <- <-]|Hin] E.
  - split; [discriminate|]. split; [discriminate|]. split.
    + rewrite E. eexists. split; reflexivity.
    + exact nif_1_0_0_object.
  - destruct (dispatched_registered country type v code Hin E) as (Hc & Ht & _ & Ho).
    split; [exact Hc|]. split; [exact Ht|]. split; [|exact Ho].
    rewrite E. simpl in Hin.
    destruct Hin as [[= <- <- <-]|[[= <- <- <-]|[[= <- <- <-]|[[= <- <- <-]|[[= <- <- <-]|[]]]]]];
      eexists; split; reflexivity.
Qed.

(** X11: what a validation manager makes of a document of type nif
    depends on the version of PortugalRules that is registered. With
    version 1.0.1, the registrations of dist/, it never finds one
    valid: [isDocumentValid] returns false and [getValidationState]
    never returns true, whatever the value and the expected length.
    With version 1.0.0, the registrations of src/validators/rules/,
    [isDocumentValid] is the verdict of [nif] on a value of the
    expected length and false on any other, and [getValidationState]
    is neutral on an empty or shorter value, that verdict on a value of
    the expected length and false on a longer one. *)
Theorem manager_nif_by_version (self : ValidationManager.t) (cleanValue code : string)
    (expectedLength : Z) :
  toLowerCase code = "pt" ->
  (ValidationManager.validator self = ValidatorInstance ->
   (exists s, ValidationManager.isDocumentValid self cleanValue code "nif" expectedLength
              = Return (s, Bool false))
   /\ (exists s v, ValidationManager.getValidationState self cleanValue code "nif"
                     expectedLength = Return (s, v)
                   /\ v <> Bool true))
  /\ (ValidationManager.validator self = ValidatorInstance_1_0_0 ->
      let n := Z.of_nat (String.length cleanValue) in
      let verdict := field "isValid" (PortugalRules_1_0_0.nif cleanValue) in
      (exists s, ValidationManager.isDocumentValid self cleanValue code "nif" expectedLength
                 = Return (s, if n =? expectedLength then verdict else Bool false))
      /\ (exists s, ValidationManager.getValidationState self cleanValue code "nif"
                      expectedLength
                    = Return (s, if (String.length cleanValue =? 0)%nat then Null
                                 else if n <? expectedLength then Null
                                 else if n =? expectedLength then verdict
                                 else Bool false))).
Proof.
  intros E. split.
  - intros Hv. exact (manager_nif_1_0_1 self cleanValue code expectedLength Hv E).
  - intros Hv n verdict. split.
    + destruct (isDocumentValid_dispatched ValidatorInstance_1_0_0 dispatched_1_0_0
                  dispatched_1_0_0_registered self cleanValue code "pt" "nif"
                  PortugalRules_1_0_0.nif expectedLength
                  ltac:(left; reflexivity) E Hv) as (s & Hs & _).
      exists s. exact Hs.
    + destruct (getValidationState_dispatched ValidatorInstance_1_0_0 dispatched_1_0_0
                  dispatched_1_0_0_registered self cleanValue code "pt" "nif"
                  PortugalRules_1_0_0.nif expectedLength
                  ltac:(left; reflexivity) E Hv) as (s & Hs & _).
      exists s. exact Hs.
Qed.

Lemma manager_nif_by_version_witness :
  (exists s, ValidationManager.isDocumentValid (ValidationManager.new ValidatorInstance)
               "123456789" "pt" "nif" 9 = Return (s, Bool false))
  /\ (exists s, ValidationManager.isDocumentValid
                  (ValidationManager.new ValidatorInstance_1_0_0)
                  "123456789" "pt" "nif" 9 = Return (s, Bool true)).
Proof.
  split.
  - exact (proj1 (proj1 (manager_nif_by_version (ValidationManager.new ValidatorInstance)
                           "123456789" "pt" 9 eq_refl) eq_refl)).
  - destruct (proj2 (manager_nif_by_version (ValidationManager.new ValidatorInstance_1_0_0)
                       "123456789" "pt" 9 eq_refl) eq_refl) as [[s Hs] _].
    exists s. exact Hs.
Defined.


(** X21: the whole way for Brazil. After an input event on a widget
    set to Brazil the clean value is the first 14 digits typed;
    [isValid] then answers with the CPF validator when exactly 11
    digits were typed, with the CNPJ validator on the first 14 digits
    when 14 or more were typed, and false otherwise; the state shown
    is that verdict in the first two cases and neutral in the
    others. *)
Theorem brazil_verdict (w : TaxDocumentInput.t) (typed : string) (cursorPosition : nat) :
  TaxDocumentInput.ready w "br" ->
  let d := strip_non_digits typed in
  let n := String.length d in
  let verdict :=
    if (n =? 11)%nat then field "isValid" (BrazilRules.cpf d)
    else if (14 <=? n)%nat then field "isValid" (BrazilRules.cnpj (String.substring 0 14 d))
    else Bool false in
  exists w1 w2 : TaxDocumentInput.t,
    TaxDocumentInput.input w typed cursorPosition = Return w1
    /\ TaxDocumentInput.getCleanValue w1 = String.substring 0 14 d
    /\ TaxDocumentInput.isValid w1 = Return (w2, verdict)
    /\ TaxDocumentInput.validationState w1
       = (if (n =? 11)%nat || (14 <=? n)%nat then verdict else Null).
Proof.
  intros Hready d n verdict.
  pose proof (typing_bundled ValidatorInstance w "br" Hready typed ltac:(simpl; tauto)) as Hdet.
  pose proof (typing_max ValidatorInstance w "br" Hready typed _ eq_refl) as Em.
  simpl in Em. unfold count_digits in Hdet. fold d n in Hdet.
  unfold bundled_type in Hdet. simpl in Hdet.
  pose proof (substring_0_length 14 d) as Hlen. fold n in Hlen.
  destruct (Nat.leb_spec n 11) as [Hle|Hgt].
  - destruct (input_then_isValid ValidatorInstance dispatched dispatched_registered
                w "br" Hready typed cursorPosition _ "cpf" _ 14 BrazilRules.cpf
                eq_refl eq_refl ltac:(simpl; tauto) ltac:(simpl; left; reflexivity)
                Em Hdet) as (w1 & w2 & Hi & Hc & _ & Hs & Hv).
    change (Z.to_nat 14) with 14%nat in *. fold d in Hc, Hs, Hv.
    rewrite (substring_0_all 14 d) in * by (fold n; lia). fold n in Hs, Hv.
    cbn [Doc.length] in Hs, Hv.
    exists w1, w2. split; [exact Hi|]. split; [exact Hc|].
    subst verdict. rewrite Hv, Hs.
    destruct (Nat.eqb_spec n 11) as [->|Hne]; [split; reflexivity|].
    destruct (Nat.leb_spec 14 n); [lia|].
    destruct (Z.eqb_spec (Z.of_nat n) 11); [lia|].
    destruct (Z.eqb_spec (Z.of_nat n) 0); [split; reflexivity|].
    destruct (Z.ltb_spec (Z.of_nat n) 11); [split; reflexivity | lia].
  - destruct (input_then_isValid ValidatorInstance dispatched dispatched_registered
                w "br" Hready typed cursorPosition _ "cnpj" _ 14 BrazilRules.cnpj
                eq_refl eq_refl ltac:(simpl; tauto)
                ltac:(simpl; right; left; reflexivity)
                Em Hdet) as (w1 & w2 & Hi & Hc & _ & Hs & Hv).
    change (Z.to_nat 14) with 14%nat in *. fold d in Hc, Hs, Hv.
    rewrite Hlen in Hs, Hv. cbn [Doc.length] in Hs, Hv.
    exists w1, w2. split; [exact Hi|]. split; [exact Hc|].
    subst verdict. rewrite Hv, Hs.
    destruct (Nat.eqb_spec n 11) as [->|Hne]; [lia|].
    destruct (Nat.leb_spec 14 n).
    + rewrite Nat.min_l by lia. split; reflexivity.
    + rewrite Nat.min_r by lia.
      destruct (Z.eqb_spec (Z.of_nat n) 14); [lia|].
      destruct (Z.eqb_spec (Z.of_nat n) 0); [split; reflexivity|].
      destruct (Z.ltb_spec (Z.of_nat n) 14); [split; reflexivity | lia].
Qed.

Lemma brazil_verdict_witness :
  exists w1 w2 : TaxDocumentInput.t,
    TaxDocumentInput.input
      {| TaxDocumentInput.formatManager := FormatManager.new "" CountriesData;
         TaxDocumentInput.selectedCountry := "br";
         TaxDocumentInput.validationManager := ValidationManager.new ValidatorInstance;
         TaxDocumentInput.validationState := Null |}
      "11144477735" 11 = Return w1
    /\ TaxDocumentInput.isValid w1 = Return (w2, Bool true).
Proof.
  destruct (brazil_verdict
              {| TaxDocumentInput.formatManager := FormatManager.new "" CountriesData;
                 TaxDocumentInput.selectedCountry := "br";
                 TaxDocumentInput.validationManager := ValidationManager.new ValidatorInstance;
                 TaxDocumentInput.validationState := Null |}
              "11144477735" 11)
    as (w1 & w2 & Hi & _ & Hv & _).
  - repeat split.
  - exists w1, w2. split; [exact Hi | exact Hv].
Defined.

(** X22: the whole way for the United States. The clean value is the
    first 9 digits typed; [isValid] answers with the SSN validator when
    exactly 9 digits were typed and false for fewer, but once a tenth
    digit is typed the document type is ein and the verdict, also the
    one shown, is that of the EIN validator on the first 9 digits. *)
Theorem united_states_verdict (w : TaxDocumentInput.t) (typed : string)
    (cursorPosition : nat) :
  TaxDocumentInput.ready w "us" ->
  let d := strip_non_digits typed in
  let n := String.length d in
  let verdict :=
    if (n =? 9)%nat then field "isValid" (USARules.ssn d)
    else if (10 <=? n)%nat then field "isValid" (USARules.ein (String.substring 0 9 d))
    else Bool false in
  exists w1 w2 : TaxDocumentInput.t,
    TaxDocumentInput.input w typed cursorPosition = Return w1
    /\ TaxDocumentInput.getCleanValue w1 = String.substring 0 9 d
    /\ TaxDocumentInput.getCurrentDocumentType w1
       = Some (if (n <=? 9)%nat then "ssn" else "ein")
    /\ TaxDocumentInput.isValid w1 = Return (w2, verdict)
    /\ TaxDocumentInput.validationState w1
       = (if (9 <=? n)%nat then verdict else Null).
Proof.
  intros Hready d n verdict.
  pose proof (typing_bundled ValidatorInstance w "us" Hready typed ltac:(simpl; tauto)) as Hdet.
  pose proof (typing_max ValidatorInstance w "us" Hready typed _ eq_refl) as Em.
  simpl in Em. unfold count_digits in Hdet. fold d n in Hdet.
  unfold bundled_type in Hdet. simpl in Hdet.
  pose proof (substring_0_length 9 d) as Hlen. fold n in Hlen.
  destruct (Nat.leb_spec n 9) as [Hle|Hgt].
  - destruct (input_then_isValid ValidatorInstance dispatched dispatched_registered
                w "us" Hready typed cursorPosition _ "ssn" _ 9 USARules.ssn
                eq_refl eq_refl ltac:(simpl; tauto) ltac:(simpl; left; reflexivity)
                Em Hdet) as (w1 & w2 & Hi & Hc & Ht & Hs & Hv).
    change (Z.to_nat 9) with 9%nat in *. fold d in Hc, Hs, Hv.
    rewrite (substring_0_all 9 d) in * by (fold n; lia). fold n in Hs, Hv.
    cbn [Doc.length] in Hs, Hv.
    exists w1, w2. split; [exact Hi|]. split; [exact Hc|]. split; [exact Ht|].
    subst verdict. rewrite Hv, Hs.
    destruct (Nat.eqb_spec n 9) as [->|Hne]; [split; reflexivity|].
    destruct (Nat.leb_spec 10 n); [lia|].
    destruct (Nat.leb_spec 9 n); [lia|].
    destruct (Z.eqb_spec (Z.of_nat n) 9); [lia|].
    destruct (Z.eqb_spec (Z.of_nat n) 0); [split; reflexivity|].
    destruct (Z.ltb_spec (Z.of_nat n) 9); [split; reflexivity | lia].
  - destruct (input_then_isValid ValidatorInstance dispatched dispatched_registered
                w "us" Hready typed cursorPosition _ "ein" _ 9 USARules.ein
                eq_refl eq_refl ltac:(simpl; tauto)
                ltac:(simpl; right; left; reflexivity)
                Em Hdet) as (w1 & w2 & Hi & Hc & Ht & Hs & Hv).
    change (Z.to_nat 9) with 9%nat in *. fold d in Hc, Hs, Hv.
    rewrite Hlen in Hs, Hv. cbn [Doc.length] in Hs, Hv.
    rewrite Nat.min_l in Hs, Hv by lia. simpl in Hs, Hv.
    exists w1, w2. split; [exact Hi|]. split; [exact Hc|]. split; [exact Ht|].
    subst verdict. rewrite Hv, Hs.
    destruct (Nat.eqb_spec n 9) as [->|Hne]; [lia|].
    destruct (Nat.leb_spec 10 n); [|lia].
    destruct (Nat.leb_spec 9 n); [|lia]. split; reflexivity.
Qed.

Lemma united_states_verdict_witness :
  exists w1 w2 : TaxDocumentInput.t,
    TaxDocumentInput.input
      {| TaxDocumentInput.formatManager :=
           {| FormatManager.value := ""; FormatManager.countries := CountriesData;
              FormatManager.selectedCountry := "us";
              FormatManager.currentDocument := Some "ssn" |};
         TaxDocumentInput.selectedCountry := "us";
         TaxDocumentInput.validationManager := ValidationManager.new ValidatorInstance;
         TaxDocumentInput.validationState := Null |}
      "0712345678" 10 = Return w1
    /\ TaxDocumentInput.getCurrentDocumentType w1 = Some "ein"
    /\ TaxDocumentInput.isValid w1 = Return (w2, Bool false).
Proof.
  destruct (united_states_verdict
              {| TaxDocumentInput.formatManager :=
                   {| FormatManager.value := ""; FormatManager.countries := CountriesData;
                      FormatManager.selectedCountry := "us";
                      FormatManager.currentDocument := Some "ssn" |};
                 TaxDocumentInput.selectedCountry := "us";
                 TaxDocumentInput.validationManager := ValidationManager.new ValidatorInstance;
                 TaxDocumentInput.validationState := Null |}
              "0712345678" 10)
    as (w1 & w2 & Hi & _ & Ht & Hv & _).
  - repeat split.
  - exists w1, w2. split; [exact Hi|]. split; [exact Ht | exact Hv].
Defined.

Lemma validateDocument_nif_object (vm : ValidationManager.t) (cleanValue code : string) :
  ValidationManager.validator vm = ValidatorInstance ->
  toLowerCase code = "pt" ->
  exists (vm' : ValidationManager.t) (props : list (string * jsval)),
    ValidationManager.validateDocument vm cleanValue code "nif" = Return (vm', Object props)
    /\ ValidationManager.validator vm' = ValidatorInstance
    /\ field "isValid" (Object props) = Bool false.
Proof.
  intros Hv E.
  destruct (validateDocument_nif vm cleanValue code Hv E) as (vm' & result & Hd & Hf).
  destruct (validateDocument_object vm cleanValue code "nif") as (vm0 & props & Ho).
  rewrite Ho in Hd. injection Hd as <- <-.
  exists vm0, props. split; [exact Ho|]. split; [|exact Hf].
  unfold ValidationManager.validateDocument in Ho.
  destruct (_ || _); [injection Ho as <- _; exact Hv|].
  destruct (Validator.validate _ _ _ _); simpl in Ho; [|discriminate Ho].
  injection Ho as <- _. exact Hv.
Qed.

(** The input event followed by [isValid] when the detected type is
    nif. *)
Lemma input_then_isValid_nif (w : TaxDocumentInput.t) (typed : string)
    (cursorPosition : nat) :
  TaxDocumentInput.ready w "pt" ->
  (count_digits typed <= 9)%nat ->
  exists w1 w2 : TaxDocumentInput.t,
    TaxDocumentInput.input w typed cursorPosition = Return w1
    /\ TaxDocumentInput.getCleanValue w1 = strip_non_digits typed
    /\ TaxDocumentInput.getCurrentDocumentType w1 = Some "nif"
    /\ TaxDocumentInput.validationState w1 <> Bool true
    /\ TaxDocumentInput.isValid w1 = Return (w2, Bool false).
Proof.
  intros Hready Hn.
  pose proof (typing_bundled ValidatorInstance w "pt" Hready typed ltac:(simpl; tauto)) as Hdet.
  pose proof (typing_max ValidatorInstance w "pt" Hready typed _ eq_refl) as Em. simpl in Em.
  unfold bundled_type in Hdet. simpl in Hdet.
  destruct (Nat.leb_spec (count_digits typed) 9) as [_|]; [|lia].
  pose proof (ready_country ValidatorInstance w "pt" Hready _ typed eq_refl) as Hc'.
  destruct (formatInput_result (typing w typed) _ cursorPosition Hc'
              (CountriesData_well_formed "pt" _ eq_refl))
    as (k' & cfg' & m' & Hin' & Em' & Hdet' & Hf & Hclean).
  rewrite Em in Em'. injection Em' as <-.
  rewrite Hdet in Hdet'. injection Hdet' as <-.
  assert (cfg' = {| Doc.length := 9; Doc.mask := "XXX XXX XXX";
                    Doc.type := "personal"; Doc.priority := 1 |}) as ->.
  { simpl in Hin'. destruct Hin' as [[= <-]|[[=]|[]]]. reflexivity. }
  simpl in Hf, Hclean. change (Z.to_nat (Z.max 9 9)) with 9%nat in *.
  rewrite (substring_0_all 9 (strip_non_digits typed)) in * by exact Hn.
  destruct Hready as (Hcs & Hsel & Hsel' & Hvm).
  unfold TaxDocumentInput.input. fold (typing w typed). rewrite Hf. simpl.
  unfold TaxDocumentInput.updateValidationState, TaxDocumentInput.getSelectedCountry. simpl.
  rewrite Hsel'. simpl.
  set (t := strip_non_digits typed) in *.
  assert (exists vm1 s,
             ValidationManager.getValidationState (TaxDocumentInput.validationManager w)
               t "pt" "nif" 9 = Return (vm1, s)
             /\ s <> Bool true
             /\ ValidationManager.validator vm1 = ValidatorInstance) as (vm1 & s & Hgs & Hs & Hvm1).
  { unfold ValidationManager.getValidationState.
    destruct (_ || _); [do 2 eexists; split; [reflexivity|]; split; [discriminate | exact Hvm]|].
    destruct (_ <? _); [do 2 eexists; split; [reflexivity|]; split; [discriminate | exact Hvm]|].
    destruct (_ =? _); [|do 2 eexists; split; [reflexivity|]; split; [discriminate | exact Hvm]].
    destruct (validateDocument_nif_object _ t "pt" Hvm eq_refl) as (vm' & props & Hd & Hv' & Hfalse).
    rewrite Hd. simpl. simpl in Hfalse. rewrite Hfalse.
    do 2 eexists. split; [reflexivity|]. split; [discriminate | exact Hv']. }
  rewrite Hgs. simpl.
  assert (exists vm2,
             ValidationManager.isDocumentValid vm1 t "pt" "nif" 9 = Return (vm2, Bool false))
    as (vm2 & Hiv).
  { unfold ValidationManager.isDocumentValid.
    destruct (negb _); [eauto|].
    destruct (validateDocument_nif_object vm1 t "pt" Hvm1 eq_refl)
      as (vm' & props & Hd & _ & Hfalse).
    rewrite Hd. simpl. simpl in Hfalse. rewrite Hfalse. eauto. }
  do 2 eexists. split; [reflexivity|].
  unfold TaxDocumentInput.getCleanValue, Formatting.getCleanValue,
    TaxDocumentInput.getCurrentDocumentType. simpl.
  split; [exact Hclean|]. split; [reflexivity|]. split; [exact Hs|].
  unfold TaxDocumentInput.isValid, TaxDocumentInput.getCurrentDocumentInfo,
    Formatting.getCurrentDocumentInfo, TaxDocumentInput.getCleanValue,
    Formatting.getCleanValue, TaxDocumentInput.getSelectedCountry,
    TaxDocumentInput.getCurrentDocumentType. simpl.
  rewrite Hcs, Hsel. simpl. rewrite Hclean, Hiv. reflexivity.
Qed.

(** With version 1.0.1 of PortugalRules registered. *)
Lemma portugal_verdict_1_0_1 (w : TaxDocumentInput.t) (typed : string)
    (cursorPosition : nat) :
  TaxDocumentInput.ready w "pt" ->
  let d := strip_non_digits typed in
  let n := String.length d in
  exists w1 w2 : TaxDocumentInput.t,
    TaxDocumentInput.input w typed cursorPosition = Return w1
    /\ TaxDocumentInput.getCleanValue w1 = String.substring 0 9 d
    /\ ((n <= 9)%nat ->
        TaxDocumentInput.getCurrentDocumentType w1 = Some "nif"
        /\ TaxDocumentInput.validationState w1 <> Bool true
        /\ TaxDocumentInput.isValid w1 = Return (w2, Bool false))
    /\ ((9 < n)%nat ->
        TaxDocumentInput.getCurrentDocumentType w1 = Some "nipc"
        /\ TaxDocumentInput.validationState w1
           = field "isValid" (PortugalRules.nipc (String.substring 0 9 d))
        /\ TaxDocumentInput.isValid w1
           = Return (w2, field "isValid" (PortugalRules.nipc (String.substring 0 9 d)))).
Proof.
  intros Hready d n.
  destruct (Nat.leb_spec n 9) as [Hle|Hgt].
  - destruct (input_then_isValid_nif w typed cursorPosition Hready Hle)
      as (w1 & w2 & Hi & Hc & Ht & Hs & Hv).
    exists w1, w2. split; [exact Hi|].
    split; [rewrite Hc; symmetry; apply substring_0_all; exact Hle|].
    split; [intros _; repeat split; assumption | intros; lia].
  - pose proof (typing_bundled ValidatorInstance w "pt" Hready typed ltac:(simpl; tauto)) as Hdet.
    pose proof (typing_max ValidatorInstance w "pt" Hready typed _ eq_refl) as Em. simpl in Em.
    unfold bundled_type, count_digits in Hdet. simpl in Hdet. fold d n in Hdet.
    destruct (Nat.leb_spec n 9) as [|_]; [lia|].
    destruct (input_then_isValid ValidatorInstance dispatched dispatched_registered
                w "pt" Hready typed cursorPosition _ "nipc" _ 9 PortugalRules.nipc
                eq_refl eq_refl ltac:(simpl; tauto)
                ltac:(simpl; right; left; reflexivity)
                Em Hdet) as (w1 & w2 & Hi & Hc & Ht & Hs & Hv).
    change (Z.to_nat 9) with 9%nat in *. fold d in Hc, Hs, Hv.
    rewrite (substring_0_length 9 d) in Hs, Hv. fold n in Hs, Hv.
    rewrite Nat.min_l in Hs, Hv by lia. simpl in Hs, Hv.
    exists w1, w2. split; [exact Hi|]. split; [exact Hc|].
    split; [intros; lia | intros _; repeat split; assumption].
Qed.

(** With version 1.0.0 of PortugalRules registered. *)
Lemma portugal_verdict_1_0_0 (w : TaxDocumentInput.t) (typed : string)
    (cursorPosition : nat) :
  TaxDocumentInput.ready_1_0_0 w "pt" ->
  let d := strip_non_digits typed in
  let n := String.length d in
  exists w1 w2 : TaxDocumentInput.t,
    TaxDocumentInput.input w typed cursorPosition = Return w1
    /\ TaxDocumentInput.getCleanValue w1 = String.substring 0 9 d
    /\ ((n <= 9)%nat ->
        TaxDocumentInput.getCurrentDocumentType w1 = Some "nif"
        /\ TaxDocumentInput.validationState w1
           = (if (n =? 9)%nat then field "isValid" (PortugalRules_1_0_0.nif d) else Null)
        /\ TaxDocumentInput.isValid w1
           = Return (w2, if (n =? 9)%nat then field "isValid" (PortugalRules_1_0_0.nif d)
                         else Bool false))
    /\ ((9 < n)%nat ->
        TaxDocumentInput.getCurrentDocumentType w1 = Some "nipc"
        /\ TaxDocumentInput.validationState w1
           = field "isValid" (PortugalRules.nipc (String.substring 0 9 d))
        /\ TaxDocumentInput.isValid w1
           = Return (w2, field "isValid" (PortugalRules.nipc (String.substring 0 9 d)))).
Proof.
  intros Hready d n.
  pose proof (typing_bundled ValidatorInstance_1_0_0 w "pt" Hready typed
                ltac:(simpl; tauto)) as Hdet.
  pose proof (typing_max ValidatorInstance_1_0_0 w "pt" Hready typed _ eq_refl) as Em.
  simpl in Em.
  unfold bundled_type, count_digits in Hdet. simpl in Hdet. fold d n in Hdet.
  destruct (Nat.leb_spec n 9) as [Hle|Hgt].
  - destruct (input_then_isValid ValidatorInstance_1_0_0 dispatched_1_0_0
                dispatched_1_0_0_registered
                w "pt" Hready typed cursorPosition _ "nif" _ 9 PortugalRules_1_0_0.nif
                eq_refl eq_refl ltac:(left; reflexivity)
                ltac:(simpl; left; reflexivity)
                Em Hdet) as (w1 & w2 & Hi & Hc & Ht & Hs & Hv).
    change (Z.to_nat 9) with 9%nat in *. fold d in Hc, Hs, Hv.
    rewrite (substring_0_all 9 d) in Hs, Hv by exact Hle. fold n in Hs, Hv.
    cbn [Doc.length] in Hs, Hv.
    exists w1, w2. split; [exact Hi|]. split; [exact Hc|].
    split; [intros _ | intros; lia].
    split; [exact Ht|]. rewrite Hs, Hv.
    destruct (Nat.eqb_spec n 9) as [->|Hne]; [split; reflexivity|].
    destruct (Z.eqb_spec (Z.of_nat n) 9); [lia|].
    destruct (Z.eqb_spec (Z.of_nat n) 0); [split; reflexivity|].
    destruct (Z.ltb_spec (Z.of_nat n) 9); [split; reflexivity | lia].
  - destruct (input_then_isValid ValidatorInstance_1_0_0 dispatched_1_0_0
                dispatched_1_0_0_registered
                w "pt" Hready typed cursorPosition _ "nipc" _ 9 PortugalRules.nipc
                eq_refl eq_refl ltac:(simpl; tauto)
                ltac:(simpl; right; left; reflexivity)
                Em Hdet) as (w1 & w2 & Hi & Hc & Ht & Hs & Hv).
    change (Z.to_nat 9) with 9%nat in *. fold d in Hc, Hs, Hv.
    rewrite (substring_0_length 9 d) in Hs, Hv. fold n in Hs, Hv.
    rewrite Nat.min_l in Hs, Hv by lia. simpl in Hs, Hv.
    exists w1, w2. split; [exact Hi|]. split; [exact Hc|].
    split; [intros; lia | intros _; repeat split; assumption].
Qed.

(** X23: the whole way for Portugal, by the version of PortugalRules
    that is registered. In both the clean value is the first 9 digits
    typed, the document type is nif as long as no more than 9 digits
    are typed, and only once a tenth digit is typed does it become
    nipc, and the verdict, also the one shown, that of the NIPC
    validator on the first 9 digits. With version 1.0.1, the
    registrations of dist/, a nif is never valid: the state shown is
    never valid and [isValid] answers false, whatever the digits. With
    version 1.0.0, the registrations of src/validators/rules/, on
    exactly 9 digits the state shown and [isValid] are the verdict of
    [nif]; on fewer the state is neutral and [isValid] answers
    false. *)
Theorem portugal_verdict (w : TaxDocumentInput.t) (typed : string) (cursorPosition : nat) :
  let d := strip_non_digits typed in
  let n := String.length d in
  (TaxDocumentInput.ready w "pt" ->
   exists w1 w2 : TaxDocumentInput.t,
     TaxDocumentInput.input w typed cursorPosition = Return w1
     /\ TaxDocumentInput.getCleanValue w1 = String.substring 0 9 d
     /\ ((n <= 9)%nat ->
         TaxDocumentInput.getCurrentDocumentType w1 = Some "nif"
         /\ TaxDocumentInput.validationState w1 <> Bool true
         /\ TaxDocumentInput.isValid w1 = Return (w2, Bool false))
     /\ ((9 < n)%nat ->
         TaxDocumentInput.getCurrentDocumentType w1 = Some "nipc"
         /\ TaxDocumentInput.validationState w1
            = field "isValid" (PortugalRules.nipc (String.substring 0 9 d))
         /\ TaxDocumentInput.isValid w1
            = Return (w2, field "isValid" (PortugalRules.nipc (String.substring 0 9 d)))))
  /\ (TaxDocumentInput.ready_1_0_0 w "pt" ->
      exists w1 w2 : TaxDocumentInput.t,
        TaxDocumentInput.input w typed cursorPosition = Return w1
        /\ TaxDocumentInput.getCleanValue w1 = String.substring 0 9 d
        /\ ((n <= 9)%nat ->
            TaxDocumentInput.getCurrentDocumentType w1 = Some "nif"
            /\ TaxDocumentInput.validationState w1
               = (if (n =? 9)%nat then field "isValid" (PortugalRules_1_0_0.nif d)
                  else Null)
            /\ TaxDocumentInput.isValid w1
               = Return (w2, if (n =? 9)%nat
                             then field "isValid" (PortugalRules_1_0_0.nif d)
                             else Bool false))
        /\ ((9 < n)%nat ->
            TaxDocumentInput.getCurrentDocumentType w1 = Some "nipc"
            /\ TaxDocumentInput.validationState w1
               = field "isValid" (PortugalRules.nipc (String.substring 0 9 d))
            /\ TaxDocumentInput.isValid w1
               = Return (w2, field "isValid"
                               (PortugalRules.nipc (String.substring 0 9 d))))).
Proof.
  intros d n. split.
  - exact (portugal_verdict_1_0_1 w typed cursorPosition).
  - exact (portugal_verdict_1_0_0 w typed cursorPosition).
Qed.

Lemma portugal_verdict_witness :
  (exists w1 w2 : TaxDocumentInput.t,
      TaxDocumentInput.input
        {| TaxDocumentInput.formatManager :=
             {| FormatManager.value := ""; FormatManager.countries := CountriesData;
                FormatManager.selectedCountry := "pt";
                FormatManager.currentDocument := Some "nif" |};
           TaxDocumentInput.selectedCountry := "pt";
           TaxDocumentInput.validationManager := ValidationManager.new ValidatorInstance;
           TaxDocumentInput.validationState := Null |}
        "123 456 789" 11 = Return w1
      /\ TaxDocumentInput.isValid w1 = Return (w2, Bool false))
  /\ (exists w1 w2 : TaxDocumentInput.t,
        TaxDocumentInput.input
          {| TaxDocumentInput.formatManager :=
               {| FormatManager.value := ""; FormatManager.countries := CountriesData;
                  FormatManager.selectedCountry := "pt";
                  FormatManager.currentDocument := Some "nif" |};
             TaxDocumentInput.selectedCountry := "pt";
             TaxDocumentInput.validationManager :=
               ValidationManager.new ValidatorInstance_1_0_0;
             TaxDocumentInput.validationState := Null |}
          "123 456 789" 11 = Return w1
        /\ TaxDocumentInput.validationState w1 = Bool true
        /\ TaxDocumentInput.isValid w1 = Return (w2, Bool true)).
Proof.
  split.
  - destruct (proj1 (portugal_verdict
                {| TaxDocumentInput.formatManager :=
                     {| FormatManager.value := ""; FormatManager.countries := CountriesData;
                        FormatManager.selectedCountry := "pt";
                        FormatManager.currentDocument := Some "nif" |};
                   TaxDocumentInput.selectedCountry := "pt";
                   TaxDocumentInput.validationManager := ValidationManager.new ValidatorInstance;
                   TaxDocumentInput.validationState := Null |}
                "123 456 789" 11))
      as (w1 & w2 & Hi & _ & Hnif & _).
    + repeat split.
    + exists w1, w2. split; [exact Hi|]. apply Hnif. vm_compute. lia.
  - destruct (proj2 (portugal_verdict
                {| TaxDocumentInput.formatManager :=
                     {| FormatManager.value := ""; FormatManager.countries := CountriesData;
                        FormatManager.selectedCountry := "pt";
                        FormatManager.currentDocument := Some "nif" |};
                   TaxDocumentInput.selectedCountry := "pt";
                   TaxDocumentInput.validationManager :=
                     ValidationManager.new ValidatorInstance_1_0_0;
                   TaxDocumentInput.validationState := Null |}
                "123 456 789" 11))
      as (w1 & w2 & Hi & _ & Hnif & _).
    + repeat split.
    + exists w1, w2. split; [exact Hi|].
      destruct Hnif as (_ & Hs & Hv); [vm_compute; lia|].
      split; [exact Hs | exact Hv].
Defined.

(* ================================================================== *)
(** * The check digits of a CPF *)
(* ================================================================== *)

Lemma check_digit_range (sum : Z) : 0 <= check_digit sum <= 9.
Proof.
  unfold check_digit. pose proof (Z.mod_pos_bound sum 11 ltac:(lia)).
  destruct (Z.ltb_spec (sum mod 11) 2); lia.
Qed.

Lemma digit_value_digit_char (z : Z) : 0 <= z <= 9 -> digit_value (digit_char z) = z.
Proof.
  intros H. unfold digit_value, digit_char.
  rewrite nat_ascii_embedding by lia. lia.
Qed.

Lemma digit_char_is_digit (z : Z) : 0 <= z <= 9 -> is_digit (digit_char z) = true.
Proof.
  intros H. unfold is_digit, digit_char.
  rewrite nat_ascii_embedding by lia.
  apply andb_true_iff. split; apply Nat.leb_le; lia.
Qed.

Lemma digit_char_digit_value (c : ascii) : is_digit c = true -> digit_char (digit_value c) = c.
Proof.
  unfold is_digit, digit_value, digit_char. intros [H1 H2]%andb_true_iff.
  apply Nat.leb_le in H1, H2.
  replace (Z.to_nat (Z.of_nat (nat_of_ascii c) - 48) + 48)%nat with (nat_of_ascii c) by lia.
  apply ascii_nat_embedding.
Qed.

Lemma cpf_valid_iff (base : string) (x y : ascii) :
  String.length base = 9%nat -> all_chars is_digit base = true ->
  is_digit x = true -> is_digit y = true ->
  let d := base ++ String x (String y "") in
  repeated_digit 10 d = false ->
  (field "isValid" (BrazilRules.cpf d) = Bool true
   <-> String x (String y "") = cpf_check_pair base).
Proof.
  intros Hlen Hb Hx Hy d Hrep. subst d. explode base Hlen.
  change (String c (String c0 (String c1 (String c2 (String c3 (String c4
    (String c5 (String c6 (String c7 "")))))))) ++ String x (String y ""))
    with (String c (String c0 (String c1 (String c2 (String c3 (String c4
    (String c5 (String c6 (String c7 (String x (String y ""))))))))))) in *.
  rewrite cpf_on_digits; [|reflexivity| |exact Hrep].
  2:{ simpl in *. rewrite Hx, Hy.
      repeat (apply andb_true_iff in Hb as [-> Hb]). reflexivity. }
  unfold cpf_result, cpf_check_pair.
  cbn [append digits map list_ascii_of_string firstn nth weighted_sum
       cpf_weights1 cpf_weights2 app].
  set (k1 := check_digit _).
  assert (0 <= k1 <= 9) as Hk1 by apply check_digit_range.
  destruct (Z.eqb_spec k1 (digit_value x)) as [E1|N1]; simpl negb; cbv iota.
  - rewrite <- E1.
    set (k2 := check_digit _).
    assert (0 <= k2 <= 9) as Hk2 by apply check_digit_range.
    destruct (Z.eqb_spec k2 (digit_value y)) as [E2|N2]; simpl negb; cbv iota.
    + split; [intros _ | reflexivity].
      rewrite E1, E2, !digit_char_digit_value by assumption. reflexivity.
    + split; [discriminate|]. intros [= _ Ey]. exfalso. apply N2.
      rewrite Ey, digit_value_digit_char by assumption. reflexivity.
  - split; [discriminate|]. intros [= Ex _]. exfalso. apply N1.
    rewrite Ex, digit_value_digit_char by assumption. reflexivity.
Qed.

(** X24: the nine first digits of a CPF determine its two last ones.
    For nine digits followed by two digits (not all eleven identical),
    [cpf] accepts the number exactly when the two last digits are the
    pair computed from the nine first: the first check digit from the
    weights 10..2, the second from the weights 11..2 over the nine
    digits and the first check digit. So of the endings that do not
    make the eleven digits identical, the computed pair is the only
    one accepted. *)
Theorem cpf_check_pair_unique (base : string) (x y : ascii) :
  String.length base = 9%nat -> all_chars is_digit base = true ->
  is_digit x = true -> is_digit y = true ->
  ~ all_identical (base ++ String x (String y "")) ->
  (field "isValid" (BrazilRules.cpf (base ++ String x (String y ""))) = Bool true
   <-> String x (String y "") = cpf_check_pair base).
Proof.
  intros Hlen Hb Hx Hy Hne.
  apply cpf_valid_iff; try assumption.
  apply repeated_digit_false; [| |assumption].
  - explode base Hlen. reflexivity.
  - explode base Hlen. simpl in Hb.
    repeat (apply andb_true_iff in Hb as [? Hb]).
    rewrite !append_cons. simpl.
    repeat (apply andb_true_iff; split; [assumption|]).
    reflexivity.
Qed.

Lemma cpf_check_pair_unique_witness :
  cpf_check_pair "123456789" = "09"
  /\ field "isValid" (BrazilRules.cpf "12345678909") = Bool true.
Proof.
  split; [reflexivity|].
  apply (cpf_check_pair_unique "123456789" "0" "9");
    [reflexivity | reflexivity | reflexivity | reflexivity | | reflexivity].
  intros H. specialize (H 0%nat 1%nat "1"%char "2"%char eq_refl eq_refl).
  discriminate H.
Defined.
